(** * PaymentReminderCallerAgent: call orchestration, webhook reconciliation,
      spreadsheet gateway and outcome classifier

    A shallow embedding of
      - services/call_orchestrator.py  (module [Orchestrator])
      - services/google_sheets.py      (module [Sheets])
      - services/response_parser.py    (module [Classifier])
      - database/models.py, database/database.py (module [Db])
      - api/routes/webhook.py          (module [Webhook])
    together with the fragment of Python they rely on (module [Py]).

    Python strings are sequences of Unicode code points, Python floats are
    IEEE-754 binary64 numbers (the Standard Library's [spec_float] with
    [prec = 53] and [emax = 1024]), dictionaries keep insertion order, and
    [try]/[except], the database session of [get_db] and the external services
    are explicit: a computation is a function from the world to an outcome
    (a value or a raised exception) and a new world.  Logging is not
    modelled. *)

From Stdlib Require Import ZArith NArith QArith List String Ascii Bool Lia.
From Stdlib Require Import SpecFloat DecimalString.
Import ListNotations.
Close Scope Q_scope.

Set Implicit Arguments.
Set Warnings "-register-all,-abstract-large-number".

(* ================================================================== *)
(** * Python fragment *)
(* ================================================================== *)

Module Py.

(** ** Strings *)

(** A [str] is a list of code points. *)
Definition pystr := list N.

(** An ASCII literal. *)
Definition u (s : string) : pystr :=
  List.map N_of_ascii (list_ascii_of_string s).

Fixpoint str_eqb (a b : pystr) : bool :=
  match a, b with
  | [], [] => true
  | x :: a', y :: b' => N.eqb x y && str_eqb a' b'
  | _, _ => false
  end.

(** [s.startswith(p)] *)
Fixpoint startswith (p s : pystr) : bool :=
  match p, s with
  | [], _ => true
  | x :: p', y :: s' => N.eqb x y && startswith p' s'
  | _ :: _, [] => false
  end.

(** [sub in s] *)
Fixpoint contains (sub s : pystr) : bool :=
  startswith sub s ||
  match s with
  | [] => false
  | _ :: s' => contains sub s'
  end.

(** [s.replace(old, new)]: the occurrences of [old] are found from the left
    and do not overlap; [skip] counts the characters of the occurrence just
    replaced that are still to be passed over. *)
Fixpoint replace_from (old new : pystr) (skip : nat) (s : pystr) : pystr :=
  match s with
  | [] => []
  | c :: s' =>
      match skip with
      | S k => replace_from old new k s'
      | O =>
          if startswith old s
          then new ++ replace_from old new (Nat.pred (List.length old)) s'
          else c :: replace_from old new 0%nat s'
      end
  end.

Definition replace (old new s : pystr) : pystr :=
  match old with
  | [] => new ++ flat_map (fun c => c :: new) s
  | _ :: _ => replace_from old new 0%nat s
  end.

(** [c.isspace()]: the white-space code points of CPython's Unicode
    database. *)
Definition isspace (c : N) : bool :=
  (((9 <=? c) && (c <=? 13)) || ((28 <=? c) && (c <=? 32))
   || (c =? 133) || (c =? 160) || (c =? 5760)
   || ((8192 <=? c) && (c <=? 8202))
   || (c =? 8232) || (c =? 8233) || (c =? 8239) || (c =? 8287)
   || (c =? 12288))%N.

Fixpoint lstrip (s : pystr) : pystr :=
  match s with
  | c :: s' => if isspace c then lstrip s' else s
  | [] => []
  end.

(** [s.strip()] *)
Definition strip (s : pystr) : pystr := rev (lstrip (rev (lstrip s))).

(** [sep.join(parts)] *)
Fixpoint join (sep : pystr) (parts : list pystr) : pystr :=
  match parts with
  | [] => []
  | [p] => p
  | p :: ps => p ++ sep ++ join sep ps
  end.

(** [str(n)] for an [int] *)
Definition str_of_int (n : Z) : pystr :=
  u (NilZero.string_of_int (Z.to_int n)).

Definition is_ascii (c : N) : bool := (c <? 128)%N.
Definition ascii_isdigit (c : N) : bool := ((48 <=? c) && (c <=? 57))%N.
Definition ascii_isupper (c : N) : bool := ((65 <=? c) && (c <=? 90))%N.
Definition ascii_islower (c : N) : bool := ((97 <=? c) && (c <=? 122))%N.
Definition ascii_lower (c : N) : N :=
  if ascii_isupper c then (c + 32)%N else c.
Definition ascii_upper (c : N) : N :=
  if ascii_islower c then (c - 32)%N else c.

(** [s.title()] on an ASCII string: a cased character is upper-cased when
    the character before it is not cased and lower-cased otherwise. *)
Fixpoint ascii_title_from (prev_cased : bool) (s : pystr) : pystr :=
  match s with
  | [] => []
  | c :: s' =>
      let cased := ascii_isupper c || ascii_islower c in
      (if prev_cased then ascii_lower c else ascii_upper c)
        :: ascii_title_from cased s'
  end.

(** The part of the Unicode character database the code consults beyond
    ASCII.  On ASCII strings the methods below are fixed by the definitions;
    the tables only decide what happens on other code points. *)
Class Unicode := {
  uni_isdigit : N -> bool;          (* c.isdigit() *)
  uni_decimal : N -> option N;      (* value of a decimal digit (category Nd) *)
  uni_isupper : N -> bool;          (* c.isupper() *)
  uni_lower : pystr -> pystr;       (* s.lower() *)
  uni_upper : pystr -> pystr;       (* s.upper() *)
  uni_title : pystr -> pystr        (* s.title() *)
}.

Section Methods.
Context {U : Unicode}.

(** [c.isdigit()] for a single character *)
Definition isdigit (c : N) : bool :=
  if is_ascii c then ascii_isdigit c else uni_isdigit c.

(** [c.isupper()] for a single character *)
Definition isupper (c : N) : bool :=
  if is_ascii c then ascii_isupper c else uni_isupper c.

(** [s.isdigit()]: every character is a digit and there is at least one *)
Definition str_isdigit (s : pystr) : bool :=
  negb (Nat.eqb (List.length s) 0%nat) && forallb isdigit s.

Definition lower (s : pystr) : pystr :=
  if forallb is_ascii s then List.map ascii_lower s else uni_lower s.

Definition upper (s : pystr) : pystr :=
  if forallb is_ascii s then List.map ascii_upper s else uni_upper s.

Definition title (s : pystr) : pystr :=
  if forallb is_ascii s then ascii_title_from false s else uni_title s.

(** The decimal digit a character stands for in [float(s)] and [int(s)]. *)
Definition decimal_value (c : N) : option Z :=
  if is_ascii c then
    if ascii_isdigit c then Some (Z.of_N (c - 48)) else None
  else option_map Z.of_N (uni_decimal c).
End Methods.

(** The tables of a database without any digit or cased character beyond
    ASCII: enough to run the code on ASCII data. *)
Definition ascii_only : Unicode := {|
  uni_isdigit := fun _ => false;
  uni_decimal := fun _ => None;
  uni_isupper := fun _ => false;
  uni_lower := fun s => List.map ascii_lower s;
  uni_upper := fun s => List.map ascii_upper s;
  uni_title := fun s => ascii_title_from false s
|}.

(** ** Exceptions *)

Inductive exn_kind :=
  | AttributeError | TypeError | ValueError | KeyError
  | ZeroDivisionError | OverflowError | IntegrityError
  | ServiceError.     (* raised by an external service or library *)

Record exn := mkExn { exn_kind_of : exn_kind; exn_msg : pystr }.

(** The outcome of evaluating an expression: a value or a raised exception. *)
Inductive result (A : Type) :=
  | Ok (a : A)
  | Raise (e : exn).
Arguments Ok {A} a.
Arguments Raise {A} e.

Definition rbind {A B} (r : result A) (f : A -> result B) : result B :=
  match r with
  | Ok a => f a
  | Raise e => Raise e
  end.

(** ** Floats *)

Definition float := spec_float.
Definition prec : Z := 53%Z.
Definition emax : Z := 1024%Z.

Definition fzero : float := S754_zero false.

(** [float(n)] for an [int]: the nearest binary64, ties to even. *)
Definition float_of_Z (n : Z) : float := binary_normalize prec emax n 0%Z false.

(** The binary64 nearest to [n / d] for [0 <= n], [0 < d], ties to even. *)
Definition float_of_ratio (n d : Z) : float :=
  match n with
  | Z0 => fzero
  | _ =>
      let '(q, e, l) := SFdiv_core_binary prec emax n 0%Z d 0%Z in
      binary_round_aux prec emax false q e l
  end.

Definition fleb (x y : float) : bool := SFleb x y.
Definition fltb (x y : float) : bool := SFltb x y.
Definition fsub (x y : float) : float := SFsub prec emax x y.

Section FloatOfStr.
Context {U : Unicode}.

(** Reads the digits of [s] up to its end or to the first '.': the number
    read so far, and what follows it.  [None] when a character is neither
    a decimal digit nor '.'. *)
Fixpoint read_digits (acc : Z) (count : nat) (s : pystr)
  : option (Z * nat * pystr) :=
  match s with
  | [] => Some (acc, count, [])
  | c :: s' =>
      if (c =? 46)%N then Some (acc, count, s)
      else match decimal_value c with
           | Some d => read_digits (10 * acc + d)%Z (S count) s'
           | None => None
           end
  end.

Definition float_ValueError (s : pystr) : exn :=
  mkExn ValueError (u "could not convert string to float: " ++ s).

(** [float(s)] for a string [s] made of digit characters and '.', which is
    what [_parse_amount] passes.  The literal needs at least one digit, at
    most one '.', and digits that are decimal digits; its value is rounded
    to the nearest binary64 and overflows to infinity. *)
Definition float_of_str (s : pystr) : result float :=
  match read_digits 0%Z 0%nat s with
  | None => Raise (float_ValueError s)
  | Some (ip, ni, []) =>
      if Nat.eqb ni 0%nat then Raise (float_ValueError s)
      else Ok (float_of_ratio ip 1%Z)
  | Some (ip, ni, _ :: frac) =>
      match read_digits ip 0%nat frac with
      | Some (m, nf, []) =>
          if Nat.eqb (ni + nf)%nat 0%nat then Raise (float_ValueError s)
          else Ok (float_of_ratio m (10 ^ Z.of_nat nf)%Z)
      | _ => Raise (float_ValueError s)
      end
  end.
End FloatOfStr.

(** The rational a finite float stands for (0 for infinities and NaN). *)
Definition Q_of_float (x : float) : Q :=
  match x with
  | S754_finite sg m e =>
      let v := match e with
               | Zneg k => Qmake (Z.pos m) (2 ^ k)
               | _ => inject_Z (Z.pos m * 2 ^ e)
               end in
      if sg then Qopp v else v
  | _ => 0%Q
  end.

(** ** Values *)

Record date := mkDate { year : Z; month : Z; day : Z }.

(** What [json.loads] and [request.json()] build. *)
Inductive json :=
  | JNull
  | JBool (b : bool)
  | JInt (n : Z)
  | JFloat (x : float)
  | JStr (s : pystr)
  | JList (l : list json)
  | JDict (d : list (pystr * json)).

(** The values of the classifier's outcome dictionary and of the columns
    filled from it: JSON values and [datetime.date] objects. *)
Inductive pyval :=
  | J (j : json)
  | VDate (d : date).

Definition VNone : pyval := J JNull.
Definition VFalse : pyval := J (JBool false).
Definition VStr (s : pystr) : pyval := J (JStr s).

(** Truth value of [if v] / [not v] / [v and w]. *)
Definition json_truthy (j : json) : bool :=
  match j with
  | JNull => false
  | JBool b => b
  | JInt n => negb (Z.eqb n 0)
  | JFloat x => match x with S754_zero _ => false | _ => true end
  | JStr s => match s with [] => false | _ => true end
  | JList l => match l with [] => false | _ => true end
  | JDict d => match d with [] => false | _ => true end
  end.

Definition truthy (v : pyval) : bool :=
  match v with
  | J j => json_truthy j
  | VDate _ => true
  end.

(** [v == 'literal'] for a string literal *)
Definition json_eq_str (j : json) (s : pystr) : bool :=
  match j with
  | JStr t => str_eqb t s
  | _ => false
  end.

Definition eq_str (v : pyval) (s : pystr) : bool :=
  match v with
  | J j => json_eq_str j s
  | VDate _ => false
  end.

(** ** Dictionaries with string keys, in insertion order *)

Section Dict.
Variable V : Type.

Fixpoint dict_lookup (k : pystr) (d : list (pystr * V)) : option V :=
  match d with
  | [] => None
  | (k', v) :: d' => if str_eqb k' k then Some v else dict_lookup k d'
  end.

(** [d[k] = v] *)
Fixpoint dict_set (k : pystr) (v : V) (d : list (pystr * V))
  : list (pystr * V) :=
  match d with
  | [] => [(k, v)]
  | (k', v') :: d' =>
      if str_eqb k' k then (k, v) :: d' else (k', v') :: dict_set k v d'
  end.

(** [d.get(k, default)] *)
Definition dict_get (k : pystr) (default : V) (d : list (pystr * V)) : V :=
  match dict_lookup k d with
  | Some v => v
  | None => default
  end.
End Dict.

Definition no_attribute (name : string) : exn :=
  mkExn AttributeError (u "object has no attribute '" ++ u name ++ u "'").

(** [j.get(k, default)] on a value that may or may not be a dictionary *)
Definition json_get (j : json) (k : pystr) (default : json) : result json :=
  match j with
  | JDict d => Ok (dict_get k default d)
  | _ => Raise (no_attribute "get")
  end.

(** ** Arithmetic on JSON numbers *)

Inductive number :=
  | NumInt (n : Z)
  | NumFloat (x : float).

(** [bool] is a subclass of [int]. *)
Definition as_number (j : json) : option number :=
  match j with
  | JBool b => Some (NumInt (if b then 1 else 0)%Z)
  | JInt n => Some (NumInt n)
  | JFloat x => Some (NumFloat x)
  | _ => None
  end.

(** The conversion of an [int] operand in mixed arithmetic. *)
Definition int_to_float (n : Z) : result float :=
  match float_of_Z n with
  | S754_infinity _ =>
      Raise (mkExn OverflowError (u "int too large to convert to float"))
  | x => Ok x
  end.

(** [a - b] *)
Definition json_sub (a b : json) : result json :=
  match as_number a, as_number b with
  | Some (NumInt x), Some (NumInt y) => Ok (JInt (x - y)%Z)
  | Some (NumInt x), Some (NumFloat y) =>
      rbind (int_to_float x) (fun fx => Ok (JFloat (fsub fx y)))
  | Some (NumFloat x), Some (NumInt y) =>
      rbind (int_to_float y) (fun fy => Ok (JFloat (fsub x fy)))
  | Some (NumFloat x), Some (NumFloat y) => Ok (JFloat (fsub x y))
  | _, _ =>
      Raise (mkExn TypeError (u "unsupported operand type(s) for -"))
  end.

End Py.

(* ================================================================== *)
(** * database/models.py and database/database.py *)
(* ================================================================== *)

Module Db.
Import Py.

(** A row holds what the code assigns to it.  Uniqueness and NOT NULL of the
    columns the orchestrator fills are checked when a row is inserted;
    whether the column types and the driver take the values assigned to a
    call log is decided when the session commits ([Effects.with_db]). *)

Inductive PaymentStatus := PENDING | PAID | OVERDUE | DISPUTED | WILL_PAY.

Inductive CallStatus :=
  | COMPLETED | FAILED | NO_ANSWER | BUSY | VOICEMAIL | IN_PROGRESS.

(** Time stamps ([datetime.utcnow]) are readings of the world's clock, in
    seconds. *)
Definition datetime := Q.

Module Client.
Record t := mk {
  id : Z;
  client_name : pystr;
  company_name : pystr;
  contact_number : pystr;              (* unique, not null *)
  email : option pystr;
  google_sheet_id : option pystr;
  preferred_language : pystr;
  created_at : datetime;
  updated_at : datetime
}.

Definition set_google_sheet_id (c : t) (sid : option pystr) (now : datetime)
  : t :=
  mk (id c) (client_name c) (company_name c) (contact_number c) (email c)
     sid (preferred_language c) (created_at c) now.
End Client.

Module Invoice.
Record t := mk {
  id : Z;
  client_id : Z;                       (* clients.id, not null *)
  invoice_id : pystr;                  (* unique, not null *)
  amount_due : float;                  (* not null *)
  due_date : date;                     (* not null *)
  payment_status : PaymentStatus;
  remarks : option pystr;
  created_at : datetime;
  updated_at : datetime
}.

Definition set_payment_status (i : t) (st : PaymentStatus) (now : datetime)
  : t :=
  mk (id i) (client_id i) (invoice_id i) (amount_due i) (due_date i)
     st (remarks i) (created_at i) now.

Definition is_paid (i : t) : bool :=
  match payment_status i with PAID => true | _ => false end.
End Invoice.

Module CallLog.
Record t := mk {
  id : Z;
  invoice_id : Z;                      (* invoices.id, not null *)
  vapi_call_id : option pystr;         (* unique *)
  call_made_on : datetime;
  call_duration : pyval;
  call_status : CallStatus;
  transcript : pyval;
  summary : pyval;
  recording_url : pyval;
  payment_promised : pyval;
  payment_promise_date : pyval;
  needs_invoice_resend : pyval;
  customer_disputed : pyval;
  dispute_reason : pyval;
  next_follow_up_date : pyval;
  language_detected : pyval;
  customer_sentiment : pyval;
  call_outcome : pyval;
  cost : pyval;
  created_at : datetime
}.

Definition set_call_status (l : t) (st : CallStatus) : t :=
  mk (id l) (invoice_id l) (vapi_call_id l) (call_made_on l)
     (call_duration l) st (transcript l) (summary l) (recording_url l)
     (payment_promised l) (payment_promise_date l) (needs_invoice_resend l)
     (customer_disputed l) (dispute_reason l) (next_follow_up_date l)
     (language_detected l) (customer_sentiment l) (call_outcome l)
     (cost l) (created_at l).
End CallLog.

(** The three tables the orchestrator uses, rows in insertion order. *)
Record DB := mkDB {
  clients : list Client.t;
  invoices : list Invoice.t;
  call_logs : list CallLog.t
}.

Definition empty_db : DB := mkDB [] [] [].

(** The next value of an integer primary key. *)
Definition next_id (ids : list Z) : Z :=
  (1 + fold_right Z.max 0 ids)%Z.

(** [db.query(Client).filter(Client.contact_number == n).first()] *)
Definition client_by_contact_number (d : DB) (n : pystr)
  : option Client.t :=
  find (fun c => str_eqb (Client.contact_number c) n) (clients d).

(** [db.query(Invoice).filter(Invoice.invoice_id == i).first()] *)
Definition invoice_by_invoice_id (d : DB) (i : pystr) : option Invoice.t :=
  find (fun v => str_eqb (Invoice.invoice_id v) i) (invoices d).

(** The store is SQLite, reached through its Python driver.  The column
    [vapi_call_id] holds text, and a value bound to a comparison with it is
    compared as text: a string as it is, an integer by its decimal digits
    (a [bool] is the integer 1 or 0), a float by the text SQLite writes it
    as. *)
Class Sqlite := {
  (* CAST(x AS TEXT) for a REAL; nothing for a NaN, which is bound as NULL *)
  real_text : float -> option pystr
}.

Definition int64 (n : Z) : bool :=
  ((- 2 ^ 63 <=? n) && (n <? 2 ^ 63))%Z.

(** What the driver raises for a value it cannot bind: a list, a
    dictionary, an integer beyond 64 bits. *)
Definition bind_error (v : json) : option exn :=
  match v with
  | JList _ | JDict _ =>
      Some (mkExn ServiceError (u "Error binding parameter"))
  | JInt n =>
      if int64 n then None
      else Some (mkExn OverflowError
                   (u "Python int too large to convert to SQLite INTEGER"))
  | _ => None
  end.

Section Queries.
Context {Sq : Sqlite}.

(** The text a bound value is compared as; nothing for NULL and for a value
    that cannot be bound. *)
Definition bound_text (v : json) : option pystr :=
  match v with
  | JStr s => Some s
  | JInt n => if int64 n then Some (str_of_int n) else None
  | JBool b => Some (if b then u "1" else u "0")
  | JFloat x => real_text x
  | JNull | JList _ | JDict _ => None
  end.

(** [db.query(CallLog).filter(CallLog.vapi_call_id == cid).first()]: the
    first row whose [vapi_call_id] is the text [cid] is compared as; no row
    when there is none, and also when [cid] cannot be bound: the query then
    raises [bind_error]. *)
Definition call_log_by_vapi_call_id (d : DB) (cid : json)
  : option CallLog.t :=
  match bound_text cid with
  | Some s =>
      find (fun l => match CallLog.vapi_call_id l with
                     | Some t => str_eqb t s
                     | None => false
                     end) (call_logs d)
  | None => None
  end.

End Queries.

(** The relationships [call_log.invoice] and [invoice.client]. *)
Definition invoice_of (d : DB) (l : CallLog.t) : option Invoice.t :=
  find (fun v => Z.eqb (Invoice.id v) (CallLog.invoice_id l)) (invoices d).

Definition client_of (d : DB) (v : Invoice.t) : option Client.t :=
  find (fun c => Z.eqb (Client.id c) (Invoice.client_id v)) (clients d).

Definition integrity_error (what : string) : exn :=
  mkExn IntegrityError (u what).

(** [db.add(Client(...)); db.flush()] *)
Definition add_client (d : DB) (client_name company_name contact_number : pystr)
    (google_sheet_id : pystr) (now : datetime) : result (DB * Client.t) :=
  if existsb (fun c => str_eqb (Client.contact_number c) contact_number)
       (clients d)
  then Raise (integrity_error "UNIQUE constraint failed: clients.contact_number")
  else
    let c := Client.mk (next_id (List.map Client.id (clients d)))
               client_name company_name contact_number None
               (Some google_sheet_id) (u "hindi") now now in
    Ok (mkDB (clients d ++ [c]) (invoices d) (call_logs d), c).

(** [db.add(Invoice(...)); db.flush()] *)
Definition add_invoice (d : DB) (client_id : Z) (invoice_id : pystr)
    (amount_due : float) (due_date : option date) (now : datetime)
  : result (DB * Invoice.t) :=
  match due_date with
  | None =>
      Raise (integrity_error "NOT NULL constraint failed: invoices.due_date")
  | Some dd =>
      if existsb (fun v => str_eqb (Invoice.invoice_id v) invoice_id)
           (invoices d)
      then Raise (integrity_error "UNIQUE constraint failed: invoices.invoice_id")
      else
        let v := Invoice.mk (next_id (List.map Invoice.id (invoices d)))
                   client_id invoice_id amount_due dd PENDING None now now in
        Ok (mkDB (clients d) (invoices d ++ [v]) (call_logs d), v)
  end.

(** [db.add(CallLog(invoice_id=..., vapi_call_id=..., call_status=...))],
    written when the session commits; the other columns take their
    defaults. *)
Definition add_call_log (d : DB) (invoice_id : Z) (vapi_call_id : pystr)
    (st : CallStatus) (now : datetime) : result DB :=
  if existsb (fun l => match CallLog.vapi_call_id l with
                       | Some t => str_eqb t vapi_call_id
                       | None => false
                       end) (call_logs d)
  then Raise (integrity_error "UNIQUE constraint failed: call_logs.vapi_call_id")
  else
    let l := CallLog.mk (next_id (List.map CallLog.id (call_logs d)))
               invoice_id (Some vapi_call_id) now VNone st VNone VNone VNone
               VFalse VNone VFalse VFalse VNone VNone VNone VNone VNone VNone
               now in
    Ok (mkDB (clients d) (invoices d) (call_logs d ++ [l])).

(** Writing back a modified row, found by its primary key. *)
Definition update_client (d : DB) (c : Client.t) : DB :=
  mkDB (List.map (fun x => if Z.eqb (Client.id x) (Client.id c) then c else x)
          (clients d))
       (invoices d) (call_logs d).

Definition update_invoice (d : DB) (v : Invoice.t) : DB :=
  mkDB (clients d)
       (List.map (fun x => if Z.eqb (Invoice.id x) (Invoice.id v) then v else x)
          (invoices d))
       (call_logs d).

Definition update_call_log (d : DB) (l : CallLog.t) : DB :=
  mkDB (clients d) (invoices d)
       (List.map (fun x => if Z.eqb (CallLog.id x) (CallLog.id l) then l else x)
          (call_logs d)).

End Db.

(* ================================================================== *)
(** * The world: store, clock, external services *)
(* ================================================================== *)

Module Effects.
Import Py Db.

(** The payment dictionary built by [get_pending_payments]; the two [db_]
    keys are absent until [sync_to_database] adds them. *)
Module Payment.
Record t := mk {
  client_name : pystr;
  company_name : pystr;
  contact_number : pystr;
  invoice_id : pystr;
  amount_due : float;
  due_date : option date;
  payment_status : pystr;
  row_number : Z;
  db_invoice_id : option Z;
  db_client_id : option Z
}.

Definition set_db_ids (p : t) (inv cl : Z) : t :=
  mk (client_name p) (company_name p) (contact_number p) (invoice_id p)
     (amount_due p) (due_date p) (payment_status p) (row_number p)
     (Some inv) (Some cl).
End Payment.

(** The arguments of one [_update_google_sheet_from_call]. *)
Record sheet_update := mkSheetUpdate {
  su_invoice_id : pystr;
  su_call_made_on : datetime;
  su_response_summary : pystr;
  su_next_follow_up_date : pyval;
  su_payment_status : pyval;
  su_client_sheet_id : option pystr;
  su_parsed_outcome : list (pystr * pyval);
  su_recording_url : pyval
}.

(** What the process did to the outside, oldest first. *)
Inductive event :=
  | CallRequested (p : Payment.t)           (* vapi_service.make_outbound_call *)
  | Slept (seconds : float)                 (* asyncio.sleep *)
  | ModelAsked (transcript summary : json)  (* model.generate_content *)
  | SheetFetched (sheet_id : option pystr)  (* worksheet.get_all_values *)
  | SheetUpdateRequested (x : sheet_update).

Record World := mkWorld {
  db : DB;
  clock : Q;
  events : list event
}.

Definition set_db (w : World) (d : DB) : World :=
  mkWorld d (clock w) (events w).

Definition emit (w : World) (e : event) : World :=
  mkWorld (db w) (clock w) (events w ++ [e]).

Definition advance (w : World) (dt : Q) : World :=
  mkWorld (db w) (clock w + dt)%Q (events w).

(** config/settings.py, the values read by the orchestrator. *)
Class Settings := {
  google_sheet_id : pystr;
  call_rate_limit_per_minute : Z;
  business_start_time : Q;      (* seconds after local midnight *)
  business_end_time : Q
}.

(** The collaborators outside the repository.  Each answer may depend on
    everything that happened before ([events]). *)
Class Services := {
  (* datetime.strptime(s, fmt).date() *)
  strptime : pystr -> pystr -> result date;
  (* d.strftime(fmt) *)
  strftime : date -> pystr -> pystr;
  (* str(v) for a value that is not a string, None or a bool *)
  repr_other : pyval -> pystr;
  (* json.loads *)
  json_loads : pystr -> result json;
  (* model.generate_content(prompt).text, the prompt being
     RESPONSE_CLASSIFICATION_PROMPT filled with transcript and summary *)
  generate_content : list event -> json -> json -> result pystr;
  (* vapi_service.make_outbound_call: the call id, and the time it took *)
  make_outbound_call : list event -> Payment.t -> option pystr * Q;
  (* sheet.sheet1.get_all_values() of get_sheet(sheet_id) *)
  get_all_values : list event -> option pystr -> result (list (list pystr));
  (* datetime.now(self.timezone).time(), seconds after local midnight *)
  local_time_of_day : Q -> Q;
  (* logger.error(message, exc_info=True): the logger formats the message
     with the keyword, and that raises when the message has braces that are
     no field it knows; the exception, if any *)
  logger_error_exc_info : pystr -> option exn;
  (* what leaves _update_google_sheet_from_call, if anything: it catches
     every exception of its own, and its error log can raise *)
  sheet_update_raises : list event -> sheet_update -> option exn;
  (* the flush of a call log at db.commit(), given the row as it was read
     and as the code assigned it: the exception, if a column type or the
     driver rejects a value *)
  flush_call_log : CallLog.t -> CallLog.t -> option exn
}.

(** ** Computations *)

Definition M (A : Type) : Type := World -> result A * World.

Definition ret {A} (a : A) : M A := fun w => (Ok a, w).

Definition raise {A} (e : exn) : M A := fun w => (Raise e, w).

Definition bind {A B} (m : M A) (f : A -> M B) : M B :=
  fun w =>
    match m w with
    | (Ok a, w') => f a w'
    | (Raise e, w') => (Raise e, w')
    end.

Definition lift {A} (r : result A) : M A := fun w => (r, w).

Definition get_world : M World := fun w => (Ok w, w).

Definition modify (f : World -> World) : M unit := fun w => (Ok tt, f w).

(** [try: body  except Exception as e: handler(e)] *)
Definition try_except {A} (body : M A) (handler : exn -> M A) : M A :=
  fun w =>
    match body w with
    | (Ok a, w') => (Ok a, w')
    | (Raise e, w') => handler e w'
    end.

(** [if o: raise o] *)
Definition raise_if (o : option exn) : M unit :=
  fun w =>
    match o with
    | Some e => (Raise e, w)
    | None => (Ok tt, w)
    end.

(** [with get_db() as db: body]: when the body ends the session commits,
    and [commit] is what the flush of the rows the body assigned raises, if
    anything; then, and when the body raises, the session is rolled back
    and the exception raised again. *)
Definition with_db {A} (commit : A -> option exn) (body : M A) : M A :=
  fun w =>
    match body w with
    | (Ok a, w') =>
        match commit a with
        | None => (Ok a, w')
        | Some e => (Raise e, set_db w' (db w))
        end
    | (Raise e, w') => (Raise e, set_db w' (db w))
    end.

(** The commit of a session that wrote only values of the columns' own
    types (keys, enumeration members, strings, floats and dates the code
    made itself): there is nothing the flush rejects. *)
Definition typed_writes {A} (a : A) : option exn := None.

(** [await asyncio.sleep(d)]: returns at once when [d <= 0]. *)
Definition asyncio_sleep (d : float) : M unit :=
  fun w =>
    let dt := Q_of_float d in
    (Ok tt, advance (emit w (Slept d)) (if Qle_bool dt 0 then 0 else dt)).

End Effects.

Declare Scope py_scope.
Delimit Scope py_scope with py.
Notation "x <- m ;; k" := (Effects.bind m (fun x => k))
  (at level 61, m at next level, right associativity) : py_scope.
Notation "m ;;; k" := (Effects.bind m (fun _ => k))
  (at level 61, right associativity) : py_scope.

(* ================================================================== *)
(** * services/response_parser.py *)
(* ================================================================== *)

Module Classifier.
Import Py Db Effects.
Local Open Scope py_scope.

(** ** [_clean_json_response] *)

Definition open_brace : N := 123%N.
Definition close_brace : N := 125%N.
Definition fence : pystr := u "```".
Definition fence_json : pystr := u "```json".

(** [.*?\}] followed by the rest of the pattern: the shortest run of
    characters ending in a closing brace after which [rest_ok] holds. *)
Fixpoint lazy_to_brace (rest_ok : pystr -> bool) (s : pystr) : option pystr :=
  match s with
  | [] => None
  | c :: s' =>
      if N.eqb c close_brace && rest_ok s' then Some [c]
      else option_map (cons c) (lazy_to_brace rest_ok s')
  end.

(** A match of [```json\s*(\{.*?\})\s*```] starting at the head of [s]:
    the captured group. *)
Definition fenced_at (s : pystr) : option pystr :=
  if startswith fence_json s then
    match lstrip (skipn (List.length fence_json) s) with
    | c :: r =>
        if N.eqb c open_brace
        then option_map (cons c)
               (lazy_to_brace (fun t => startswith fence (lstrip t)) r)
        else None
    | [] => None
    end
  else None.

(** A match of [(\{.*?\})] starting at the head of [s]. *)
Definition bare_at (s : pystr) : option pystr :=
  match s with
  | c :: r =>
      if N.eqb c open_brace
      then option_map (cons c) (lazy_to_brace (fun _ => true) r)
      else None
  | [] => None
  end.

(** [re.search]: the match at the leftmost position that has one. *)
Fixpoint search (at_head : pystr -> option pystr) (s : pystr)
  : option pystr :=
  match at_head s with
  | Some g => Some g
  | None =>
      match s with
      | [] => None
      | _ :: s' => search at_head s'
      end
  end.

Definition _clean_json_response (text : pystr) : pystr :=
  match search fenced_at text with
  | Some g => g
  | None =>
      match search bare_at text with
      | Some g => g
      | None => u "{}"
      end
  end.

(** ** [parse_call_outcome] *)

Definition outcome := list (pystr * pyval).

Definition k_payment_status := u "payment_status".
Definition k_payment_promised := u "payment_promised".
Definition k_payment_promise_date := u "payment_promise_date".
Definition k_needs_invoice_resend := u "needs_invoice_resend".
Definition k_customer_disputed := u "customer_disputed".
Definition k_dispute_reason := u "dispute_reason".
Definition k_next_follow_up_date := u "next_follow_up_date".
Definition k_language_detected := u "language_detected".
Definition k_customer_sentiment := u "customer_sentiment".
Definition k_notes := u "notes".
Definition k_call_outcome := u "call_outcome".

(** The dictionary returned by the [except] branch. *)
Definition fallback (e : exn) : outcome :=
  [ (k_payment_status, VStr (u "other"));
    (k_payment_promised, VFalse);
    (k_payment_promise_date, VNone);
    (k_needs_invoice_resend, VFalse);
    (k_customer_disputed, VFalse);
    (k_dispute_reason, VNone);
    (k_next_follow_up_date, VNone);
    (k_language_detected, VStr (u "unknown"));
    (k_customer_sentiment, VStr (u "neutral"));
    (k_notes, VStr (u "Error parsing: " ++ exn_msg e));
    (k_call_outcome, VStr (u "unsuccessful")) ].

Section WithServices.
Context {U : Unicode} {Sv : Services}.

(** [try: datetime.strptime(v, '%Y-%m-%d').date()  except: None] *)
Definition date_or_none (v : pyval) : pyval :=
  match v with
  | J (JStr s) =>
      match strptime s (u "%Y-%m-%d") with
      | Ok d => VDate d
      | Raise _ => VNone
      end
  | _ => VNone
  end.

(** [if result.get(k): result[k] = <date or None>] *)
Definition convert_date (k : pystr) (r : outcome) : outcome :=
  let v := dict_get k VNone r in
  if truthy v then dict_set k (date_or_none v) r else r.

(** [summary or "Not provided"] *)
Definition summary_or_default (summary : json) : json :=
  if json_truthy summary then summary else JStr (u "Not provided").

(** The body of the [try]. *)
Definition parse_call_outcome_body (transcript summary : json) : M outcome :=
  let summary' := summary_or_default summary in
  w <- get_world ;;
  modify (fun w => emit w (ModelAsked transcript summary')) ;;;
  text <- lift (generate_content (events w) transcript summary') ;;
  let json_string := _clean_json_response text in
  result <- lift (json_loads json_string) ;;
  match result with
  | JDict d =>
      let r := List.map (fun kv => (fst kv, J (snd kv))) d in
      let r := convert_date k_payment_promise_date r in
      let r := convert_date k_next_follow_up_date r in
      ret r
  | _ => raise (no_attribute "get")
  end.

Definition parse_call_outcome (transcript summary : json) : M outcome :=
  try_except (parse_call_outcome_body transcript summary)
             (fun e => ret (fallback e)).

(** ** [generate_summary] *)

(** [str(v)] as an f-string shows it *)
Definition str_of (v : pyval) : pystr :=
  match v with
  | J (JStr s) => s
  | J JNull => u "None"
  | J (JBool true) => u "True"
  | J (JBool false) => u "False"
  | _ => repr_other v
  end.

(** [v.title()] *)
Definition title_of (v : pyval) : result pystr :=
  match v with
  | J (JStr s) => Ok (title s)
  | _ => Raise (no_attribute "title")
  end.

(** [" | ".join(parts)]: every part has to be a string. *)
Fixpoint join_parts (parts : list pyval) : result (list pystr) :=
  match parts with
  | [] => Ok []
  | J (JStr s) :: ps => rbind (join_parts ps) (fun l => Ok (s :: l))
  | _ :: _ =>
      Raise (mkExn TypeError (u "sequence item: expected str instance"))
  end.

Definition generate_summary (parsed_outcome : outcome) : result pystr :=
  let get k default := dict_get k default parsed_outcome in
  let status := get k_payment_status (VStr (u "unknown")) in
  let parts1 :=
    if eq_str status (u "paid")
    then [VStr (u "Customer confirmed payment already made")]
    else if eq_str status (u "will_pay")
    then [VStr (u "Customer will make payment")]
    else if eq_str status (u "disputed")
    then [VStr (u "Customer disputed the invoice")]
    else [] in
  rbind
    (if truthy (get k_payment_promised VNone) then
       let promise_date := get k_payment_promise_date VNone in
       if truthy promise_date then
         match promise_date with
         | VDate d =>
             Ok [VStr (u "Promised to pay by " ++ strftime d (u "%d %B %Y"))]
         | J _ => Raise (no_attribute "strftime")
         end
       else Ok []
     else Ok [])
    (fun parts2 =>
  let parts3 :=
    if truthy (get k_needs_invoice_resend VNone)
    then [VStr (u "Requested invoice to be resent")] else [] in
  let parts4 :=
    if truthy (get k_customer_disputed VNone) then
      let reason := get k_dispute_reason (VStr (u "No reason provided")) in
      [VStr (u "Dispute reason: " ++ str_of reason)]
    else [] in
  rbind (title_of (get k_language_detected (VStr (u "unknown"))))
    (fun lang =>
  rbind (title_of (get k_customer_sentiment (VStr (u "neutral"))))
    (fun sentiment =>
  let parts7 :=
    let notes := get k_notes VNone in
    if truthy notes then [notes] else [] in
  rbind
    (join_parts (parts1 ++ parts2 ++ parts3 ++ parts4
                 ++ [VStr (u "Language: " ++ lang)]
                 ++ [VStr (u "Sentiment: " ++ sentiment)] ++ parts7))
    (fun l => Ok (join (u " | ") l))))).

End WithServices.
End Classifier.

(* ================================================================== *)
(** * services/google_sheets.py *)
(* ================================================================== *)

Module Sheets.
Import Py Db Effects.
Local Open Scope py_scope.

(** [for x in l: if ...: return ...]: the first iteration that returns. *)
Fixpoint first_some {A B} (f : A -> option B) (l : list A) : option B :=
  match l with
  | [] => None
  | x :: l' =>
      match f x with
      | Some b => Some b
      | None => first_some f l'
      end
  end.

(** [enumerate(l, start)] *)
Fixpoint enumerate {A} (start : nat) (l : list A) : list (nat * A) :=
  match l with
  | [] => []
  | x :: l' => (start, x) :: enumerate (S start) l'
  end.

(** [row[i] if i < len(row) else default] *)
Definition cell_or (default : pystr) (row : list pystr) (i : nat) : pystr :=
  nth i row default.

Definition nonempty (s : pystr) : bool :=
  match s with [] => false | _ => true end.

Section WithTables.
Context {U : Unicode} {Sv : Services}.

Definition rupee : pystr := [8377%N].

(** The characters [_parse_amount] keeps. *)
Definition cleaned_amount (amount : pystr) : pystr :=
  let amount_str :=
    strip (replace (u " ") []
            (replace (u ",") []
              (replace (u "Rs") []
                (replace rupee [] amount)))) in
  filter (fun c => isdigit c || N.eqb c 46) amount_str.

Definition _parse_amount (amount : pystr) : float :=
  if negb (nonempty amount) then fzero
  else
    let cleaned := cleaned_amount amount in
    if nonempty cleaned then
      match float_of_str cleaned with
      | Ok x => x
      | Raise _ => fzero            (* except: return 0.0 *)
      end
    else fzero.

(** [try: return datetime.strptime(s, fmt).date()  except: pass], for the
    formats in turn. *)
Fixpoint try_formats (date_str : pystr) (fmts : list pystr) : option date :=
  match fmts with
  | [] => None
  | fmt :: fmts' =>
      match strptime date_str fmt with
      | Ok d => Some d
      | Raise _ => try_formats date_str fmts'
      end
  end.

Definition _parse_date (date_str : pystr) : option date :=
  if negb (nonempty date_str) then None
  else try_formats date_str
         [u "%d-%b-%y"; u "%d-%b-%Y"; u "%d/%m/%Y"; u "%Y-%m-%d"].

Definition mobile_digits (number : pystr) : pystr :=
  replace (u "+91") [] (replace (u "-") [] (replace (u " ") [] number)).

Definition _is_valid_mobile (number : pystr) : bool :=
  let cleaned := mobile_digits number in
  str_isdigit cleaned && Nat.eqb (List.length cleaned) 10.

Definition _format_mobile (number : pystr) : pystr :=
  u "+91" ++ mobile_digits number.

Definition any_keyword (keywords : list string) (text : pystr) : bool :=
  existsb (fun k => contains (u k) text) keywords.

Definition _extract_client_name (all_data : list (list pystr)) : pystr :=
  match
    first_some
      (fun row =>
         let row_text := join (u " ") (filter nonempty row) in
         if contains (u "CONTIGO") (upper row_text)
            || contains (u "PVT LTD") (upper row_text)
         then None
         else if nonempty row_text
                 && Nat.ltb 5 (List.length row_text)
                 && existsb isupper row_text
         then
           if negb (any_keyword
                      ["bill"; "details"; "pending"; "date"; "invoice"]%string
                      (lower row_text))
           then
             let clean_name := strip row_text in
             if nonempty clean_name && Nat.ltb (List.length clean_name) 100
             then Some clean_name
             else None
           else None
         else None)
      (firstn 15 all_data)
  with
  | Some name => name
  | None => u "Client"
  end.

Definition _extract_company_name (all_data : list (list pystr)) : pystr :=
  _extract_client_name all_data.

Definition valid_mobile_in (cell : option pystr) : option pystr :=
  match cell with
  | Some c =>
      let number := strip c in
      if _is_valid_mobile number then Some (_format_mobile number) else None
  | None => None
  end.

Definition _extract_contact_number (all_data : list (list pystr)) : pystr :=
  match
    first_some
      (fun ir : nat * list pystr =>
         let (idx, row) := ir in
         first_some
           (fun cc : nat * pystr =>
              let (col_idx, cell) := cc in
              let cell_str := lower cell in
              if contains (u "mobile") cell_str && contains (u "no") cell_str
              then
                match valid_mobile_in (nth_error row (col_idx + 1)) with
                | Some n => Some n
                | None =>
                    match nth_error all_data (idx + 1) with
                    | Some next_row =>
                        valid_mobile_in (nth_error next_row col_idx)
                    | None => None
                    end
                end
              else None)
           (enumerate 0 row))
      (enumerate 0 all_data)
  with
  | Some n => n
  | None =>
      match
        first_some
          (fun row => first_some (fun cell => valid_mobile_in (Some cell)) row)
          all_data
      with
      | Some n => n
      | None => []
      end
  end.

Definition header_row_idx : nat := 10.
Definition date_col : nat := 4.
Definition invoice_col : nat := 6.
Definition pending_col : nat := 1.
Definition due_date_col : nat := 7.

Definition summary_keywords : list string :=
  ["outstanding"; "total"; "amount"; "contact"]%string.

(** [due_date or invoice_date] *)
Definition or_date (a b : option date) : option date :=
  match a with
  | Some d => Some d
  | None => b
  end.

(** One turn of the loop over the data rows: the payment appended, if
    any. *)
Definition pending_row (client_name company_name contact_number : pystr)
    (idx : nat) (row : list pystr) : option Payment.t :=
  if negb (existsb nonempty row) then None
  else
    let invoice_id := cell_or [] row invoice_col in
    if negb (nonempty invoice_id) then None
    else if any_keyword summary_keywords (lower invoice_id) then None
    else
      let pending_amount := _parse_amount (cell_or (u "0") row pending_col) in
      if fleb pending_amount fzero then None
      else
        let invoice_date := _parse_date (cell_or [] row date_col) in
        let due_date := _parse_date (cell_or [] row due_date_col) in
        let payment_data :=
          Payment.mk client_name company_name contact_number
            (strip invoice_id) pending_amount (or_date due_date invoice_date)
            (u "pending") (Z.of_nat idx + 1) None None in
        if nonempty (Payment.contact_number payment_data)
           && nonempty (Payment.invoice_id payment_data)
        then Some payment_data
        else None.

Fixpoint pending_rows (client_name company_name contact_number : pystr)
    (rows : list (nat * list pystr)) : list Payment.t :=
  match rows with
  | [] => []
  | (idx, row) :: rows' =>
      match pending_row client_name company_name contact_number idx row with
      | Some p =>
          p :: pending_rows client_name company_name contact_number rows'
      | None => pending_rows client_name company_name contact_number rows'
      end
  end.

(** [get_pending_payments] once the sheet's values are read. *)
Definition pending_payments_of (all_data : list (list pystr))
  : list Payment.t :=
  if Nat.leb (List.length all_data) header_row_idx then []
  else
    let client_name := _extract_client_name all_data in
    let company_name := _extract_company_name all_data in
    let contact_number := _extract_contact_number all_data in
    let data_start_idx := S header_row_idx in
    pending_rows client_name company_name contact_number
      (enumerate data_start_idx (skipn data_start_idx all_data)).

Definition get_pending_payments (sheet_id : option pystr)
  : M (list Payment.t) :=
  try_except
    (w <- get_world ;;
     modify (fun w => emit w (SheetFetched sheet_id)) ;;;
     all_data <- lift (get_all_values (events w) sheet_id) ;;
     ret (pending_payments_of all_data))
    (fun _ => ret []).

End WithTables.
End Sheets.

(* ================================================================== *)
(** * services/call_orchestrator.py *)
(* ================================================================== *)

Module Orchestrator.
Import Py Db Effects.
Local Open Scope py_scope.

Definition k_message := u "message".
Definition k_type := u "type".
Definition k_call := u "call".
Definition k_id := u "id".
Definition k_status := u "status".
Definition k_transcript := u "transcript".
Definition k_summary := u "summary".
Definition k_recordingUrl := u "recordingUrl".
Definition k_startedAt := u "startedAt".
Definition k_endedAt := u "endedAt".
Definition k_cost := u "cost".

(** The table [status_mapping] of [_handle_status_update]. *)
Definition status_mapping : list (pystr * CallStatus) :=
  [ (u "queued", IN_PROGRESS);
    (u "ringing", IN_PROGRESS);
    (u "in-progress", IN_PROGRESS);
    (u "forwarding", IN_PROGRESS);
    (u "ended", COMPLETED) ].

(** [status_mapping.get(status, CallStatus.IN_PROGRESS)]: a list or a
    dictionary cannot be looked up. *)
Definition mapped_status (status : json) : result CallStatus :=
  match status with
  | JStr s => Ok (dict_get s IN_PROGRESS status_mapping)
  | JList _ | JDict _ => Raise (mkExn TypeError (u "unhashable type"))
  | _ => Ok IN_PROGRESS
  end.

(** [ended_at - started_at if ended_at and started_at else 0] *)
Definition call_duration_of (started_at ended_at : json) : result json :=
  if json_truthy ended_at && json_truthy started_at
  then json_sub ended_at started_at
  else Ok (JInt 0).

(** [60 / rate_limit] *)
Definition delay_between_calls (rate_limit : Z) : result float :=
  match rate_limit with
  | Z0 => Raise (mkExn ZeroDivisionError (u "division by zero"))
  | Zpos _ => Ok (float_of_ratio 60 rate_limit)
  | Zneg _ => Ok (SFopp (float_of_ratio 60 (- rate_limit)))
  end.

Section WithServices.
Context {U : Unicode} {Sv : Services} {St : Settings} {Sq : Sqlite}.

Definition is_business_hours : M bool :=
  w <- get_world ;;
  let now := local_time_of_day (clock w) in
  ret (Qle_bool business_start_time now && Qle_bool now business_end_time).

(** ** [sync_to_database] *)

(** [sheet_id or settings.google_sheet_id] *)
Definition sheet_or_default (sheet_id : option pystr) : pystr :=
  match sheet_id with
  | Some (c :: s) => c :: s
  | _ => google_sheet_id
  end.

(** [sheet_id and client.google_sheet_id != sheet_id] *)
Definition sheet_differs (sheet_id : option pystr) (c : Client.t) : bool :=
  match sheet_id with
  | Some (x :: s) =>
      match Client.google_sheet_id c with
      | Some t => negb (str_eqb t (x :: s))
      | None => true
      end
  | _ => false
  end.

(** One turn of the loop: the store afterwards and the payment with its
    two new keys. *)
Definition sync_payment (sheet_id : option pystr) (now : datetime)
    (d : DB) (payment : Payment.t) : result (DB * Payment.t) :=
  rbind
    (match client_by_contact_number d (Payment.contact_number payment) with
     | None =>
         add_client d (Payment.client_name payment)
           (Payment.company_name payment) (Payment.contact_number payment)
           (sheet_or_default sheet_id) now
     | Some client =>
         if sheet_differs sheet_id client then
           let client' := Client.set_google_sheet_id client sheet_id now in
           Ok (update_client d client', client')
         else Ok (d, client)
     end)
    (fun '(d1, client) =>
  rbind
    (match invoice_by_invoice_id d1 (Payment.invoice_id payment) with
     | None =>
         add_invoice d1 (Client.id client) (Payment.invoice_id payment)
           (Payment.amount_due payment) (Payment.due_date payment) now
     | Some invoice => Ok (d1, invoice)
     end)
    (fun '(d2, invoice) =>
  Ok (d2, Payment.set_db_ids payment (Invoice.id invoice) (Client.id client)))).

Fixpoint sync_loop (sheet_id : option pystr) (now : datetime) (d : DB)
    (payments : list Payment.t) : result (DB * list Payment.t) :=
  match payments with
  | [] => Ok (d, [])
  | payment :: rest =>
      rbind (sync_payment sheet_id now d payment)
        (fun '(d', payment') =>
      rbind (sync_loop sheet_id now d' rest)
        (fun '(d'', rest') => Ok (d'', payment' :: rest')))
  end.

Definition sync_to_database (payments : list Payment.t)
    (sheet_id : option pystr) : M (list Payment.t) :=
  with_db typed_writes
    (w <- get_world ;;
     r <- lift (sync_loop sheet_id (clock w) (db w) payments) ;;
     modify (fun w => set_db w (fst r)) ;;;
     ret (snd r)).

(** ** [make_single_call] and [make_calls_with_rate_limit] *)

Definition make_single_call (payment : Payment.t) : M unit :=
  try_except
    (w <- get_world ;;
     let reply := make_outbound_call (events w) payment in
     modify (fun w => advance (emit w (CallRequested payment)) (snd reply)) ;;;
     match fst reply with
     | Some (c :: s) =>
         let call_id := c :: s in
         with_db typed_writes
           (w <- get_world ;;
            match Payment.db_invoice_id payment with
            | None => raise (mkExn KeyError (u "'db_invoice_id'"))
            | Some inv =>
                d <- lift (add_call_log (db w) inv call_id IN_PROGRESS
                             (clock w)) ;;
                modify (fun w => set_db w d)
            end)
     | _ => ret tt
     end)
    (fun _ => ret tt).

(** The loop of [make_calls_with_rate_limit]; the delay follows every call
    but the last. *)
Fixpoint calls_loop (delay : float) (payments : list Payment.t) : M unit :=
  match payments with
  | [] => ret tt
  | payment :: rest =>
      make_single_call payment ;;;
      (match rest with
       | [] => ret tt
       | _ :: _ => asyncio_sleep delay
       end) ;;;
      calls_loop delay rest
  end.

Definition make_calls_with_rate_limit (payments : list Payment.t) : M unit :=
  delay <- lift (delay_between_calls call_rate_limit_per_minute) ;;
  calls_loop delay payments.

(** ** [process_pending_payments] and [process_multiple_sheets] *)

Definition process_pending_payments (sheet_id : option pystr) : M unit :=
  open <- is_business_hours ;;
  if negb open then ret tt
  else
    try_except
      (pending_payments <- Sheets.get_pending_payments sheet_id ;;
       match pending_payments with
       | [] => ret tt
       | _ :: _ =>
           synced <- sync_to_database pending_payments sheet_id ;;
           make_calls_with_rate_limit synced
       end)
      (fun _ => ret tt).

Fixpoint process_multiple_sheets (sheet_ids : list pystr) : M unit :=
  match sheet_ids with
  | [] => ret tt
  | sheet_id :: rest =>
      try_except (process_pending_payments (Some sheet_id))
                 (fun _ => ret tt) ;;;
      process_multiple_sheets rest
  end.

(** ** [_handle_status_update] *)

Definition _handle_status_update_body (message : json) : M unit :=
  call_data <- lift (json_get message k_call (JDict [])) ;;
  call_id <- lift (json_get call_data k_id JNull) ;;
  status <- lift (json_get message k_status JNull) ;;
  if negb (json_truthy call_id) then ret tt
  else
    with_db typed_writes
      (raise_if (bind_error call_id) ;;;
       w <- get_world ;;
       match call_log_by_vapi_call_id (db w) call_id with
       | Some call_log =>
           st <- lift (mapped_status status) ;;
           modify (fun w =>
             set_db w (update_call_log (db w)
                         (CallLog.set_call_status call_log st)))
       | None => ret tt
       end).

Definition _handle_status_update (message : json) : M unit :=
  try_except (_handle_status_update_body message) (fun _ => ret tt).

(** ** [_handle_end_of_call] *)

(** The assignments to the call log. *)
Definition completed_call_log (l : CallLog.t) (duration transcript : json)
    (response_summary : pystr) (recording_url cost : json)
    (parsed_outcome : Classifier.outcome) : CallLog.t :=
  let get k default := dict_get k default parsed_outcome in
  CallLog.mk (CallLog.id l) (CallLog.invoice_id l) (CallLog.vapi_call_id l)
    (CallLog.call_made_on l)
    (J duration) COMPLETED (J transcript) (VStr response_summary)
    (J recording_url)
    (get Classifier.k_payment_promised VFalse)
    (get Classifier.k_payment_promise_date VNone)
    (get Classifier.k_needs_invoice_resend VFalse)
    (get Classifier.k_customer_disputed VFalse)
    (get Classifier.k_dispute_reason VNone)
    (get Classifier.k_next_follow_up_date VNone)
    (get Classifier.k_language_detected VNone)
    (get Classifier.k_customer_sentiment VNone)
    (get Classifier.k_call_outcome VNone)
    (J cost) (CallLog.created_at l).

(** [invoice.payment_status = PaymentStatus.PAID]: the row is written, and
    its [updated_at] refreshed, when the value changes. *)
Definition mark_paid (d : DB) (invoice : Invoice.t) (now : datetime) : DB :=
  if Invoice.is_paid invoice then d
  else update_invoice d (Invoice.set_payment_status invoice PAID now).

(** [_update_google_sheet_from_call]: what it does to the spreadsheet is
    outside the store.  It catches every exception of its own, and logs it
    with [exc_info=True]; what that log raises leaves the function. *)
Definition _update_google_sheet_from_call (x : sheet_update) : M unit :=
  w <- get_world ;;
  modify (fun w => emit w (SheetUpdateRequested x)) ;;;
  raise_if (sheet_update_raises (events w) x).

(** What the commit of [_handle_end_of_call] has to flush: the call log it
    assigned, if it found one. *)
Definition flush_assigned (pending : option (CallLog.t * CallLog.t))
  : option exn :=
  match pending with
  | Some (call_log, call_log') => flush_call_log call_log call_log'
  | None => None
  end.

Definition _handle_end_of_call_body (message : json) : M unit :=
  call_data <- lift (json_get message k_call (JDict [])) ;;
  call_id <- lift (json_get call_data k_id JNull) ;;
  if negb (json_truthy call_id) then ret tt
  else
    transcript <- lift (json_get message k_transcript (JStr [])) ;;
    summary <- lift (json_get message k_summary (JStr [])) ;;
    recording_url <- lift (json_get call_data k_recordingUrl JNull) ;;
    started_at <- lift (json_get call_data k_startedAt (JInt 0)) ;;
    ended_at <- lift (json_get call_data k_endedAt (JInt 0)) ;;
    duration <- lift (call_duration_of started_at ended_at) ;;
    cost <- lift (json_get call_data k_cost (JInt 0)) ;;
    let transcript :=
      if negb (json_truthy transcript)
      then JStr (u "No transcript available") else transcript in
    parsed_outcome <- Classifier.parse_call_outcome transcript summary ;;
    response_summary <- lift (Classifier.generate_summary parsed_outcome) ;;
    with_db flush_assigned
      (raise_if (bind_error call_id) ;;;
       w <- get_world ;;
       match call_log_by_vapi_call_id (db w) call_id with
       | Some call_log =>
           let call_log' :=
             completed_call_log call_log duration transcript
               response_summary recording_url cost parsed_outcome in
           modify (fun w => set_db w (update_call_log (db w) call_log')) ;;;
           let payment_status :=
             dict_get Classifier.k_payment_status VNone parsed_outcome in
           (if eq_str payment_status (u "paid") then
              w <- get_world ;;
              match invoice_of (db w) call_log' with
              | Some invoice =>
                  modify (fun w =>
                    set_db w (mark_paid (db w) invoice (clock w)))
              | None => raise (no_attribute "payment_status")
              end
            else ret tt) ;;;
           w <- get_world ;;
           match invoice_of (db w) call_log' with
           | None => raise (no_attribute "client")
           | Some invoice =>
               match client_of (db w) invoice with
               | None => raise (no_attribute "google_sheet_id")
               | Some client =>
                   _update_google_sheet_from_call
                     (mkSheetUpdate (Invoice.invoice_id invoice)
                        (CallLog.call_made_on call_log')
                        response_summary
                        (CallLog.next_follow_up_date call_log')
                        payment_status
                        (Client.google_sheet_id client)
                        parsed_outcome
                        (CallLog.recording_url call_log')) ;;;
                   ret (Some (call_log, call_log'))
               end
           end
       | None => ret None
       end) ;;;
    ret tt.

(** The [except] branch logs with [exc_info=True]: what that raises leaves
    the handler. *)
Definition _handle_end_of_call (message : json) : M unit :=
  try_except (_handle_end_of_call_body message)
    (fun e =>
       raise_if (logger_error_exc_info
                   (u "Error handling end-of-call report: " ++ exn_msg e))).

(** ** [process_call_webhook] *)

Definition process_call_webhook_body (webhook_data : json) : M unit :=
  message <- lift (json_get webhook_data k_message (JDict [])) ;;
  message_type <- lift (json_get message k_type JNull) ;;
  if json_eq_str message_type (u "status-update")
  then _handle_status_update message
  else if json_eq_str message_type (u "end-of-call-report")
  then _handle_end_of_call message
  else if json_eq_str message_type (u "transcript")
  then ret tt
  else ret tt.

Definition process_call_webhook (webhook_data : json) : M unit :=
  try_except (process_call_webhook_body webhook_data) (fun _ => ret tt).

End WithServices.
End Orchestrator.

(* ================================================================== *)
(** * api/routes/webhook.py *)
(* ================================================================== *)

Module Webhook.
Import Py Db Effects.
Local Open Scope py_scope.

Inductive response :=
  | Received                        (* {"status": "received", ...} *)
  | HTTPException (status_code : Z) (detail : pystr).

Section WithServices.
Context {U : Unicode} {Sv : Services} {St : Settings} {Sq : Sqlite}.

(** The argument of the route's [logger.info]:
    [payload.get('message', {}).get('type', 'unknown')] *)
Definition logged_type (payload : json) : result json :=
  rbind (json_get payload Orchestrator.k_message (JDict []))
    (fun message => json_get message Orchestrator.k_type (JStr (u "unknown"))).

(** [vapi_webhook]; [body] is what [await request.json()] gives. *)
Definition vapi_webhook (body : result json) : M response :=
  try_except
    (payload <- lift body ;;
     _ <- lift (logged_type payload) ;;
     Orchestrator.process_call_webhook payload ;;;
     ret Received)
    (fun e => ret (HTTPException 500 (exn_msg e))).

End WithServices.
End Webhook.


(* ================================================================== *)
(** * services/google_sheets.py, the write path *)
(* ================================================================== *)

Module Gateway.
Import Py Db Effects.

(** [str(n)] for an [int] *)
Definition str_of_int (n : Z) : pystr := Py.str_of_int n.

(** ** [_cell_address] *)

(** The [while col > 0] loop.  Every turn divides [col] by 26, so
    [Z.to_nat col] turns are more than it ever takes; [fuel] counts the
    turns left. *)
Fixpoint column_letters (fuel : nat) (col : Z) (col_letter : pystr) : pystr :=
  if (col >? 0)%Z then
    match fuel with
    | O => col_letter
    | S fuel' =>
        let col := (col - 1)%Z in
        column_letters fuel' (col / 26)%Z
          (Z.to_N (65 + col mod 26) :: col_letter)
    end
  else col_letter.

Definition _cell_address (row col : Z) : pystr :=
  column_letters (Z.to_nat col) col [] ++ str_of_int row.

(** ** [get_sheet] and its cache *)

(** A spreadsheet handle, as [open_by_key] gives it. *)
Definition handle := pystr.

(** The service object: the cache, and the keys [open_by_key] was called
    with, oldest first. *)
Record SheetsState := mkSheets {
  _sheet_cache : list (pystr * handle);
  opened : list pystr
}.

Section GetSheet.
Context {St : Settings}.

(** [self.client.open_by_key]: its answer may depend on the calls before. *)
Variable open_by_key : list pystr -> pystr -> result handle.

Definition get_sheet (sheet_id : option pystr) (s : SheetsState)
  : result handle * SheetsState :=
  let sheet_id := match sheet_id with
                  | Some (c :: r) => c :: r
                  | _ => google_sheet_id
                  end in
  match dict_lookup sheet_id (_sheet_cache s) with
  | Some sheet => (Ok sheet, s)
  | None =>
      match open_by_key (opened s) sheet_id with
      | Ok sheet =>
          (Ok sheet,
           mkSheets (dict_set sheet_id sheet (_sheet_cache s))
                    (opened s ++ [sheet_id]))
      | Raise e => (Raise e, mkSheets (_sheet_cache s) (opened s ++ [sheet_id]))
      end
  end.
End GetSheet.

(** ** The worksheet *)

(** One [worksheet.update(values=[[value]], range_name=cell)]. *)
Record cell_write := mkWrite { cw_range : pystr; cw_value : pyval }.

(** The worksheet is outside the repository: what it answers may depend on
    the writes made so far. *)
Class Worksheet := {
  (* get_sheet(sheet_id).sheet1 *)
  open_worksheet : option pystr -> result unit;
  (* worksheet.row_values(row_number) *)
  row_values : list cell_write -> Z -> result (list pystr);
  (* worksheet.get_all_values() *)
  all_values : list cell_write -> result (list (list pystr));
  (* worksheet.update(...): the exception it raises, if any *)
  update_fails : list cell_write -> cell_write -> option exn;
  (* int(s) *)
  int_of_str : pystr -> result Z;
  (* call_made_on.strftime(fmt) *)
  strftime_datetime : datetime -> pystr -> pystr;
  (* str(row) for a list of strings *)
  str_of_row : list pystr -> pystr
}.

Section WithWorksheet.
Context {U : Unicode} {Sv : Services} {W : Worksheet}.

(** The cells are written one after the other; the first failure ends the
    loop. *)
Fixpoint write_cells (cells : list cell_write) (written : list cell_write)
  : result unit * list cell_write :=
  match cells with
  | [] => (Ok tt, written)
  | c :: rest =>
      match update_fails written c with
      | Some e => (Raise e, written)
      | None => write_cells rest (written ++ [c])
      end
  end.

(** ** [update_payment_status] *)

(** [status_map] *)
Definition status_map : list (pystr * pystr) :=
  [ (u "paid", u "Payment Made");
    (u "will_pay", u "Promised Payment");
    (u "disputed", u "Disputed");
    (u "no_response", u "No Answer");
    (u "other", u "Needs Follow-up") ].

(** [status_map.get(payment_status, 'Called')] *)
Definition call_status_text (payment_status : pyval) : result pystr :=
  match payment_status with
  | J (JStr s) => Ok (dict_get s (u "Called") status_map)
  | J (JList _) | J (JDict _) =>
      Raise (mkExn TypeError (u "unhashable type"))
  | _ => Ok (u "Called")
  end.

(** The running count read from column O (index 14) of the row. *)
Definition existing_calls (current_row : list pystr) : Z :=
  if Nat.leb 15 (List.length current_row) then
    match nth 14 current_row [] with
    | [] => 0%Z
    | cell =>
        match int_of_str cell with
        | Ok n => n
        | Raise _ => 0%Z          (* except: existing_calls = 0 *)
        end
    end
  else 0%Z.

(** [d.strftime('%Y-%m-%d') if d else ''] *)
Definition date_text (d : pyval) : result pystr :=
  if truthy d then
    match d with
    | VDate x => Ok (strftime x (u "%Y-%m-%d"))
    | J _ => Raise (no_attribute "strftime")
    end
  else Ok [].

(** [(customer_sentiment or 'neutral').title()] *)
Definition sentiment_text (customer_sentiment : pyval) : result pystr :=
  if truthy customer_sentiment then
    match customer_sentiment with
    | J (JStr s) => Ok (title s)
    | _ => Raise (no_attribute "title")
    end
  else Ok (title (u "neutral")).

(** The dictionary [updates], in the order of its keys. *)
Definition updates (current_row : list pystr) (call_made_on : datetime)
    (response_summary : pystr) (next_follow_up_date payment_status : pyval)
    (payment_promise_date customer_sentiment recording_url : pyval)
  : result (list (string * pyval)) :=
  let new_total_calls := (existing_calls current_row + 1)%Z in
  rbind (call_status_text payment_status) (fun call_status =>
  rbind (date_text payment_promise_date) (fun promise =>
  rbind (date_text next_follow_up_date) (fun follow_up =>
  rbind (sentiment_text customer_sentiment) (fun sentiment =>
  Ok [ ("J", VStr (strftime_datetime call_made_on (u "%Y-%m-%d %H:%M:%S")));
       ("K", VStr call_status);
       ("L", VStr promise);
       ("M", VStr follow_up);
       ("N", VStr (firstn 200 response_summary));
       ("O", J (JInt new_total_calls));
       ("P", VStr sentiment);
       ("Q", if truthy recording_url then recording_url
             else VStr (u "See Database")) ]%string)))).

(** [f"{col_letter}{row_number}"] *)
Definition cell_of (row_number : Z) (kv : string * pyval) : cell_write :=
  mkWrite (u (fst kv) ++ str_of_int row_number) (snd kv).

(** The body of the [try]. *)
Definition update_payment_status_body (row_number : Z) (call_made_on : datetime)
    (response_summary : pystr) (next_follow_up_date payment_status : pyval)
    (sheet_id : option pystr)
    (payment_promise_date customer_sentiment : pyval) (total_calls_made : Z)
    (recording_url : pyval) (written : list cell_write)
  : result unit * list cell_write :=
  match open_worksheet sheet_id with
  | Raise e => (Raise e, written)
  | Ok _ =>
      match row_values written row_number with
      | Raise e => (Raise e, written)
      | Ok current_row =>
          match updates current_row call_made_on response_summary
                  next_follow_up_date payment_status payment_promise_date
                  customer_sentiment recording_url with
          | Raise e => (Raise e, written)
          | Ok kvs => write_cells (List.map (cell_of row_number) kvs) written
          end
      end
  end.

(** [logger.error(f"Error updating Google Sheet: {e}", exc_info=True)], the
    whole of an [except] branch: what the log raises leaves the function. *)
Definition log_sheet_error (e : exn) : result unit :=
  match logger_error_exc_info (u "Error updating Google Sheet: " ++ exn_msg e)
  with
  | Some e' => Raise e'
  | None => Ok tt
  end.

(** [update_payment_status]: every exception of the body is caught and
    logged. *)
Definition update_payment_status (row_number : Z) (call_made_on : datetime)
    (response_summary : pystr) (next_follow_up_date payment_status : pyval)
    (sheet_id : option pystr)
    (payment_promise_date customer_sentiment : pyval) (total_calls_made : Z)
    (recording_url : pyval) (written : list cell_write)
  : result unit * list cell_write :=
  match
    update_payment_status_body row_number call_made_on response_summary
      next_follow_up_date payment_status sheet_id payment_promise_date
      customer_sentiment total_calls_made recording_url written
  with
  | (Ok _, written') => (Ok tt, written')
  | (Raise e, written') => (log_sheet_error e, written')
  end.

(** ** [_find_or_add_column] *)

(** The first header that contains the column name, whatever the case. *)
Fixpoint find_header (column_name : pystr) (headers : list (nat * pystr))
  : option nat :=
  match headers with
  | [] => None
  | (idx, header) :: rest =>
      if contains (lower column_name) (lower header) then Some idx
      else find_header column_name rest
  end.

(** [_find_or_add_column]: the column number, counted from 1, or [None]
    when the new header could not be written. *)
Definition _find_or_add_column (headers : list pystr) (column_name : pystr)
    (header_row_idx : Z) (written : list cell_write)
  : option Z * list cell_write :=
  match find_header column_name (Sheets.enumerate 0 headers) with
  | Some idx => (Some (Z.of_nat idx + 1)%Z, written)
  | None =>
      let next_col := (Z.of_nat (List.length headers) + 1)%Z in
      let cell_address := _cell_address (header_row_idx + 1) next_col in
      let c := mkWrite cell_address (VStr column_name) in
      match update_fails written c with
      | None => (Some next_col, written ++ [c])
      | Some _ => (None, written)                (* except: return None *)
      end
  end.

End WithWorksheet.
End Gateway.

(* ================================================================== *)
(** * services/response_parser.py: [determine_next_action] *)
(* ================================================================== *)

Module NextAction.
Import Py Db Effects Classifier.

(** [d[k]] *)
Definition dict_item (k : pystr) (d : outcome) : result pyval :=
  match dict_lookup k d with
  | Some v => Ok v
  | None => Raise (mkExn KeyError k)
  end.

Section WithServices.
Context {Sv : Services}.

Definition determine_next_action (parsed_outcome : outcome) : result pystr :=
  rbind (dict_item k_payment_status parsed_outcome) (fun status =>
  if eq_str status (u "paid") then Ok (u "Mark as paid and close")
  else
  rbind (dict_item k_payment_promised parsed_outcome) (fun promised =>
  if truthy promised then
    let promise_date := dict_get k_payment_promise_date VNone parsed_outcome in
    if truthy promise_date then
      match promise_date with
      | VDate d => Ok (u "Follow up on " ++ strftime d (u "%Y-%m-%d"))
      | J _ => Raise (no_attribute "strftime")
      end
    else Ok (u "Follow up in 2 days")
  else
  rbind (dict_item k_needs_invoice_resend parsed_outcome) (fun resend =>
  if truthy resend then Ok (u "Resend invoice immediately")
  else
  rbind (dict_item k_customer_disputed parsed_outcome) (fun disputed =>
  if truthy disputed then Ok (u "Escalate to accounts team")
  else
  rbind (dict_item k_call_outcome parsed_outcome) (fun call_outcome =>
  if eq_str call_outcome (u "needs_escalation")
  then Ok (u "Escalate to manager")
  else Ok (u "Follow up in 3 days")))))).

End WithServices.
End NextAction.

(* ================================================================== *)
(** * services/call_orchestrator.py: [_update_google_sheet_from_call],
      inside the spreadsheet *)
(* ================================================================== *)

Module SheetSync.
Import Py Db Effects Gateway.

Section WithWorksheet.
Context {U : Unicode} {Sv : Services} {W : Worksheet}.

(** [' '.join([str(cell).lower() for cell in row])] *)
Definition row_text (row : list pystr) : pystr :=
  join (u " ") (List.map lower row).

Definition is_header_row (row : list pystr) : bool :=
  let t := row_text row in
  contains (u "invoice") t && (contains (u "date") t || contains (u "amount") t).

Definition is_invoice_header (cell : pystr) : bool :=
  let c := lower cell in
  contains (u "invoice") c
  && (contains (u "id") c || contains (u "no") c || contains (u "ref") c).

(** The inner loop: the first cell of the header row that names the invoice
    column. *)
Definition invoice_column (row : list pystr) : option nat :=
  Sheets.first_some
    (fun ic : nat * pystr => if is_invoice_header (snd ic) then Some (fst ic)
                             else None)
    (Sheets.enumerate 0 row).

(** The outer loop: the first header row, with the invoice column found in
    it, if any. *)
Definition find_header_row (all_data : list (list pystr))
  : option (nat * option nat) :=
  Sheets.first_some
    (fun ir : nat * list pystr =>
       if is_header_row (snd ir) then Some (fst ir, invoice_column (snd ir))
       else None)
    (Sheets.enumerate 0 all_data).

Definition stop_keywords : list string :=
  ["outstanding"; "sum"; "total"; "contact"]%string.

(** The search through the data rows: it ends at the first summary row. *)
Fixpoint search_rows (invoice_col_idx : nat) (invoice_id : pystr)
    (rows : list (nat * list pystr)) : option nat :=
  match rows with
  | [] => None
  | (row_idx, row) :: rest =>
      if Sheets.any_keyword stop_keywords (lower (str_of_row row)) then None
      else
        match nth_error row invoice_col_idx with
        | Some cell =>
            if str_eqb (strip cell) invoice_id then Some row_idx
            else search_rows invoice_col_idx invoice_id rest
        | None => search_rows invoice_col_idx invoice_id rest
        end
  end.

(** The index of the row of the invoice, counted from 0. *)
Definition locate_invoice_row (all_data : list (list pystr))
    (invoice_id : pystr) : option nat :=
  match find_header_row all_data with
  | Some (header_row_idx, Some invoice_col_idx) =>
      search_rows invoice_col_idx invoice_id
        (Sheets.enumerate (S header_row_idx)
           (skipn (S header_row_idx) all_data))
  | _ => None
  end.

(** [parsed_outcome.get(k) if parsed_outcome else None] *)
Definition outcome_field (k : pystr) (parsed_outcome : Classifier.outcome)
  : pyval :=
  match parsed_outcome with
  | [] => VNone
  | _ :: _ => dict_get k VNone parsed_outcome
  end.

(** [_update_google_sheet_from_call], with the writes it makes: every
    exception of the body is caught and logged, as in
    [update_payment_status]. *)
Definition _update_google_sheet_from_call (x : sheet_update)
    (written : list cell_write) : result unit * list cell_write :=
  match open_worksheet (su_client_sheet_id x) with
  | Raise e => (log_sheet_error e, written)
  | Ok _ =>
      match all_values written with
      | Raise e => (log_sheet_error e, written)
      | Ok all_data =>
          match locate_invoice_row all_data (su_invoice_id x) with
          | None => (Ok tt, written)
          | Some row_idx =>
              match
                update_payment_status (Z.of_nat row_idx + 1)
                  (su_call_made_on x) (su_response_summary x)
                  (su_next_follow_up_date x) (su_payment_status x)
                  (su_client_sheet_id x)
                  (outcome_field Classifier.k_payment_promise_date
                     (su_parsed_outcome x))
                  (outcome_field Classifier.k_customer_sentiment
                     (su_parsed_outcome x))
                  1 (su_recording_url x) written
              with
              | (Ok _, written') => (Ok tt, written')
              | (Raise e, written') => (log_sheet_error e, written')
              end
          end
      end
  end.

End WithWorksheet.
End SheetSync.

(* ================================================================== *)
(** * services/vapi_service.py: the transcriber keywords *)
(* ================================================================== *)

Module Vapi.
Import Py.

(** [c.isalpha()] beyond ASCII. *)
Class Letters := { uni_isalpha : N -> bool }.

Section Keywords.
Context {L : Letters}.

Definition isalpha (c : N) : bool :=
  if is_ascii c then ascii_isupper c || ascii_islower c else uni_isalpha c.

(** [s.split()]: the runs of characters between white space; [cur] is the
    run being read. *)
Fixpoint split_from (cur : pystr) (s : pystr) : list pystr :=
  match s with
  | [] => match cur with [] => [] | _ :: _ => [cur] end
  | c :: s' =>
      if isspace c then
        match cur with
        | [] => split_from [] s'
        | _ :: _ => cur :: split_from [] s'
        end
      else split_from (cur ++ [c]) s'
  end.

Definition split (s : pystr) : list pystr := split_from [] s.

(** [''.join(c for c in word if c.isalpha())], kept when it has three
    characters or more. *)
Definition letters_of (word : pystr) : option pystr :=
  let cleaned := filter isalpha word in
  if Nat.leb 3 (List.length cleaned) then Some cleaned else None.

Fixpoint keep_words (words : list pystr) : list pystr :=
  match words with
  | [] => []
  | w :: rest =>
      match letters_of w with
      | Some c => c :: keep_words rest
      | None => keep_words rest
      end
  end.

(** The list [base_keywords] once both names are read. *)
Definition base_keywords (client_name company_name : pystr) : list pystr :=
  List.map u ["Contigo"; "Solutions"; "invoice"; "payment"]%string
  ++ keep_words (split client_name)
  ++ keep_words (split company_name).

(** The list [keywords] of [create_assistant_config]. *)
Definition keywords (client_name company_name : pystr) : list pystr :=
  List.map (fun kw => kw ++ u ":2")
    (keep_words (base_keywords client_name company_name)).

End Keywords.
End Vapi.

(* ================================================================== *)
(** * api/routes/calls.py: the manual triggers *)
(* ================================================================== *)

Module CallsRoute.
Import Py Db Effects.
Local Open Scope py_scope.

Inductive response :=
  | Success (message : pystr)
  | HTTPException (status_code : Z) (detail : pystr).

Section WithServices.
Context {U : Unicode} {Sv : Services} {St : Settings}.

(** The dictionary [payment_data] of [trigger_manual_call]; it has no
    [payment_status], [row_number] or [db_client_id], which nothing reads. *)
Definition payment_data (client : Client.t) (invoice : Invoice.t)
  : Payment.t :=
  Payment.mk (Client.client_name client) (Client.company_name client)
    (Client.contact_number client) (Invoice.invoice_id invoice)
    (Invoice.amount_due invoice) (Some (Invoice.due_date invoice))
    [] 0 (Some (Invoice.id invoice)) None.

Definition trigger_manual_call (invoice_id : pystr) : M response :=
  try_except
    (w <- get_world ;;
     match invoice_by_invoice_id (db w) invoice_id with
     | None => ret (HTTPException 404 (u "Invoice not found"))
     | Some invoice =>
         match client_of (db w) invoice with
         | None => raise (no_attribute "client_name")
         | Some client =>
             Orchestrator.make_single_call (payment_data client invoice) ;;;
             ret (Success (u "Call initiated for invoice " ++ invoice_id))
         end
     end)
    (fun e => ret (HTTPException 500 (exn_msg e))).


End WithServices.
End CallsRoute.
(* ================================================================== *)
(** * A concrete scenario, for running the code on data *)
(* ================================================================== *)

Module Scenario.
Import Py Db Effects.

(** A store in which no call id is a float. *)
#[global] Instance sqlite : Sqlite := {| real_text := fun _ => None |}.

(** Services with fixed answers: the model's reply and its parse are given;
    no date parses; every call takes two seconds and is given the invoice
    number as its id. *)
Definition services (reply : result pystr) (parsed : result json)
    (sheet : result (list (list pystr))) : Services := {|
  strptime := fun _ _ => Raise (mkExn ValueError (u "does not match format"));
  strftime := fun _ _ => [];
  repr_other := fun _ => [];
  json_loads := fun _ => parsed;
  generate_content := fun _ _ _ => reply;
  make_outbound_call := fun _ p => (Some (u "call-" ++ Payment.invoice_id p), 2%Q);
  get_all_values := fun _ _ => sheet;
  local_time_of_day := fun t => t;
  logger_error_exc_info := fun _ => None;
  sheet_update_raises := fun _ _ => None;
  flush_call_log := fun _ _ => None
|}.

Definition settings : Settings := {|
  google_sheet_id := u "default-sheet";
  call_rate_limit_per_minute := 10;
  business_start_time := 36000%Q;
  business_end_time := 68400%Q
|}.

(** A sheet in the layout [get_pending_payments] expects: ten rows above the
    header row, the contact details among them, then the data rows. *)
Definition blank_row : list pystr := [].

Definition data_row (amount invoice : string) : list pystr :=
  [ []; u amount; []; []; u "25-Apr-25"; []; u invoice; u "25-May-25" ].

Definition sheet : list (list pystr) :=
  [ [u "Asha Coatings"]; [u "Mobile No."; u "98765 43210"] ]
  ++ repeat blank_row 8
  ++ [ [u "Sr"; u "Pending"; []; []; u "Date"; []; u "Invoice No."; u "Due"] ]
  ++ [ data_row "1,000.00" "INV-1";
       data_row "0" "INV-2";
       data_row "500" "Total Outstanding";
       data_row "250.50" "INV-4" ].

Definition world0 : World := mkWorld empty_db 0%Q [].

(** A store after one dispatched call: one client, its invoice INV-1, still
    pending, and the call log of the call in progress. *)
Definition client1 : Client.t :=
  Client.mk 1 (u "Asha Coatings") (u "Asha Coatings") (u "+919876543210")
    None (Some (u "default-sheet")) (u "hindi") 0%Q 0%Q.

Definition invoice1 : Invoice.t :=
  Invoice.mk 1 1 (u "INV-1") (float_of_Z 1000) (mkDate 2024 1 1) PENDING
    None 0%Q 0%Q.

Definition call_log1 : CallLog.t :=
  CallLog.mk 1 1 (Some (u "call-INV-1")) 2%Q VNone IN_PROGRESS VNone VNone
    VNone VFalse VNone VFalse VFalse VNone VNone VNone VNone VNone VNone 2%Q.

Definition world1 : World :=
  mkWorld (mkDB [client1] [invoice1] [call_log1]) 300%Q [].

(** Webhook payloads for that call. *)
Definition status_update (status : string) : json :=
  JDict [ (u "message",
           JDict [ (u "type", JStr (u "status-update"));
                   (u "status", JStr (u status));
                   (u "call", JDict [ (u "id", JStr (u "call-INV-1")) ]) ]) ].

Definition end_of_call_message (call_id : string) (started_at ended_at : Z)
  : list (pystr * json) :=
  [ (u "type", JStr (u "end-of-call-report"));
    (u "transcript", JStr (u "Haan ji, payment ho gaya hai."));
    (u "call", JDict [ (u "id", JStr (u call_id));
                       (u "startedAt", JInt started_at);
                       (u "endedAt", JInt ended_at) ]) ].

Definition end_of_call_report (call_id : string) (started_at ended_at : Z)
  : json :=
  JDict [ (u "message",
           JDict (end_of_call_message call_id started_at ended_at)) ].

(** Two answers of the classifier's model, as [json.loads] reads them: the
    customer has paid; in the second the model left the language open. *)
Definition outcome_paid : json :=
  JDict [ (u "payment_status", JStr (u "paid"));
          (u "language_detected", JStr (u "hindi"));
          (u "customer_sentiment", JStr (u "positive")) ].

Definition outcome_paid_language_null : json :=
  JDict [ (u "payment_status", JStr (u "paid"));
          (u "language_detected", JNull);
          (u "customer_sentiment", JStr (u "positive")) ].

Definition classifier_answering (answer : json) : Services :=
  services (Ok (u "{...}")) (Ok answer) (Ok []).

(** Two payment rows of the same client. *)
Definition payment (invoice : string) (amount : Z) : Payment.t :=
  Payment.mk (u "Asha Coatings") (u "Asha Coatings") (u "+919876543210")
    (u invoice) (float_of_Z amount) (Some (mkDate 2024 1 1)) (u "pending")
    12 None None.

Definition payments : list Payment.t :=
  [ payment "INV-1" 1000; payment "INV-4" 250 ].

Definition quiet : Services := classifier_answering outcome_paid.

End Scenario.


(* ================================================================== *)
(** * More data to run the code on *)
(* ================================================================== *)

Module Samples.
Import Py Db Effects Gateway.

(** [int(s)] on a run of ASCII digits. *)
Fixpoint digits_value (acc : Z) (s : pystr) : option Z :=
  match s with
  | [] => Some acc
  | c :: s' =>
      if ascii_isdigit c then digits_value (10 * acc + Z.of_N (c - 48))%Z s'
      else None
  end.

(** A worksheet with the given rows that takes every write. *)
Definition worksheet (rows : list (list pystr)) : Worksheet := {|
  open_worksheet := fun _ => Ok tt;
  row_values := fun _ n => Ok (nth (Z.to_nat (n - 1)) rows []);
  all_values := fun _ => Ok rows;
  update_fails := fun _ _ => None;
  int_of_str := fun s =>
    match s, digits_value 0 s with
    | _ :: _, Some n => Ok n
    | _, _ => Raise (mkExn ValueError (u "invalid literal for int()"))
    end;
  strftime_datetime := fun _ _ => u "2024-01-01 10:00:00";
  str_of_row := fun row => join (u ", ") row
|}.

(** A sheet with its header in the second row; the first invoice has been
    called twice already, and one invoice is below the total. *)
Definition tracking_sheet : list (list pystr) :=
  [ [u "Asha Coatings"];
    [u "Sr"; u "Invoice Date"; u "Invoice No."; u "Amount"];
    [u "1"; u "01-Jan-24"; u "INV-1"; u "1000"] ++ repeat [] 10 ++ [u "2"];
    [u "2"; u "05-Jan-24"; u " INV-4 "; u "250"];
    [u "Total"; []; []; u "1250"];
    [u "3"; u "09-Jan-24"; u "INV-9"; u "75"] ].

Definition sheet_update_for (invoice : string) : sheet_update :=
  mkSheetUpdate (u invoice) 0%Q (u "Customer will make payment") VNone
    (VStr (u "will_pay")) None
    [ (u "payment_status", VStr (u "will_pay"));
      (u "customer_sentiment", VStr (u "positive")) ]
    VNone.

(** Settings that allow no call at all. *)
Definition settings_rate_zero : Settings := {|
  google_sheet_id := u "default-sheet";
  call_rate_limit_per_minute := 0;
  business_start_time := 36000%Q;
  business_end_time := 68400%Q
|}.

(** Services reading [Scenario.sheet]; no date parses but the one of the
    data rows. *)
Definition services_with_sheet : Services := {|
  strptime := fun s _ =>
    if str_eqb s (u "25-May-25") then Ok (mkDate 2025 5 25)
    else Raise (mkExn ValueError (u "does not match format"));
  strftime := fun _ _ => u "2025-05-25";
  repr_other := fun _ => [];
  json_loads := fun _ => Ok Scenario.outcome_paid;
  generate_content := fun _ _ _ => Ok (u "{...}");
  make_outbound_call := fun _ p => (Some (u "call-" ++ Payment.invoice_id p), 2%Q);
  get_all_values := fun _ _ => Ok Scenario.sheet;
  local_time_of_day := fun t => t;
  logger_error_exc_info := fun _ => None;
  sheet_update_raises := fun _ _ => None;
  flush_call_log := fun _ _ => None
|}.

(** A provider that declines every call. *)
Definition services_declining : Services := {|
  strptime := fun _ _ => Raise (mkExn ValueError (u "does not match format"));
  strftime := fun _ _ => [];
  repr_other := fun _ => [];
  json_loads := fun _ => Ok Scenario.outcome_paid;
  generate_content := fun _ _ _ => Ok (u "{...}");
  make_outbound_call := fun _ _ => (None, 2%Q);
  get_all_values := fun _ _ => Ok Scenario.sheet;
  local_time_of_day := fun t => t;
  logger_error_exc_info := fun _ => None;
  sheet_update_raises := fun _ _ => None;
  flush_call_log := fun _ _ => None
|}.

(** The model cannot be reached, and the store rejects the call log at the
    commit. *)
Definition services_rejecting : Services := {|
  strptime := fun _ _ => Raise (mkExn ValueError (u "does not match format"));
  strftime := fun _ _ => [];
  repr_other := fun _ => [];
  json_loads := fun _ => Raise (mkExn ServiceError []);
  generate_content := fun _ _ _ => Raise (mkExn ServiceError (u "timeout"));
  make_outbound_call := fun _ p => (Some (u "call-" ++ Payment.invoice_id p), 2%Q);
  get_all_values := fun _ _ => Ok [];
  local_time_of_day := fun t => t;
  logger_error_exc_info := fun _ => None;
  sheet_update_raises := fun _ _ => None;
  flush_call_log := fun _ _ =>
    Some (mkExn ServiceError (u "StatementError"))
|}.

(** A logger that formats its message as loguru does when it is given a
    keyword: a brace in the message is read as a field, and there is
    none. *)
Definition services_log_raising : Services := {|
  strptime := fun _ _ => Raise (mkExn ValueError (u "does not match format"));
  strftime := fun _ _ => [];
  repr_other := fun _ => [];
  json_loads := fun _ => Ok Scenario.outcome_paid;
  generate_content := fun _ _ _ => Ok (u "{...}");
  make_outbound_call := fun _ p => (Some (u "call-" ++ Payment.invoice_id p), 2%Q);
  get_all_values := fun _ _ => Ok Scenario.sheet;
  local_time_of_day := fun t => t;
  logger_error_exc_info := fun message =>
    if contains (u "{") message then Some (mkExn KeyError (u "'code'"))
    else None;
  sheet_update_raises := fun _ _ => None;
  flush_call_log := fun _ _ => None
|}.

(** A spreadsheet that cannot be opened; the error of the API shows its
    fields in braces. *)
Definition worksheet_unreachable : Worksheet := {|
  open_worksheet := fun _ => Raise (mkExn ServiceError (u "{'code': 404}"));
  row_values := fun _ _ => Ok [];
  all_values := fun _ => Ok [];
  update_fails := fun _ _ => None;
  int_of_str := fun _ =>
    Raise (mkExn ValueError (u "invalid literal for int()"));
  strftime_datetime := fun _ _ => u "2024-01-01 10:00:00";
  str_of_row := fun row => join (u ", ") row
|}.

(** A call log stored under the provider id "123", and a report that gives
    the id as the number 123. *)
Definition call_log_123 : CallLog.t :=
  CallLog.mk 1 1 (Some (u "123")) 2%Q VNone IN_PROGRESS VNone VNone
    VNone VFalse VNone VFalse VFalse VNone VNone VNone VNone VNone VNone 2%Q.

Definition world_123 : World :=
  mkWorld (mkDB [Scenario.client1] [Scenario.invoice1] [call_log_123])
    300%Q [].

Definition end_of_call_report_123 : json :=
  JDict [ (u "message",
           JDict [ (u "type", JStr (u "end-of-call-report"));
                   (u "transcript", JStr (u "Haan ji, payment ho gaya hai."));
                   (u "call", JDict [ (u "id", JInt 123);
                                      (u "startedAt", JInt 100);
                                      (u "endedAt", JInt 160) ]) ]) ].

(** A world within business hours, and one after them. *)
Definition world_open : World := mkWorld empty_db 40000%Q [].
Definition world_closed : World := mkWorld empty_db 80000%Q [].

(** The store of [Scenario.world1], within business hours. *)
Definition world1_open : World :=
  mkWorld (db Scenario.world1) 40000%Q [].

(** A payment row whose dates could not be read. *)
Definition payment_without_date : Payment.t :=
  Payment.mk (u "Asha Coatings") (u "Asha Coatings") (u "+919876543210")
    (u "INV-7") (float_of_Z 10) None (u "pending") 13 None None.

(** A payment row as [sync_to_database] leaves it. *)
Definition payment_synced : Payment.t :=
  Payment.set_db_ids (Scenario.payment "INV-1" 1000) 1 1.

(** The Unicode tables have no letter beyond ASCII. *)
Definition ascii_letters : Vapi.Letters := {| Vapi.uni_isalpha := fun _ => false |}.

End Samples.
(* ================================================================== *)
(** * Vocabulary of the statements *)
(* ================================================================== *)

Unset Implicit Arguments.

Module Spec.
Import Py Db Effects.

(** The floats a non-negative quantity can round to. *)
Definition nonneg_float (x : float) : Prop :=
  match x with
  | S754_zero false | S754_infinity false | S754_finite false _ _ => True
  | _ => False
  end.

(** The amounts [_parse_amount] cannot read: nothing is left after the
    cleaning, or [float] rejects what is left. *)
Definition unparsable {U : Unicode} (amount : pystr) : Prop :=
  Sheets.cleaned_amount amount = []
  \/ exists e, float_of_str (Sheets.cleaned_amount amount) = Raise e.

(** What the claim asks of a row returned by [get_pending_payments]. *)
Definition returned_row_ok (p : Payment.t) : Prop :=
  fltb fzero (Payment.amount_due p) = true
  /\ Payment.invoice_id p <> []
  /\ Payment.contact_number p <> [].

(** The sheet rows that must not be returned: the pending amount is not
    positive, the invoice cell is empty, or it holds a summary keyword. *)
Definition excluded_row {U : Unicode} (row : list pystr) : Prop :=
  fleb (Sheets._parse_amount (Sheets.cell_or (u "0") row Sheets.pending_col))
       fzero = true
  \/ Sheets.cell_or [] row Sheets.invoice_col = []
  \/ Sheets.any_keyword Sheets.summary_keywords
       (lower (Sheets.cell_or [] row Sheets.invoice_col)) = true.


(** The two date fields of the classifier's answer. *)
Definition date_field (k : pystr) : Prop :=
  k = u "payment_promise_date" \/ k = u "next_follow_up_date".

(** [call.id] of a webhook message, when the message has a [call] object
    (or none at all, which the handlers read as an empty one). *)
Definition reported_call_id (message : list (pystr * json)) : option json :=
  match dict_get Orchestrator.k_call (JDict []) message with
  | JDict c => Some (dict_get Orchestrator.k_id JNull c)
  | _ => None
  end.

(** A webhook payload that carries [message] with the given type. *)
Definition payload_of_type (type : string) (payload : json)
    (message : list (pystr * json)) : Prop :=
  exists wd,
    payload = JDict wd
    /\ dict_lookup Orchestrator.k_message wd = Some (JDict message)
    /\ dict_lookup Orchestrator.k_type message = Some (JStr (u type)).

(** The internal status the claim gives for a provider status. *)
Definition claimed_status (s : pystr) : CallStatus :=
  if str_eqb s (u "ended") then COMPLETED else IN_PROGRESS.

(** No spreadsheet update was requested between two worlds. *)
Definition no_new_sheet_update (w w' : World) : Prop :=
  forall x, In (SheetUpdateRequested x) (events w') ->
            In (SheetUpdateRequested x) (events w).

(** The transcript [_handle_end_of_call] hands to the classifier. *)
Definition transcript_of (message : list (pystr * json)) : json :=
  let transcript := dict_get Orchestrator.k_transcript (JStr []) message in
  if negb (json_truthy transcript) then JStr (u "No transcript available")
  else transcript.

(** The two time stamps of the report, with the handler's defaults. *)
Definition started_at_of (c : list (pystr * json)) : json :=
  dict_get Orchestrator.k_startedAt (JInt 0) c.

Definition ended_at_of (c : list (pystr * json)) : json :=
  dict_get Orchestrator.k_endedAt (JInt 0) c.

(** The classifier's [payment_status] is "paid". *)
Definition classified_paid (r : Classifier.outcome) : bool :=
  eq_str (dict_get Classifier.k_payment_status VNone r) (u "paid").

(** Primary keys are unique. *)
Definition wf_db (d : DB) : Prop :=
  NoDup (List.map Client.id (clients d))
  /\ NoDup (List.map Invoice.id (invoices d))
  /\ NoDup (List.map CallLog.id (call_logs d)).

(** A payment row is valid for the store when it has a date to be due. *)
Definition valid_payment (p : Payment.t) : Prop :=
  Payment.due_date p <> None.

(** The store already holds what [sync_to_database] wants for a payment:
    its client, recorded under the sheet given, and its invoice. *)
Definition synced (sheet_id : option pystr) (d : DB) (p : Payment.t)
    (inv cl : Z) : Prop :=
  exists c v,
    client_by_contact_number d (Payment.contact_number p) = Some c
    /\ Client.id c = cl
    /\ Orchestrator.sheet_differs sheet_id c = false
    /\ invoice_by_invoice_id d (Payment.invoice_id p) = Some v
    /\ Invoice.id v = inv.

(** What a batch does to the outside, in order: a call per payment, and the
    delay after every call but the last. *)
Fixpoint schedule (delay : float) (payments : list Payment.t) : list event :=
  match payments with
  | [] => []
  | p :: rest =>
      CallRequested p
      :: match rest with
         | [] => []
         | _ :: _ => Slept delay :: schedule delay rest
         end
  end.

(** The number of delays in a batch: one less than the number of calls. *)
Definition delays (payments : list Payment.t) : Q :=
  inject_Z (Z.of_nat (Nat.pred (List.length payments))).

(** Placing a call does not take negative time. *)
Definition calls_take_time {Sv : Services} : Prop :=
  forall h p, (0 <= snd (make_outbound_call h p))%Q.

End Spec.
Import Spec.


(* ================================================================== *)
(** * Vocabulary of the statements about the rest of the code *)
(* ================================================================== *)

Module Props.
Import Py Db Effects.

(** The number of a spreadsheet column, from its letters: A is 1, Z is 26,
    AA is 27. *)
Definition column_number (letters : pystr) : Z :=
  fold_left (fun acc c => (26 * acc + (Z.of_N c - 64))%Z) letters 0%Z.

Definition capital_letter (c : N) : Prop := (65 <= c <= 90)%N.

(** The cells of the tracking columns J to Q of a row, in A1 notation. *)
Definition tracking_ranges (row_number : Z) : list pystr :=
  List.map (fun c => u c ++ Gateway.str_of_int row_number)
    ["J"; "K"; "L"; "M"; "N"; "O"; "P"; "Q"]%string.

(** The texts column K can get. *)
Definition call_status_texts : list pystr :=
  List.map u [ "Payment Made"; "Promised Payment"; "Disputed"; "No Answer";
               "Needs Follow-up"; "Called" ]%string.

(** A mobile number as the sheet reader formats it: +91 and ten digits. *)
Definition indian_mobile {U : Unicode} (n : pystr) : Prop :=
  exists d, n = u "+91" ++ d
            /\ List.length d = 10%nat
            /\ forallb isdigit d = true.

(** [g] is a piece of [text]. *)
Definition substring (g text : pystr) : Prop :=
  exists before after, text = before ++ g ++ after.

(** A text in braces. *)
Definition braced (g : pystr) : Prop :=
  exists inner, g = Classifier.open_brace :: inner ++ [Classifier.close_brace].

Definition is_str (v : pyval) : Prop := exists s, v = VStr s.

Definition is_date (v : pyval) : Prop := exists d, v = VDate d.

(** The actions [determine_next_action] chooses from when there is no
    promised date. *)
Definition fixed_actions : list pystr :=
  List.map u [ "Mark as paid and close"; "Follow up in 2 days";
               "Resend invoice immediately"; "Escalate to accounts team";
               "Escalate to manager"; "Follow up in 3 days" ]%string.

(** The calls requested so far, oldest first. *)
Definition calls_requested (w : World) : list Payment.t :=
  flat_map (fun e => match e with CallRequested p => [p] | _ => [] end)
    (events w).

(** The local time of the world is within business hours. *)
Definition open_for_business {Sv : Services} {St : Settings} (w : World)
  : bool :=
  Qle_bool business_start_time (local_time_of_day (clock w))
  && Qle_bool (local_time_of_day (clock w)) business_end_time.

End Props.
Import Props.

(** Closes a goal of [determine_next_action] whose answer is one of the
    fixed actions. *)
Ltac fixed_action :=
  let E := fresh "E" in
  intros E; inversion E; left; vm_compute; tauto.
(* ================================================================== *)
(** * Facts about the Python fragment *)
(* ================================================================== *)

Section PyFacts.
Import Py.

Lemma str_eqb_refl (s : pystr) : str_eqb s s = true.
Proof.
  induction s as [|c s IH]; simpl; [reflexivity|].
  now rewrite N.eqb_refl, IH.
Qed.

Lemma str_eqb_eq (a b : pystr) : str_eqb a b = true <-> a = b.
Proof.
  split; [|intros ->; apply str_eqb_refl].
  revert b; induction a as [|x a IH]; destruct b as [|y b]; simpl;
    try discriminate; [reflexivity|].
  intros H; apply andb_true_iff in H as [Hxy Hab].
  apply N.eqb_eq in Hxy; subst; f_equal; auto.
Qed.

Lemma str_eqb_sym (a b : pystr) : str_eqb a b = str_eqb b a.
Proof.
  destruct (str_eqb a b) eqn:E.
  - apply str_eqb_eq in E; subst. symmetry; apply str_eqb_refl.
  - destruct (str_eqb b a) eqn:E'; [|reflexivity].
    apply str_eqb_eq in E'; subst. now rewrite str_eqb_refl in E.
Qed.

(** ** Dictionaries *)

Lemma dict_lookup_set_same {V : Type} (k : pystr) (v : V) (d : list (pystr * V)) :
  dict_lookup k (dict_set k v d) = Some v.
Proof.
  induction d as [|[k' v'] d IH]; simpl.
  - now rewrite str_eqb_refl.
  - destruct (str_eqb k' k) eqn:E; simpl.
    + now rewrite str_eqb_refl.
    + now rewrite E.
Qed.

Lemma dict_lookup_set_other {V : Type} (k k0 : pystr) (v : V)
    (d : list (pystr * V)) :
  str_eqb k0 k = false ->
  dict_lookup k (dict_set k0 v d) = dict_lookup k d.
Proof.
  intros Hk. induction d as [|[k' v'] d IH]; simpl.
  - now rewrite Hk.
  - destruct (str_eqb k' k0) eqn:E; simpl.
    + apply str_eqb_eq in E; subst k'. now rewrite Hk.
    + now rewrite IH.
Qed.


Lemma nonempty_false (s : pystr) : Sheets.nonempty s = false -> s = [].
Proof. destruct s; [reflexivity|discriminate]. Qed.

Lemma nonempty_true (s : pystr) : Sheets.nonempty s = true -> s <> [].
Proof. destruct s; [discriminate|intros _ H; discriminate H]. Qed.

(** ** Rounding never yields a NaN or a negative number *)

Lemma shr_1_nonneg (r : shr_record) :
  (0 <= shr_m r)%Z -> (0 <= shr_m (shr_1 r))%Z.
Proof.
  destruct r as [m b s]; destruct m as [|[p|p|]|[p|p|]]; simpl; lia.
Qed.

Lemma iter_pos_shr_1_nonneg (p : positive) :
  forall r, (0 <= shr_m r)%Z -> (0 <= shr_m (iter_pos shr_1 p r))%Z.
Proof.
  induction p as [p IH|p IH|]; simpl; intros r Hr.
  - apply IH, IH, shr_1_nonneg, Hr.
  - apply IH, IH, Hr.
  - apply shr_1_nonneg, Hr.
Qed.

Lemma shr_fexp_nonneg (m e : Z) (l : location) :
  (0 <= m)%Z -> (0 <= shr_m (fst (shr_fexp prec emax m e l)))%Z.
Proof.
  intros Hm. unfold shr_fexp, shr.
  assert (H0 : (0 <= shr_m (shr_record_of_loc m l))%Z)
    by (destruct l as [|[]]; exact Hm).
  destruct (fexp prec emax (Zdigits2 m + e) - e)%Z; simpl; auto.
  apply iter_pos_shr_1_nonneg, H0.
Qed.

Lemma round_nearest_even_nonneg (m : Z) (l : location) :
  (0 <= m)%Z -> (0 <= round_nearest_even m l)%Z.
Proof.
  intros Hm; destruct l as [|[]]; simpl; try lia.
  destruct (Z.even m); lia.
Qed.

Lemma binary_round_aux_nonneg (m e : Z) (l : location) :
  (0 <= m)%Z -> nonneg_float (binary_round_aux prec emax false m e l).
Proof.
  intros Hm. unfold binary_round_aux.
  pose proof (shr_fexp_nonneg _ e l Hm) as H1.
  destruct (shr_fexp prec emax m e l) as [mrs' e'] eqn:E1; simpl in H1.
  pose proof (shr_fexp_nonneg _ e' loc_Exact
                (round_nearest_even_nonneg _ (loc_of_shr_record mrs') H1))
    as H2.
  destruct (shr_fexp prec emax _ e' loc_Exact) as [mrs'' e''] eqn:E2.
  simpl in H2.
  destruct (shr_m mrs'') as [|q|q]; simpl; [exact I| |lia].
  destruct (_ <=? _)%Z; exact I.
Qed.

Lemma float_of_ratio_nonneg (n d : Z) :
  (0 <= n)%Z -> (0 < d)%Z -> nonneg_float (float_of_ratio n d).
Proof.
  intros Hn Hd. unfold float_of_ratio.
  destruct n as [|n|n]; [exact I| |lia].
  unfold SFdiv_core_binary.
  set (e' := Z.min _ _). set (m' := match (0 - 0 - e')%Z with
                                    | Z0 => Z.pos n
                                    | Zpos _ => Z.shiftl (Z.pos n) (0 - 0 - e')
                                    | Zneg _ => 0%Z end).
  assert (Hm' : (0 <= m')%Z).
  { unfold m'. destruct (0 - 0 - e')%Z; try lia. apply Z.shiftl_nonneg; lia. }
  pose proof (Z_div_mod m' d ltac:(lia)) as Hdm.
  destruct (Z.div_eucl m' d) as [q r].
  apply binary_round_aux_nonneg.
  destruct Hdm as [Heq Hr]. nia.
Qed.

Lemma nonneg_float_positive (x : float) :
  nonneg_float x -> fleb x fzero = false -> fltb fzero x = true.
Proof.
  destruct x as [[]|[]| |[] m e]; simpl; intros H; try contradiction;
    unfold fleb, fltb, SFleb, SFltb; simpl; congruence.
Qed.

Section Digits.
Context {U : Unicode}.

Lemma decimal_value_nonneg (c : N) (d : Z) :
  decimal_value c = Some d -> (0 <= d)%Z.
Proof.
  unfold decimal_value.
  destruct (is_ascii c).
  - destruct (ascii_isdigit c); [|discriminate].
    intros H; inversion H; lia.
  - destruct (uni_decimal c); simpl; [|discriminate].
    intros H; inversion H; lia.
Qed.

Lemma read_digits_nonneg (s : pystr) :
  forall acc count m n rest,
    (0 <= acc)%Z ->
    read_digits acc count s = Some (m, n, rest) -> (0 <= m)%Z.
Proof.
  induction s as [|c s IH]; cbn [read_digits];
    intros acc count m n rest Ha H.
  - inversion H; subst; exact Ha.
  - destruct (c =? 46)%N; [inversion H; subst; exact Ha|].
    destruct (decimal_value c) as [d|] eqn:Ed; [|discriminate].
    apply IH in H; [exact H|].
    pose proof (decimal_value_nonneg _ _ Ed). lia.
Qed.

Lemma float_of_str_nonneg (s : pystr) (x : float) :
  float_of_str s = Ok x -> nonneg_float x.
Proof.
  unfold float_of_str.
  destruct (read_digits 0 0 s) as [[[ip ni] rest]|] eqn:E1; [|discriminate].
  pose proof (read_digits_nonneg _ _ _ _ _ _ (Z.le_refl 0) E1) as Hip.
  destruct rest as [|dot frac].
  - destruct (Nat.eqb ni 0); [discriminate|].
    intros H; inversion H; subst.
    apply float_of_ratio_nonneg; lia.
  - destruct (read_digits ip 0 frac) as [[[m nf] [|]]|] eqn:E2;
      try discriminate.
    destruct (Nat.eqb (ni + nf) 0); [discriminate|].
    intros H; inversion H; subst.
    apply float_of_ratio_nonneg.
    + exact (read_digits_nonneg _ _ _ _ _ _ Hip E2).
    + apply Z.pow_pos_nonneg; lia.
Qed.

Lemma parse_amount_is_nonneg (amount : pystr) :
  nonneg_float (Sheets._parse_amount amount).
Proof.
  unfold Sheets._parse_amount.
  destruct (negb (Sheets.nonempty amount)); [exact I|].
  destruct (Sheets.nonempty (Sheets.cleaned_amount amount)); [|exact I].
  destruct (float_of_str (Sheets.cleaned_amount amount)) as [x|e] eqn:E;
    [|exact I].
  exact (float_of_str_nonneg _ _ E).
Qed.
End Digits.

End PyFacts.

(* ================================================================== *)
(** * Spreadsheet gateway *)
(* ================================================================== *)

Section SheetsFacts.
Import Py Db Effects Sheets.

(** C8. Amount parsing maps "₹55,696.00", "55696", "Rs 55,696" and
    " 55,696.00 " to 55696.0, and the empty string and every unparsable
    string to 0.0; being a total function, it never raises. *)
Theorem parse_amount_examples (U : Unicode) :
  _parse_amount (rupee ++ u "55,696.00") = float_of_Z 55696
  /\ _parse_amount (u "55696") = float_of_Z 55696
  /\ _parse_amount (u "Rs 55,696") = float_of_Z 55696
  /\ _parse_amount (u " 55,696.00 ") = float_of_Z 55696
  /\ _parse_amount [] = fzero
  /\ forall amount, unparsable amount -> _parse_amount amount = fzero.
Proof.
  repeat split; try (vm_compute; reflexivity).
  intros amount H. unfold _parse_amount.
  destruct (negb (nonempty amount)); [reflexivity|].
  destruct H as [H|[e H]]; rewrite H; [reflexivity|].
  destruct (nonempty (cleaned_amount amount)); reflexivity.
Qed.

(** The float the four inputs parse to is the number 55696. *)
Lemma float_55696_value : (Q_of_float (float_of_Z 55696) == 55696)%Q.
Proof. vm_compute. reflexivity. Qed.

Lemma parse_amount_examples_witness :
  @unparsable ascii_only (u "1.2.3")
  /\ @_parse_amount ascii_only (u "1.2.3") = fzero
  /\ @unparsable ascii_only (u "N/A")
  /\ @_parse_amount ascii_only (u "N/A") = fzero.
Proof.
  assert (H1 : @unparsable ascii_only (u "1.2.3"))
    by (right; eexists; vm_compute; reflexivity).
  assert (H2 : @unparsable ascii_only (u "N/A"))
    by (left; vm_compute; reflexivity).
  pose proof (parse_amount_examples ascii_only)
    as (_ & _ & _ & _ & _ & Hzero).
  split; [exact H1|]. split; [exact (Hzero _ H1)|].
  split; [exact H2|]. exact (Hzero _ H2).
Defined.

Section PendingRows.
Context {U : Unicode} {Sv : Services}.

Lemma pending_row_some (cn co ct : pystr) (idx : nat) (row : list pystr)
    (p : Payment.t) :
  pending_row cn co ct idx row = Some p ->
  returned_row_ok p
  /\ Payment.row_number p = (Z.of_nat idx + 1)%Z
  /\ ~ excluded_row row.
Proof.
  unfold pending_row, excluded_row.
  destruct (negb (existsb nonempty row)); [discriminate|].
  destruct (nonempty (cell_or [] row invoice_col)) eqn:Einv; cbn [negb];
    [|discriminate].
  destruct (any_keyword summary_keywords (lower (cell_or [] row invoice_col)))
    eqn:Ekw; [discriminate|].
  destruct (fleb (_parse_amount (cell_or (u "0") row pending_col)) fzero)
    eqn:Eamt; [discriminate|].
  cbn [Payment.contact_number Payment.invoice_id].
  destruct (nonempty ct) eqn:Ect; cbn [andb]; [|discriminate].
  destruct (nonempty (strip (cell_or [] row invoice_col))) eqn:Eid;
    [|discriminate].
  intros H; inversion H; subst; clear H. unfold returned_row_ok; simpl.
  repeat split.
  - apply nonneg_float_positive; [apply parse_amount_is_nonneg|exact Eamt].
  - apply nonempty_true, Eid.
  - apply nonempty_true, Ect.
  - intros [H|[H|H]]; try congruence.
    rewrite H in Einv; discriminate.
Qed.

Lemma pending_rows_in (cn co ct : pystr) (rows : list (nat * list pystr))
    (p : Payment.t) :
  In p (pending_rows cn co ct rows) ->
  exists idx row, In (idx, row) rows /\ pending_row cn co ct idx row = Some p.
Proof.
  induction rows as [|[idx row] rows IH]; simpl; [contradiction|].
  destruct (pending_row cn co ct idx row) as [q|] eqn:E.
  - intros [->|H].
    + exists idx, row; auto.
    + destruct (IH H) as (i & r & Hin & Hr); exists i, r; auto.
  - intros H; destruct (IH H) as (i & r & Hin & Hr); exists i, r; auto.
Qed.

Lemma enumerate_in {A : Type} (l : list A) :
  forall start idx x,
    In (idx, x) (enumerate start l) ->
    (start <= idx)%nat /\ nth_error l (idx - start)%nat = Some x.
Proof.
  induction l as [|y l IH]; simpl; intros start idx x; [contradiction|].
  intros [H|H].
  - inversion H; subst. rewrite Nat.sub_diag. split; [lia|reflexivity].
  - apply IH in H as [Hle Hnth]. split; [lia|].
    replace (idx - start)%nat with (S (idx - S start)) by lia. exact Hnth.
Qed.

Lemma pending_payments_of_rows (all_data : list (list pystr)) (p : Payment.t) :
  In p (pending_payments_of all_data) ->
  exists idx row,
    (header_row_idx < idx)%nat
    /\ nth_error all_data idx = Some row
    /\ returned_row_ok p
    /\ Payment.row_number p = (Z.of_nat idx + 1)%Z
    /\ ~ excluded_row row.
Proof.
  unfold pending_payments_of.
  destruct (Nat.leb (List.length all_data) header_row_idx); [contradiction|].
  intros H. apply pending_rows_in in H as (idx & row & Hin & Hrow).
  apply enumerate_in in Hin as [Hle Hnth].
  rewrite nth_error_skipn in Hnth.
  replace (S header_row_idx + (idx - S header_row_idx))%nat with idx in Hnth
    by lia.
  apply pending_row_some in Hrow as (Hok & Hnum & Hex).
  exists idx, row. split; [unfold header_row_idx in *; lia|].
  split; [exact Hnth|]. split; [exact Hok|]. split; [exact Hnum|exact Hex].
Qed.

(** C10. Every row returned by [get_pending_payments] has a strictly
    positive parsed pending amount, a non-empty invoice identifier and a
    non-empty contact number; and a sheet row whose amount is not positive,
    whose invoice cell is empty or whose invoice cell holds a summary
    keyword is not among the returned rows.  The call always returns. *)
Theorem get_pending_payments_rows (sheet_id : option pystr) (w : World) :
  exists rows w',
    get_pending_payments sheet_id w = (Ok rows, w')
    /\ db w' = db w
    /\ (forall p, In p rows -> returned_row_ok p)
    /\ (forall all_data idx row p,
          get_all_values (events w) sheet_id = Ok all_data ->
          nth_error all_data idx = Some row ->
          excluded_row row ->
          In p rows ->
          Payment.row_number p <> (Z.of_nat idx + 1)%Z).
Proof.
  unfold get_pending_payments, try_except, bind, get_world, modify, lift, ret.
  destruct (get_all_values (events w) sheet_id) as [all_data|e] eqn:E; simpl.
  - eexists; eexists; split; [reflexivity|]. split; [reflexivity|]. split.
    + intros p Hp.
      apply pending_payments_of_rows in Hp as (i & r & _ & _ & Hok & _).
      exact Hok.
    + intros data idx row p Hdata Hnth Hex Hp.
      inversion Hdata; subst data.
      apply pending_payments_of_rows in Hp
        as (i & r & _ & Hnth' & _ & Hnum & Hnex).
      intros Heq. rewrite Hnum in Heq.
      assert (i = idx) by lia. subst i.
      rewrite Hnth in Hnth'. inversion Hnth'; subst r. exact (Hnex Hex).
  - eexists; eexists; split; [reflexivity|]. split; [reflexivity|].
    split; [intros p []|]. intros data idx row p Hdata; discriminate.
Qed.

End PendingRows.

(** On the sheet of the scenario the rows INV-1 and INV-4 are returned, and
    the zero-amount row and the summary row are left out. *)
Lemma get_pending_payments_rows_witness :
  let Sv := Scenario.services (Raise (mkExn ServiceError []))
              (Raise (mkExn ServiceError [])) (Ok Scenario.sheet) in
  exists rows w',
    @get_pending_payments ascii_only Sv None Scenario.world0 = (Ok rows, w')
    /\ List.map Payment.invoice_id rows = [u "INV-1"; u "INV-4"]
    /\ List.map Payment.row_number rows = [12; 15]%Z
    /\ (forall p, In p rows -> returned_row_ok p)
    /\ (forall p, In p rows -> Payment.row_number p <> 13%Z).
Proof.
  intros Sv.
  destruct (@get_pending_payments_rows ascii_only Sv None Scenario.world0)
    as (rows & w' & Hrun & _ & Hok & Hex).
  exists rows, w'. split; [exact Hrun|].
  assert (Hrows : List.map Payment.invoice_id rows = [u "INV-1"; u "INV-4"]
                  /\ List.map Payment.row_number rows = [12; 15]%Z).
  { vm_compute in Hrun. inversion Hrun; subst rows. split; reflexivity. }
  split; [exact (proj1 Hrows)|]. split; [exact (proj2 Hrows)|].
  split; [exact Hok|].
  intros p Hp.
  refine (Hex Scenario.sheet 12 (Scenario.data_row "0" "INV-2") p
            eq_refl eq_refl _ Hp).
  left. vm_compute. reflexivity.
Defined.

End SheetsFacts.

(* ================================================================== *)
(** * Outcome classifier *)
(* ================================================================== *)

Section ClassifierFacts.
Import Py Db Effects Classifier.
Context {Sv : Services}.

(** [_clean_json_response] on a fenced object, on a bare one (the lazy
    pattern stops at the first closing brace) and on a reply without any. *)
Lemma clean_json_response_examples :
  _clean_json_response (u "Sure: ```json  {a {b} c} ``` done") = u "{a {b} c}"
  /\ _clean_json_response (u "Sure: {a {b} c} done") = u "{a {b}"
  /\ _clean_json_response (u "I cannot tell.") = u "{}".
Proof. repeat split; vm_compute; reflexivity. Qed.


Lemma convert_date_other (k k0 : pystr) (r : outcome) :
  str_eqb k0 k = false ->
  dict_lookup k (convert_date k0 r) = dict_lookup k r.
Proof.
  intros Hk. unfold convert_date.
  destruct (truthy (dict_get k0 VNone r)); [|reflexivity].
  now apply dict_lookup_set_other.
Qed.



End ClassifierFacts.


(* ================================================================== *)
(** * Webhook reconciliation *)
(* ================================================================== *)

Section StoreFacts.
Import Py Db Effects.
Context {Sq : Sqlite}.

Lemma find_map_update {A : Type} (p : A -> bool) (key : A -> Z) (l : list A)
    (x x' : A) :
  find p l = Some x -> key x' = key x -> p x' = true ->
  find p (List.map (fun y => if Z.eqb (key y) (key x') then x' else y) l)
  = Some x'.
Proof.
  intros Hf Hk Hp. induction l as [|y l IH]; simpl in *; [discriminate|].
  destruct (p y) eqn:Ey.
  - inversion Hf; subst y. rewrite Hk, Z.eqb_refl. now rewrite Hp.
  - destruct (Z.eqb (key y) (key x')).
    + now rewrite Hp.
    + rewrite Ey. exact (IH Hf).
Qed.

Lemma call_log_lookup_update (d : DB) (cid : json) (l l' : CallLog.t) :
  call_log_by_vapi_call_id d cid = Some l ->
  CallLog.id l' = CallLog.id l ->
  CallLog.vapi_call_id l' = CallLog.vapi_call_id l ->
  call_log_by_vapi_call_id (update_call_log d l') cid = Some l'.
Proof.
  unfold call_log_by_vapi_call_id, update_call_log.
  destruct (bound_text cid) as [s|]; [|discriminate]. cbn [call_logs].
  intros Hf Hid Hv.
  apply (find_map_update _ CallLog.id _ l l' Hf Hid).
  apply find_some in Hf as [_ Hp]. rewrite Hv. exact Hp.
Qed.

(** A value the query finds a row for could be bound. *)
Lemma found_is_bound (d : DB) (cid : json) (l : CallLog.t) :
  call_log_by_vapi_call_id d cid = Some l -> bind_error cid = None.
Proof.
  unfold call_log_by_vapi_call_id, bound_text, bind_error.
  destruct cid as [| |n| | | |]; try reflexivity; try discriminate.
  destruct (int64 n); [reflexivity | discriminate].
Qed.

End StoreFacts.

Section WebhookFacts.
Import Py Db Effects Orchestrator.
Context {U : Unicode} {Sv : Services} {Sq : Sqlite}.

Lemma mapped_status_str (s : pystr) :
  mapped_status (JStr s) = Ok (claimed_status s).
Proof.
  unfold mapped_status, claimed_status, dict_get, status_mapping.
  cbn [dict_lookup].
  repeat match goal with
         | |- context [if str_eqb ?k s then _ else _] =>
             destruct (str_eqb k s) eqn:?
         end; try reflexivity;
    rewrite (str_eqb_sym s) in *;
    repeat match goal with
           | H : str_eqb _ s = true |- _ =>
               apply str_eqb_eq in H; subst s
           end; try reflexivity;
    match goal with
    | H : str_eqb (u "ended") s = _ |- _ => rewrite H; reflexivity
    end.
Qed.

Lemma process_call_webhook_status_update (payload : json)
    (m : list (pystr * json)) (w : World) :
  payload_of_type "status-update" payload m ->
  process_call_webhook payload w
  = try_except (_handle_status_update (JDict m)) (fun _ => ret tt) w.
Proof.
  intros (wd & -> & Hm & Ht).
  unfold process_call_webhook, process_call_webhook_body, try_except, bind,
    lift, json_get, dict_get.
  rewrite Hm, Ht.
  assert (E : json_eq_str (JStr (u "status-update")) (u "status-update")
              = true) by reflexivity.
  rewrite E. reflexivity.
Qed.

Lemma process_call_webhook_end_of_call (payload : json)
    (m : list (pystr * json)) (w : World) :
  payload_of_type "end-of-call-report" payload m ->
  process_call_webhook payload w
  = try_except (_handle_end_of_call (JDict m)) (fun _ => ret tt) w.
Proof.
  intros (wd & -> & Hm & Ht).
  unfold process_call_webhook, process_call_webhook_body, try_except, bind,
    lift, json_get, dict_get.
  rewrite Hm, Ht.
  assert (E1 : json_eq_str (JStr (u "end-of-call-report")) (u "status-update")
               = false) by reflexivity.
  assert (E2 : json_eq_str (JStr (u "end-of-call-report"))
                 (u "end-of-call-report") = true) by reflexivity.
  rewrite E1, E2. reflexivity.
Qed.

(** C1. In a status-update webhook whose call id matches a stored CallLog,
    every provider status string is mapped and written: "queued", "ringing",
    "in-progress" and "forwarding" give in_progress, "ended" gives completed,
    any other string gives in_progress; the mapping is total and the handler
    returns without raising. *)
Theorem status_update_maps_status (payload : json) (m : list (pystr * json))
    (cid s : pystr) (l : CallLog.t) (w : World) :
  payload_of_type "status-update" payload m ->
  reported_call_id m = Some (JStr cid) ->
  cid <> [] ->
  dict_lookup k_status m = Some (JStr s) ->
  call_log_by_vapi_call_id (db w) (JStr cid) = Some l ->
  let st := claimed_status s in
  (In s (List.map u ["queued"; "ringing"; "in-progress"; "forwarding"]%string)
   -> st = IN_PROGRESS)
  /\ (s = u "ended" -> st = COMPLETED)
  /\ (s <> u "ended" -> st = IN_PROGRESS)
  /\ mapped_status (JStr s) = Ok st
  /\ process_call_webhook payload w
     = (Ok tt,
        set_db w (update_call_log (db w) (CallLog.set_call_status l st)))
  /\ call_log_by_vapi_call_id
       (update_call_log (db w) (CallLog.set_call_status l st)) (JStr cid)
     = Some (CallLog.set_call_status l st)
  /\ CallLog.call_status (CallLog.set_call_status l st) = st.
Proof.
  intros Hp Hid Hne Hs Hl st.
  split.
  { intros Hin. simpl in Hin.
    destruct Hin as [<-|[<-|[<-|[<-|[]]]]]; reflexivity. }
  split; [intros ->; reflexivity|].
  split.
  { intros Hn. unfold st, claimed_status.
    destruct (str_eqb s (u "ended")) eqn:E; [|reflexivity].
    apply str_eqb_eq in E; contradiction. }
  split; [apply mapped_status_str|].
  split.
  - rewrite (process_call_webhook_status_update _ _ _ Hp).
    unfold reported_call_id in Hid.
    unfold try_except, _handle_status_update, _handle_status_update_body,
      try_except, bind, lift, json_get, with_db, get_world, modify, ret,
      raise_if, typed_writes.
    destruct (dict_get k_call (JDict []) m) as [| | | | | |c] eqn:Ec;
      try discriminate.
    inversion Hid as [Hid']. rewrite Hid'.
    unfold dict_get at 1. rewrite Hs.
    destruct cid as [|c0 cid]; [contradiction|].
    cbn [json_truthy negb bind_error].
    rewrite Hl. rewrite mapped_status_str. reflexivity.
  - split; [|reflexivity].
    apply call_log_lookup_update with (l := l); [exact Hl| |]; reflexivity.
Qed.

Lemma parse_call_outcome_world (transcript summary : json) (w : World) :
  exists r,
    Classifier.parse_call_outcome transcript summary w
    = (Ok r, emit w (ModelAsked transcript
                       (Classifier.summary_or_default summary))).
Proof.
  unfold Classifier.parse_call_outcome, Classifier.parse_call_outcome_body,
    try_except, bind, get_world, modify, lift, ret, raise.
  destruct (generate_content _ _ _); cbv beta iota; [|eauto].
  destruct (json_loads _) as [[| | | | | |d]|]; cbv beta iota; eauto.
Qed.

(** Whatever [_handle_end_of_call] raises is caught by
    [process_call_webhook]: the world is the one its body leaves. *)
Lemma end_of_call_handled (message : json) (w : World) :
  try_except (_handle_end_of_call message) (fun _ => ret tt) w
  = (Ok tt, snd (_handle_end_of_call_body message w)).
Proof.
  unfold _handle_end_of_call, try_except, raise_if, ret.
  destruct (_handle_end_of_call_body message w) as [[[]|e] w0]; cbn [snd];
    [reflexivity|].
  destruct (logger_error_exc_info _); reflexivity.
Qed.

(** A report whose call id is unknown leaves the world as it is, apart from
    the question put to the model. *)
Lemma end_of_call_unknown (m : list (pystr * json)) (w : World) :
  (forall cid, reported_call_id m = Some cid ->
               call_log_by_vapi_call_id (db w) cid = None) ->
  let w' := snd (_handle_end_of_call_body (JDict m) w) in
  db w' = db w /\ clock w' = clock w /\ no_new_sheet_update w w'.
Proof.
  intros Hnone.
  assert (Hsame : forall w0 : World, no_new_sheet_update w0 w0)
    by (intros w0 x Hx; exact Hx).
  assert (Hasked : forall t s, no_new_sheet_update w (emit w (ModelAsked t s))).
  { intros t s x Hx. cbn [events emit] in Hx.
    apply in_app_or in Hx as [Hx|[Hx|[]]]; [exact Hx|discriminate]. }
  unfold reported_call_id in Hnone.
  unfold _handle_end_of_call_body, bind, lift, ret, json_get.
  destruct (dict_get k_call (JDict []) m) as [| | | | | |c];
    try (cbn [snd]; repeat split; solve [auto]).
  specialize (Hnone _ eq_refl).
  destruct (json_truthy (dict_get k_id JNull c)); cbn [negb];
    [|cbn [snd]; repeat split; solve [auto]].
  destruct (call_duration_of _ _) as [dur|e]; cbv beta iota;
    [|cbn [snd]; repeat split; solve [auto]].
  match goal with
  | |- context [Classifier.parse_call_outcome ?t ?s w] =>
      destruct (parse_call_outcome_world t s w) as [r Hr]; rewrite Hr
  end.
  destruct (Classifier.generate_summary r) as [rs|e]; cbv beta iota;
    [|cbn [snd]; repeat split; solve [auto]].
  unfold with_db, bind, get_world, raise_if, flush_assigned, ret.
  destruct (bind_error (dict_get k_id JNull c));
    cbn [db emit snd set_db clock events].
  - repeat split; try reflexivity; apply Hasked.
  - rewrite Hnone. cbn [snd]. repeat split; try reflexivity; apply Hasked.
Qed.

(** C3. An end-of-call-report whose call id matches no stored CallLog makes
    [process_call_webhook] return normally and write nothing: the store
    (every Client, Invoice and CallLog row) is as before, and no spreadsheet
    update is requested. *)
Theorem end_of_call_unknown_id_writes_nothing (payload : json)
    (m : list (pystr * json)) (w : World) :
  payload_of_type "end-of-call-report" payload m ->
  (forall cid, reported_call_id m = Some cid ->
               call_log_by_vapi_call_id (db w) cid = None) ->
  exists w',
    process_call_webhook payload w = (Ok tt, w')
    /\ db w' = db w
    /\ no_new_sheet_update w w'.
Proof.
  intros Hp Hnone.
  rewrite (process_call_webhook_end_of_call _ _ _ Hp).
  rewrite end_of_call_handled.
  destruct (end_of_call_unknown m w Hnone) as (Hdb & _ & Hsheet).
  eexists. split; [reflexivity|]. auto.
Qed.

(** [process_call_webhook] returns normally on every payload, a dictionary
    or not. *)
Lemma process_call_webhook_total (payload : json) (w : World) :
  exists w', process_call_webhook payload w = (Ok tt, w').
Proof.
  unfold process_call_webhook, try_except, ret.
  destruct (process_call_webhook_body payload w) as [[[]|e] w']; eauto.
Qed.

(** C9 (amended). For every payload, [process_call_webhook] returns
    normally: whatever is raised inside it, the status-update and
    end-of-call branches included, is caught.  The webhook route therefore
    answers 500 only for what fails before event processing starts: the
    request body is not JSON, or the route's own log line cannot read the
    message type because the body, or its "message", is not an object. *)
Theorem webhook_500_only_before_processing (body : result json) (w : World) :
  (forall payload w0, exists w1,
      process_call_webhook payload w0 = (Ok tt, w1))
  /\ exists resp w',
       Webhook.vapi_webhook body w = (Ok resp, w')
       /\ (resp = Webhook.Received <->
           exists payload t,
             body = Ok payload /\ Webhook.logged_type payload = Ok t)
       /\ (forall code detail,
             resp = Webhook.HTTPException code detail ->
             code = 500%Z /\ w' = w
             /\ ((exists e, body = Raise e)
                 \/ exists payload e,
                      body = Ok payload
                      /\ Webhook.logged_type payload = Raise e)).
Proof.
  split; [intros; apply process_call_webhook_total|].
  unfold Webhook.vapi_webhook, try_except, bind, lift, ret.
  destruct body as [payload|e].
  - destruct (Webhook.logged_type payload) as [t|e] eqn:Et.
    + destruct (process_call_webhook_total payload w) as [w1 Hw1].
      rewrite Hw1. exists Webhook.Received, w1.
      split; [reflexivity|]. split.
      * split; [intros _; exists payload, t; auto|reflexivity].
      * intros code detail H; discriminate.
    + exists (Webhook.HTTPException 500 (exn_msg e)), w.
      split; [reflexivity|]. split.
      * split; [discriminate|].
        intros (p & t & Hp & Ht). inversion Hp; subst p.
        rewrite Et in Ht; discriminate.
      * intros code detail H. inversion H; subst.
        split; [reflexivity|]. split; [reflexivity|].
        right. exists payload, e. auto.
  - exists (Webhook.HTTPException 500 (exn_msg e)), w.
    split; [reflexivity|]. split.
    + split; [discriminate|]. intros (p & t & Hp & _); discriminate.
    + intros code detail H. inversion H; subst.
      split; [reflexivity|]. split; [reflexivity|]. left; eauto.
Qed.

End WebhookFacts.

Section WebhookExamples.
Import Py Db Effects Orchestrator.

(** The provider reports "ended" for the call of the scenario, then a status
    the table does not know. *)
Lemma status_update_maps_status_witness :
  process_call_webhook (U:=ascii_only) (Sv:=Scenario.quiet)
    (Scenario.status_update "ended") Scenario.world1
  = (Ok tt,
     set_db Scenario.world1
       (update_call_log (db Scenario.world1)
          (CallLog.set_call_status Scenario.call_log1 COMPLETED)))
  /\ process_call_webhook (U:=ascii_only) (Sv:=Scenario.quiet)
       (Scenario.status_update "on-hold") Scenario.world1
     = (Ok tt,
        set_db Scenario.world1
          (update_call_log (db Scenario.world1)
             (CallLog.set_call_status Scenario.call_log1 IN_PROGRESS))).
Proof.
  assert (H : forall status,
             payload_of_type "status-update" (Scenario.status_update status)
               [ (u "type", JStr (u "status-update"));
                 (u "status", JStr (u status));
                 (u "call", JDict [ (u "id", JStr (u "call-INV-1")) ]) ]).
  { intros status. eexists. split; [reflexivity|]. split; reflexivity. }
  split.
  - refine (proj1 (proj2 (proj2 (proj2 (proj2
      (status_update_maps_status (U:=ascii_only) (Sv:=Scenario.quiet)
         _ _ (u "call-INV-1") (u "ended") Scenario.call_log1 Scenario.world1
         (H "ended"%string) eq_refl _ eq_refl eq_refl)))))).
    discriminate.
  - refine (proj1 (proj2 (proj2 (proj2 (proj2
      (status_update_maps_status (U:=ascii_only) (Sv:=Scenario.quiet)
         _ _ (u "call-INV-1") (u "on-hold") Scenario.call_log1 Scenario.world1
         (H "on-hold"%string) eq_refl _ eq_refl eq_refl)))))).
    discriminate.
Defined.

(** An end-of-call-report for a call the store has never seen. *)
Lemma end_of_call_unknown_id_writes_nothing_witness :
  exists w',
    process_call_webhook (U:=ascii_only) (Sv:=Scenario.quiet)
      (Scenario.end_of_call_report "call-unknown" 100 160) Scenario.world1
    = (Ok tt, w')
    /\ db w' = db Scenario.world1
    /\ no_new_sheet_update Scenario.world1 w'.
Proof.
  apply (end_of_call_unknown_id_writes_nothing (U:=ascii_only) (Sv:=Scenario.quiet)
           _ (Scenario.end_of_call_message "call-unknown" 100 160)).
  - eexists. split; [reflexivity|]. split; reflexivity.
  - intros cid H. vm_compute in H. inversion H; subst cid. reflexivity.
Defined.

(** C9, as stated, fails: the body below is JSON and a dictionary, and the
    route still answers 500, because its log line calls [get] on the
    [None] under "message". *)
Lemma webhook_500_for_parsed_dictionary :
  exists detail,
    Webhook.vapi_webhook (U:=ascii_only) (Sv:=Scenario.quiet)
      (Ok (JDict [ (u "message", JNull) ])) Scenario.world1
    = (Ok (Webhook.HTTPException 500 detail), Scenario.world1).
Proof. eexists. vm_compute. reflexivity. Qed.

(** A well-formed status update is acknowledged; the body above is not. *)
Lemma webhook_500_only_before_processing_witness :
  (exists w',
     Webhook.vapi_webhook (U:=ascii_only) (Sv:=Scenario.quiet)
       (Ok (Scenario.status_update "ended")) Scenario.world1
     = (Ok Webhook.Received, w'))
  /\ (exists e,
        Webhook.logged_type (JDict [ (u "message", JNull) ]) = Raise e).
Proof.
  split.
  - destruct (webhook_500_only_before_processing (U:=ascii_only) (Sv:=Scenario.quiet)
                (Ok (Scenario.status_update "ended")) Scenario.world1)
      as (_ & resp & w' & Hrun & Hrecv & _).
    exists w'. rewrite Hrun.
    rewrite (proj2 Hrecv); [reflexivity|].
    eexists; eexists; split; reflexivity.
  - destruct (webhook_500_only_before_processing (U:=ascii_only) (Sv:=Scenario.quiet)
                (Ok (JDict [ (u "message", JNull) ])) Scenario.world1)
      as (_ & resp & w' & Hrun & _ & H500).
    vm_compute in Hrun. inversion Hrun; subst resp.
    destruct (H500 _ _ eq_refl) as (_ & _ & [[e He]|(p & e & Hp & He)]);
      [discriminate|].
    inversion Hp; subst p. exists e. exact He.
Defined.

End WebhookExamples.

(* ================================================================== *)
(** * The end-of-call report *)
(* ================================================================== *)

Section EndOfCallFacts.
Import Py Db Effects Orchestrator.
Context {U : Unicode} {Sv : Services} {Sq : Sqlite}.

Lemma invoice_lookup_mark_paid (d : DB) (l : CallLog.t) (inv : Invoice.t)
    (now : datetime) :
  invoice_of d l = Some inv ->
  exists inv',
    invoice_of (mark_paid d inv now) l = Some inv'
    /\ Invoice.payment_status inv' = PAID
    /\ Invoice.id inv' = Invoice.id inv
    /\ Invoice.invoice_id inv' = Invoice.invoice_id inv
    /\ call_logs (mark_paid d inv now) = call_logs d
    /\ clients (mark_paid d inv now) = clients d.
Proof.
  intros Hf. unfold mark_paid, Invoice.is_paid.
  destruct (Invoice.payment_status inv) eqn:Est;
    try (exists (Invoice.set_payment_status inv PAID now);
         split; [|repeat split];
         unfold invoice_of, update_invoice in *; cbn [invoices];
         apply (find_map_update _ Invoice.id _ inv _ Hf); [reflexivity|];
         apply find_some in Hf as [_ Hp]; exact Hp).
  exists inv. repeat split; auto.
Qed.

(** What a report that goes through has done: the duration was computed,
    the classifier's answer summarised, the call log rewritten, and the
    invoice marked when the answer says "paid"; the spreadsheet update did
    not raise and the store took the row. *)
Lemma end_of_call_completed (m c : list (pystr * json)) (cid : json)
    (l : CallLog.t) (w w' : World) :
  dict_get k_call (JDict []) m = JDict c ->
  dict_get k_id JNull c = cid ->
  json_truthy cid = true ->
  call_log_by_vapi_call_id (db w) cid = Some l ->
  _handle_end_of_call_body (JDict m) w = (Ok tt, w') ->
  exists dur r w1 rs inv,
    call_duration_of (started_at_of c) (ended_at_of c) = Ok dur
    /\ Classifier.parse_call_outcome (transcript_of m)
         (dict_get k_summary (JStr []) m) w = (Ok r, w1)
    /\ Classifier.generate_summary r = Ok rs
    /\ let l' := completed_call_log l dur (transcript_of m) rs
                   (dict_get k_recordingUrl JNull c)
                   (dict_get k_cost (JInt 0) c) r in
       let d1 := update_call_log (db w) l' in
       invoice_of d1 l' = Some inv
       /\ db w' = (if classified_paid r then mark_paid d1 inv (clock w)
                   else d1)
       /\ flush_call_log l l' = None.
Proof.
  intros Hc Hid Htruthy Hl.
  unfold _handle_end_of_call_body, bind, lift, ret, json_get.
  rewrite Hc, Hid, Htruthy. cbn [negb].
  unfold started_at_of, ended_at_of.
  destruct (call_duration_of _ _) as [dur|e]; cbv beta iota; [|discriminate].
  fold (transcript_of m).
  destruct (parse_call_outcome_world (transcript_of m)
              (dict_get k_summary (JStr []) m) w) as [r Hr].
  rewrite Hr.
  destruct (Classifier.generate_summary r) as [rs|e] eqn:Ers; cbv beta iota;
    [|discriminate].
  unfold _update_google_sheet_from_call.
  unfold with_db, bind, get_world, modify, raise, ret, raise_if, set_db, emit.
  rewrite (found_is_bound _ _ _ Hl).
  cbn [db clock events].
  rewrite Hl. cbv beta iota. cbn [db clock events].
  set (l' := completed_call_log l dur (transcript_of m) rs _ _ r).
  set (d1 := update_call_log (db w) l').
  fold (classified_paid r).
  destruct (classified_paid r) eqn:Epaid; cbn [db clock events].
  - destruct (invoice_of d1 l') as [inv|] eqn:Einv; cbn [db clock events];
      [|discriminate].
    destruct (invoice_of (mark_paid d1 inv (clock w)) l') as [inv2|];
      [|discriminate].
    destruct (client_of _ inv2) as [cl|]; [|discriminate].
    cbn [db clock events].
    destruct (sheet_update_raises _ _); [discriminate|].
    cbn [flush_assigned].
    destruct (flush_call_log l l') eqn:Eflush; [discriminate|].
    intros H; inversion H; subst w'; clear H.
    eexists dur, r, _, rs, inv.
    split; [reflexivity|]. split; [reflexivity|]. split; [exact Ers|].
    split; [exact Einv|]. cbn [db]. rewrite Epaid.
    split; [reflexivity | exact Eflush].
  - cbn [db clock events].
    destruct (invoice_of d1 l') as [inv|] eqn:Einv; [|discriminate].
    destruct (client_of _ inv) as [cl|]; [|discriminate].
    cbn [db clock events].
    destruct (sheet_update_raises _ _); [discriminate|].
    cbn [flush_assigned].
    destruct (flush_call_log l l') eqn:Eflush; [discriminate|].
    intros H; inversion H; subst w'; clear H.
    eexists dur, r, _, rs, inv.
    split; [reflexivity|]. split; [reflexivity|]. split; [exact Ers|].
    split; [exact Einv|]. cbn [db]. rewrite Epaid.
    split; [reflexivity | exact Eflush].
Qed.

(** The duration computed from the two time stamps: their difference when
    both are truthy (present and not zero), zero otherwise. *)
Lemma call_duration_of_cases (started_at ended_at dur : json) :
  call_duration_of started_at ended_at = Ok dur ->
  (json_truthy started_at = true -> json_truthy ended_at = true ->
   json_sub ended_at started_at = Ok dur)
  /\ (json_truthy started_at = false \/ json_truthy ended_at = false ->
      dur = JInt 0).
Proof.
  unfold call_duration_of.
  destruct (json_truthy ended_at), (json_truthy started_at); cbn [andb];
    intros H; split; intros; try discriminate; try congruence;
    try (destruct H0; discriminate); inversion H; reflexivity.
Qed.

(** A session that raises, in its block or at its commit, is rolled back. *)
Lemma with_db_rolls_back {A : Type} (commit : A -> option exn) (body : M A)
    (w w' : World) (e : exn) :
  with_db commit body w = (Raise e, w') -> db w' = db w.
Proof.
  unfold with_db.
  destruct (body w) as [[a|e0] w0]; [destruct (commit a); [|discriminate]|];
    intros H; inversion H; reflexivity.
Qed.

(** A report that does not go through leaves the store as it was: nothing
    is written before the session, and the session is rolled back. *)
Lemma end_of_call_rolls_back (message : json) (w w' : World) (e : exn) :
  _handle_end_of_call_body message w = (Raise e, w') -> db w' = db w.
Proof.
  unfold _handle_end_of_call_body, bind, lift, ret.
  destruct (json_get message k_call (JDict [])) as [call_data|?];
    cbv beta iota; [|intros H; inversion H; reflexivity].
  destruct (json_get call_data k_id JNull) as [call_id|?];
    cbv beta iota; [|intros H; inversion H; reflexivity].
  destruct (negb (json_truthy call_id)); [discriminate|].
  destruct (json_get message k_transcript (JStr [])) as [transcript|?];
    cbv beta iota; [|intros H; inversion H; reflexivity].
  destruct (json_get message k_summary (JStr [])) as [summary|?];
    cbv beta iota; [|intros H; inversion H; reflexivity].
  destruct (json_get call_data k_recordingUrl JNull) as [recording_url|?];
    cbv beta iota; [|intros H; inversion H; reflexivity].
  destruct (json_get call_data k_startedAt (JInt 0)) as [started_at|?];
    cbv beta iota; [|intros H; inversion H; reflexivity].
  destruct (json_get call_data k_endedAt (JInt 0)) as [ended_at|?];
    cbv beta iota; [|intros H; inversion H; reflexivity].
  destruct (call_duration_of started_at ended_at) as [duration|?];
    cbv beta iota; [|intros H; inversion H; reflexivity].
  destruct (json_get call_data k_cost (JInt 0)) as [cost|?];
    cbv beta iota; [|intros H; inversion H; reflexivity].
  match goal with
  | |- context [Classifier.parse_call_outcome ?t ?s w] =>
      destruct (parse_call_outcome_world t s w) as [r ->]
  end.
  destruct (Classifier.generate_summary r) as [response_summary|?];
    cbv beta iota; [|intros H; inversion H; reflexivity].
  match goal with
  | |- context [with_db ?c ?b ?w0] =>
      destruct (with_db c b w0) as [[?|e0] w1] eqn:E
  end; [discriminate|].
  intros H. inversion H; subst.
  exact (with_db_rolls_back _ _ _ _ _ E).
Qed.
(** C7 (amended). When an end-of-call-report for a stored CallLog goes
    through (nothing is raised inside the session, the spreadsheet update
    included, and the commit takes the row), the duration stored on the
    CallLog is the end time stamp minus the start time stamp if both are
    present and not zero, and it is zero whenever either time stamp is
    missing from the event (or is zero). *)
Theorem stored_call_duration (m c : list (pystr * json)) (cid : json)
    (l : CallLog.t) (w w' : World) :
  dict_get k_call (JDict []) m = JDict c ->
  dict_get k_id JNull c = cid ->
  json_truthy cid = true ->
  call_log_by_vapi_call_id (db w) cid = Some l ->
  _handle_end_of_call_body (JDict m) w = (Ok tt, w') ->
  exists l' dur,
    call_log_by_vapi_call_id (db w') cid = Some l'
    /\ CallLog.call_duration l' = J dur
    /\ CallLog.call_status l' = COMPLETED
    /\ (json_truthy (started_at_of c) = true ->
        json_truthy (ended_at_of c) = true ->
        json_sub (ended_at_of c) (started_at_of c) = Ok dur)
    /\ (dict_lookup k_startedAt c = None \/ dict_lookup k_endedAt c = None ->
        dur = JInt 0)
    /\ (json_truthy (started_at_of c) = false
        \/ json_truthy (ended_at_of c) = false ->
        dur = JInt 0).
Proof.
  intros Hc Hid Htruthy Hl Hrun.
  destruct (end_of_call_completed _ _ _ _ _ _ Hc Hid Htruthy Hl Hrun)
    as (dur & r & w1 & rs & inv & Hdur & _ & _ & Hinv & Hdb & _).
  set (l' := completed_call_log l dur (transcript_of m) rs
               (dict_get k_recordingUrl JNull c)
               (dict_get k_cost (JInt 0) c) r) in *.
  assert (Hl' : call_log_by_vapi_call_id (update_call_log (db w) l') cid
                = Some l')
    by (apply call_log_lookup_update with (l := l); auto).
  destruct (call_duration_of_cases _ _ _ Hdur) as [Hboth Hzero].
  exists l', dur. split.
  - rewrite Hdb. destruct (classified_paid r); [|exact Hl'].
    destruct (invoice_lookup_mark_paid _ l' inv (clock w) Hinv)
      as (_ & _ & _ & _ & _ & Hlogs & _).
    unfold call_log_by_vapi_call_id in *. rewrite Hlogs. exact Hl'.
  - split; [reflexivity|]. split; [reflexivity|].
    split; [exact Hboth|]. split; [|exact Hzero].
    intros [H|H]; apply Hzero; [left|right];
      unfold started_at_of, ended_at_of, dict_get; rewrite H; reflexivity.
Qed.

(** When a report for a stored CallLog goes through, the parent invoice is
    paid afterwards if the classifier said "paid", and the invoice table is
    untouched if it said anything else. *)
Lemma invoice_after_end_of_call (m c : list (pystr * json)) (cid : json)
    (l : CallLog.t) (w w' : World) :
  dict_get k_call (JDict []) m = JDict c ->
  dict_get k_id JNull c = cid ->
  json_truthy cid = true ->
  call_log_by_vapi_call_id (db w) cid = Some l ->
  _handle_end_of_call_body (JDict m) w = (Ok tt, w') ->
  exists r w1,
    Classifier.parse_call_outcome (transcript_of m)
      (dict_get k_summary (JStr []) m) w = (Ok r, w1)
    /\ (classified_paid r = true ->
        exists inv', invoice_of (db w') l = Some inv'
                     /\ Invoice.payment_status inv' = PAID)
    /\ (classified_paid r = false -> invoices (db w') = invoices (db w)).
Proof.
  intros Hc Hid Htruthy Hl Hrun.
  destruct (end_of_call_completed _ _ _ _ _ _ Hc Hid Htruthy Hl Hrun)
    as (dur & r & w1 & rs & inv & _ & Hparse & _ & Hinv & Hdb & _).
  exists r, w1. split; [exact Hparse|]. rewrite Hdb. split; intros Hp;
    rewrite Hp.
  - destruct (invoice_lookup_mark_paid _ _ inv (clock w) Hinv)
      as (inv' & Hf & Hpaid & _).
    exists inv'. split; [exact Hf|exact Hpaid].
  - reflexivity.
Qed.

End EndOfCallFacts.

Section EndOfCallExamples.
Import Py Db Effects Orchestrator.

(** The call of the scenario ran from 100 to 160: the stored duration is
    60. *)
Lemma stored_call_duration_witness :
  exists w' l',
    _handle_end_of_call_body (U:=ascii_only) (Sv:=Scenario.quiet)
      (JDict (Scenario.end_of_call_message "call-INV-1" 100 160))
      Scenario.world1 = (Ok tt, w')
    /\ call_log_by_vapi_call_id (db w') (JStr (u "call-INV-1")) = Some l'
    /\ CallLog.call_duration l' = J (JInt 60).
Proof.
  eexists.
  assert (Hrun : _handle_end_of_call_body (U:=ascii_only) (Sv:=Scenario.quiet)
                   (JDict (Scenario.end_of_call_message "call-INV-1" 100 160))
                   Scenario.world1
                 = (Ok tt, _)) by (vm_compute; reflexivity).
  destruct (stored_call_duration (U:=ascii_only) (Sv:=Scenario.quiet)
              (Scenario.end_of_call_message "call-INV-1" 100 160)
              [ (u "id", JStr (u "call-INV-1"));
                (u "startedAt", JInt 100); (u "endedAt", JInt 160) ]
              (JStr (u "call-INV-1")) Scenario.call_log1 Scenario.world1 _
              eq_refl eq_refl eq_refl eq_refl Hrun)
    as (l' & dur & Hl' & Hdur & _ & Hboth & _).
  exists l'. split; [exact Hrun|]. split; [exact Hl'|].
  rewrite Hdur. specialize (Hboth eq_refl eq_refl).
  vm_compute in Hboth. inversion Hboth. reflexivity.
Defined.

(** C7, as stated, fails: the report below carries both time stamps, the
    start being 0; the handler stores 0, not 160 - 0. *)
Lemma stored_call_duration_zero_start :
  exists w' l',
    process_call_webhook (U:=ascii_only) (Sv:=Scenario.quiet)
      (Scenario.end_of_call_report "call-INV-1" 0 160) Scenario.world1
    = (Ok tt, w')
    /\ call_log_by_vapi_call_id (db w') (JStr (u "call-INV-1")) = Some l'
    /\ CallLog.call_status l' = COMPLETED
    /\ CallLog.call_duration l' = J (JInt 0)
    /\ json_sub (JInt 160) (JInt 0) = Ok (JInt 160).
Proof.
  eexists. eexists.
  split; [vm_compute; reflexivity|].
  split; [vm_compute; reflexivity|].
  repeat split.
Qed.

(** The store compares the number bound for a call id with the text of the
    column: a report whose id is the number 123 finds, and completes, the
    call log stored under "123". *)
Lemma numeric_call_id_finds_text_row :
  exists w',
    process_call_webhook (U:=ascii_only) (Sv:=Scenario.quiet)
      Samples.end_of_call_report_123 Samples.world_123 = (Ok tt, w')
    /\ call_log_by_vapi_call_id (db Samples.world_123) (JInt 123)
       = Some Samples.call_log_123
    /\ option_map CallLog.call_status
         (call_log_by_vapi_call_id (db w') (JStr (u "123")))
       = Some COMPLETED.
Proof.
  eexists. split; [vm_compute; reflexivity|]. split; reflexivity.
Qed.

(** The report of a paid invoice goes through when the model names the
    language: the invoice of the scenario becomes paid. *)
Lemma paid_report_marks_invoice_paid :
  exists w',
    process_call_webhook (U:=ascii_only) (Sv:=Scenario.quiet)
      (Scenario.end_of_call_report "call-INV-1" 100 160) Scenario.world1
    = (Ok tt, w')
    /\ option_map Invoice.payment_status
         (invoice_by_invoice_id (db w') (u "INV-1")) = Some PAID
    /\ option_map CallLog.call_status
         (call_log_by_vapi_call_id (db w') (JStr (u "call-INV-1")))
       = Some COMPLETED.
Proof.
  eexists. split; [vm_compute; reflexivity|]. split; reflexivity.
Qed.

(** C2 at its failing input.  The model answers "paid" and leaves the
    language null, as its prompt allows.  [generate_summary] then calls
    [title] on None, the handler catches the AttributeError before the
    store is opened, and nothing is written: the classifier's payment_status
    is "paid", yet the invoice stays pending and the call log stays in
    progress. *)
Theorem paid_report_with_null_language_is_dropped :
  let Sv := Scenario.classifier_answering Scenario.outcome_paid_language_null in
  let m := Scenario.end_of_call_message "call-INV-1" 100 160 in
  exists r w1 e,
    Classifier.parse_call_outcome (Sv:=Sv) (transcript_of m)
      (dict_get k_summary (JStr []) m) Scenario.world1 = (Ok r, w1)
    /\ classified_paid r = true
    /\ Classifier.generate_summary (U:=ascii_only) (Sv:=Sv) r = Raise e
    /\ exn_kind_of e = AttributeError
    /\ exists w',
         process_call_webhook (U:=ascii_only) (Sv:=Sv)
           (Scenario.end_of_call_report "call-INV-1" 100 160)
           Scenario.world1 = (Ok tt, w')
         /\ db w' = db Scenario.world1
         /\ option_map Invoice.payment_status
              (invoice_by_invoice_id (db w') (u "INV-1")) = Some PENDING
         /\ option_map CallLog.call_status
              (call_log_by_vapi_call_id (db w') (JStr (u "call-INV-1")))
            = Some IN_PROGRESS.
Proof.
  intros Sv m.
  eexists. eexists. eexists.
  split; [vm_compute; reflexivity|].
  split; [reflexivity|].
  split; [vm_compute; reflexivity|].
  split; [reflexivity|].
  eexists. split; [vm_compute; reflexivity|].
  repeat split.
Qed.

End EndOfCallExamples.

(* ================================================================== *)
(** * The outbound batch: synchronisation and rate-limited dispatch *)
(* ================================================================== *)

Section ListFacts.

Lemma find_app_some {A : Type} (p : A -> bool) (l l' : list A) (x : A) :
  find p l = Some x -> find p (l ++ l') = Some x.
Proof.
  induction l as [|y l IH]; simpl; [discriminate|].
  destruct (p y); auto.
Qed.

Lemma find_app_none {A : Type} (p : A -> bool) (l l' : list A) :
  find p l = None -> find p (l ++ l') = find p l'.
Proof.
  induction l as [|y l IH]; simpl; [reflexivity|].
  destruct (p y); [discriminate|auto].
Qed.

Lemma find_none_existsb {A : Type} (p : A -> bool) (l : list A) :
  find p l = None -> existsb p l = false.
Proof.
  induction l as [|y l IH]; simpl; [reflexivity|].
  destruct (p y); [discriminate|auto].
Qed.

Lemma NoDup_map_inj {A B : Type} (f : A -> B) (l : list A) (x y : A) :
  NoDup (List.map f l) -> In x l -> In y l -> f x = f y -> x = y.
Proof.
  induction l as [|z l IH]; simpl; [contradiction|].
  intros Hnd Hx Hy Hf. inversion Hnd as [|? ? Hnotin Hnd']; subst.
  destruct Hx as [->|Hx], Hy as [->|Hy]; auto.
  - exfalso; apply Hnotin. rewrite Hf. now apply in_map.
  - exfalso; apply Hnotin. rewrite <- Hf. now apply in_map.
Qed.

(** Rewriting the rows of one key leaves a search alone when neither the
    rows rewritten nor the new row satisfy it. *)
Lemma find_map_update_other {A : Type} (p : A -> bool) (key : A -> Z)
    (l : list A) (x' : A) :
  (forall y, In y l -> key y = key x' -> p y = false) ->
  p x' = false ->
  find p (List.map (fun y => if Z.eqb (key y) (key x') then x' else y) l)
  = find p l.
Proof.
  intros Hrows Hx'. induction l as [|y l IH]; simpl; [reflexivity|].
  destruct (Z.eqb (key y) (key x')) eqn:E.
  - apply Z.eqb_eq in E. rewrite Hx', (Hrows y (or_introl eq_refl) E).
    apply IH. intros z Hz; apply Hrows; now right.
  - destruct (p y); [reflexivity|].
    apply IH. intros z Hz; apply Hrows; now right.
Qed.

Lemma map_key_update {A : Type} (key : A -> Z) (l : list A) (x' : A) :
  List.map key
    (List.map (fun y => if Z.eqb (key y) (key x') then x' else y) l)
  = List.map key l.
Proof.
  induction l as [|y l IH]; simpl; [reflexivity|].
  rewrite IH. destruct (Z.eqb (key y) (key x')) eqn:E; [|reflexivity].
  apply Z.eqb_eq in E. now rewrite E.
Qed.

Lemma fold_max_ge (ids : list Z) (i : Z) :
  In i ids -> (i <= fold_right Z.max 0 ids)%Z.
Proof.
  induction ids as [|j ids IH]; simpl; [contradiction|].
  intros [->|H]; [lia|]. specialize (IH H). lia.
Qed.

Lemma next_id_fresh (ids : list Z) : ~ In (Db.next_id ids) ids.
Proof.
  unfold Db.next_id. intros H. apply fold_max_ge in H. lia.
Qed.

Lemma NoDup_snoc {A : Type} (l : list A) (x : A) :
  NoDup l -> ~ In x l -> NoDup (l ++ [x]).
Proof.
  intros Hl Hx. apply NoDup_app; [exact Hl|repeat constructor; intros []|].
  intros y Hy [<-|[]]. exact (Hx Hy).
Qed.

End ListFacts.

Section SyncFacts.
Import Py Db Effects Orchestrator.
Context {St : Settings}.

Lemma sheet_differs_after_set (sheet_id : option pystr) (c : Client.t)
    (now : datetime) :
  sheet_differs sheet_id c = true ->
  sheet_differs sheet_id (Client.set_google_sheet_id c sheet_id now) = false.
Proof.
  unfold sheet_differs. destruct sheet_id as [[|x s]|]; try discriminate.
  intros _. cbn [Client.google_sheet_id Client.set_google_sheet_id].
  now rewrite str_eqb_refl.
Qed.

(** The first half of a turn of the loop: the client. *)
Lemma sync_client_step (sheet_id : option pystr) (now : datetime) (d d1 : DB)
    (p : Payment.t) (c : Client.t) :
  NoDup (List.map Client.id (clients d)) ->
  match client_by_contact_number d (Payment.contact_number p) with
  | None =>
      add_client d (Payment.client_name p) (Payment.company_name p)
        (Payment.contact_number p) (sheet_or_default sheet_id) now
  | Some client =>
      if sheet_differs sheet_id client then
        let client' := Client.set_google_sheet_id client sheet_id now in
        Ok (update_client d client', client')
      else Ok (d, client)
  end = Ok (d1, c) ->
  NoDup (List.map Client.id (clients d1))
  /\ invoices d1 = invoices d
  /\ call_logs d1 = call_logs d
  /\ client_by_contact_number d1 (Payment.contact_number p) = Some c
  /\ sheet_differs sheet_id c = false
  /\ (forall n cq,
        client_by_contact_number d n = Some cq ->
        sheet_differs sheet_id cq = false ->
        client_by_contact_number d1 n = Some cq).
Proof.
  intros Hnd. unfold client_by_contact_number.
  destruct (find _ (clients d)) as [client|] eqn:Ef.
  - destruct (sheet_differs sheet_id client) eqn:Ed.
    + cbv zeta. intros H; inversion H; subst d1 c; clear H.
      unfold update_client; cbn [clients invoices call_logs].
      split; [now rewrite map_key_update|].
      split; [reflexivity|]. split; [reflexivity|].
      pose proof (find_some _ _ Ef) as [Hin Hmatch].
      split.
      { apply (find_map_update _ Client.id _ client _ Ef); [reflexivity|].
        exact Hmatch. }
      split; [apply sheet_differs_after_set, Ed|].
      intros n cq Hq Hdq.
      rewrite find_map_update_other; [exact Hq| |].
      * intros y Hy Hid.
        assert (y = client)
          by (apply (NoDup_map_inj Client.id (clients d)); auto).
        subst y.
        destruct (str_eqb (Client.contact_number client) n) eqn:En;
          [|reflexivity].
        exfalso. apply str_eqb_eq in Hmatch, En.
        rewrite <- En, Hmatch in Hq.
        rewrite Ef in Hq. inversion Hq; subst cq. congruence.
      * cbn [Client.contact_number Client.set_google_sheet_id].
        destruct (str_eqb (Client.contact_number client) n) eqn:En;
          [|reflexivity].
        exfalso. apply str_eqb_eq in Hmatch, En.
        rewrite <- En, Hmatch in Hq.
        rewrite Ef in Hq. inversion Hq; subst cq. congruence.
    + intros H; inversion H; subst d1 c; clear H.
      repeat split; auto.
  - unfold add_client.
    destruct (existsb _ (clients d)); [discriminate|].
    cbv zeta. intros H; inversion H; subst d1 c; clear H.
    cbn [clients invoices call_logs].
    split.
    { rewrite map_app. apply NoDup_snoc; [exact Hnd|apply next_id_fresh]. }
    split; [reflexivity|]. split; [reflexivity|].
    split.
    { rewrite (find_app_none _ _ _ Ef). cbn [find Client.contact_number].
      now rewrite str_eqb_refl. }
    split.
    { unfold sheet_differs, sheet_or_default.
      destruct sheet_id as [[|x s]|]; try reflexivity.
      cbn [Client.google_sheet_id]. now rewrite str_eqb_refl. }
    intros n cq Hq _. now apply find_app_some.
Qed.

(** The second half: the invoice. *)
Lemma sync_invoice_step (now : datetime) (d1 d2 : DB) (p : Payment.t)
    (cl : Z) (v : Invoice.t) :
  NoDup (List.map Invoice.id (invoices d1)) ->
  match invoice_by_invoice_id d1 (Payment.invoice_id p) with
  | None =>
      add_invoice d1 cl (Payment.invoice_id p) (Payment.amount_due p)
        (Payment.due_date p) now
  | Some invoice => Ok (d1, invoice)
  end = Ok (d2, v) ->
  NoDup (List.map Invoice.id (invoices d2))
  /\ clients d2 = clients d1
  /\ call_logs d2 = call_logs d1
  /\ invoice_by_invoice_id d2 (Payment.invoice_id p) = Some v
  /\ (forall i vq, invoice_by_invoice_id d1 i = Some vq ->
                   invoice_by_invoice_id d2 i = Some vq).
Proof.
  intros Hnd. unfold invoice_by_invoice_id.
  destruct (find _ (invoices d1)) as [invoice|] eqn:Ef.
  - intros H; inversion H; subst d2 v; clear H. repeat split; auto.
  - unfold add_invoice. destruct (Payment.due_date p); [|discriminate].
    destruct (existsb _ (invoices d1)); [discriminate|].
    cbv zeta. intros H; inversion H; subst d2 v; clear H.
    cbn [clients invoices call_logs].
    split.
    { rewrite map_app. apply NoDup_snoc; [exact Hnd|apply next_id_fresh]. }
    split; [reflexivity|]. split; [reflexivity|].
    split.
    { rewrite (find_app_none _ _ _ Ef). cbn [find Invoice.invoice_id].
      now rewrite str_eqb_refl. }
    intros i vq Hq. now apply find_app_some.
Qed.

Lemma sync_payment_step (sheet_id : option pystr) (now : datetime) (d d' : DB)
    (p p' : Payment.t) :
  wf_db d ->
  sync_payment sheet_id now d p = Ok (d', p') ->
  wf_db d'
  /\ (exists inv cl,
        p' = Payment.set_db_ids p inv cl /\ synced sheet_id d' p inv cl)
  /\ (forall q inv cl, synced sheet_id d q inv cl -> synced sheet_id d' q inv cl).
Proof.
  intros (Hc & Hi & Hl). unfold sync_payment, rbind.
  match goal with
  | |- match ?X with Ok _ => _ | Raise _ => _ end = _ -> _ =>
      destruct X as [[d1 c]|e] eqn:E1; [|discriminate]
  end.
  apply (sync_client_step _ _ _ _ _ _ Hc) in E1
    as (Hc1 & Hi1 & Hl1 & Hfc & Hdc & Hkeep1).
  rewrite <- Hi1 in Hi.
  match goal with
  | |- match ?X with Ok _ => _ | Raise _ => _ end = _ -> _ =>
      destruct X as [[d2 v]|e] eqn:E2; [|discriminate]
  end.
  apply (sync_invoice_step _ _ _ _ _ _ Hi) in E2
    as (Hi2 & Hc2 & Hl2 & Hfv & Hkeep2).
  intros H; inversion H; subst d' p'; clear H.
  split.
  { unfold wf_db. rewrite Hc2, Hl2, Hl1. auto. }
  split.
  { exists (Invoice.id v), (Client.id c). split; [reflexivity|].
    exists c, v. unfold client_by_contact_number in *. rewrite Hc2.
    repeat split; auto. }
  intros q inv cl (cq & vq & Hq1 & Hq2 & Hq3 & Hq4 & Hq5).
  exists cq, vq.
  split.
  { unfold client_by_contact_number in *. rewrite Hc2.
    exact (Hkeep1 _ _ Hq1 Hq3). }
  split; [exact Hq2|]. split; [exact Hq3|]. split; [|exact Hq5].
  apply Hkeep2. unfold invoice_by_invoice_id in *. rewrite Hi1. exact Hq4.
Qed.

Lemma sync_loop_result (sheet_id : option pystr) (now : datetime)
    (payments : list Payment.t) :
  forall d d' payments',
    wf_db d ->
    sync_loop sheet_id now d payments = Ok (d', payments') ->
    wf_db d'
    /\ Forall2 (fun p p' =>
                  exists inv cl,
                    p' = Payment.set_db_ids p inv cl
                    /\ synced sheet_id d' p inv cl)
               payments payments'
    /\ (forall q inv cl,
          synced sheet_id d q inv cl -> synced sheet_id d' q inv cl).
Proof.
  induction payments as [|p rest IH]; intros d d' payments' Hwf; simpl.
  - intros H; inversion H; subst.
    split; [exact Hwf|]. split; [constructor|auto].
  - unfold rbind at 1.
    destruct (sync_payment sheet_id now d p) as [[d1 p1]|e] eqn:E1;
      [|discriminate].
    unfold rbind at 1.
    destruct (sync_loop sheet_id now d1 rest) as [[d2 rest']|e] eqn:E2;
      [|discriminate].
    intros H; inversion H; subst d' payments'; clear H.
    apply (sync_payment_step _ _ _ _ _ _ Hwf) in E1
      as (Hwf1 & (inv & cl & Hp1 & Hs1) & Hkeep1).
    apply (IH _ _ _ Hwf1) in E2 as (Hwf2 & Hall & Hkeep2).
    split; [exact Hwf2|]. split.
    + constructor; [|exact Hall]. exists inv, cl. auto.
    + auto.
Qed.

Lemma sync_payment_synced (sheet_id : option pystr) (now : datetime) (d : DB)
    (p : Payment.t) (inv cl : Z) :
  synced sheet_id d p inv cl ->
  sync_payment sheet_id now d p = Ok (d, Payment.set_db_ids p inv cl).
Proof.
  intros (c & v & Hc & <- & Hd & Hv & <-).
  unfold sync_payment. rewrite Hc, Hd. cbn [rbind]. rewrite Hv. reflexivity.
Qed.

(** On a store that already holds every payment, the loop changes nothing,
    whatever the time. *)
Lemma sync_loop_synced (sheet_id : option pystr) (now : datetime) (d : DB)
    (payments payments' : list Payment.t) :
  Forall2 (fun p p' =>
             exists inv cl,
               p' = Payment.set_db_ids p inv cl /\ synced sheet_id d p inv cl)
          payments payments' ->
  sync_loop sheet_id now d payments = Ok (d, payments')
  /\ sync_loop sheet_id now d payments' = Ok (d, payments').
Proof.
  induction 1 as [|p p' rest rest' (inv & cl & -> & Hs) _ [IH1 IH2]]; simpl;
    [split; reflexivity|].
  rewrite (sync_payment_synced _ now _ _ _ _ Hs). cbn [rbind].
  rewrite IH1. cbn [rbind]. split; [reflexivity|].
  assert (Hs' : synced sheet_id d (Payment.set_db_ids p inv cl) inv cl)
    by exact Hs.
  rewrite (sync_payment_synced _ now _ _ _ _ Hs'). cbn [rbind].
  rewrite IH2. reflexivity.
Qed.

Lemma sync_invoice_total (now : datetime) (d1 : DB) (p : Payment.t)
    (c : Client.t) :
  valid_payment p ->
  exists r,
    rbind
      (match invoice_by_invoice_id d1 (Payment.invoice_id p) with
       | None =>
           add_invoice d1 (Client.id c) (Payment.invoice_id p)
             (Payment.amount_due p) (Payment.due_date p) now
       | Some invoice => Ok (d1, invoice)
       end)
      (fun '(d2, invoice) =>
         Ok (d2, Payment.set_db_ids p (Invoice.id invoice) (Client.id c)))
    = Ok r.
Proof.
  intros Hv. unfold invoice_by_invoice_id.
  destruct (find _ (invoices d1)) as [invoice|] eqn:Ef;
    [cbn [rbind]; eauto|].
  unfold add_invoice, valid_payment in *.
  destruct (Payment.due_date p); [|contradiction].
  rewrite (find_none_existsb _ _ Ef). cbv zeta. cbn [rbind]. eauto.
Qed.

Lemma sync_payment_total (sheet_id : option pystr) (now : datetime) (d : DB)
    (p : Payment.t) :
  valid_payment p -> exists r, sync_payment sheet_id now d p = Ok r.
Proof.
  intros Hv. unfold sync_payment, client_by_contact_number.
  destruct (find _ (clients d)) as [client|] eqn:Ef.
  - destruct (sheet_differs sheet_id client); cbv zeta; cbn [rbind];
      apply sync_invoice_total, Hv.
  - unfold add_client. rewrite (find_none_existsb _ _ Ef).
    cbv zeta. cbn [rbind]. apply sync_invoice_total, Hv.
Qed.

Lemma sync_loop_total (sheet_id : option pystr) (now : datetime)
    (payments : list Payment.t) :
  (forall p, In p payments -> valid_payment p) ->
  forall d, exists r, sync_loop sheet_id now d payments = Ok r.
Proof.
  induction payments as [|p rest IH]; intros Hv d; simpl; [eauto|].
  destruct (sync_payment_total sheet_id now d p (Hv p (or_introl eq_refl)))
    as [[d1 p1] ->].
  cbn [rbind].
  destruct (IH (fun q Hq => Hv q (or_intror Hq)) d1) as [[d2 rest'] ->].
  cbn [rbind]. eauto.
Qed.

(** C4. [sync_to_database] is idempotent on valid payment rows: it goes
    through, and applying it again to the same rows (as given, or as the
    first application left them, with their two [db_] keys) returns the
    same rows and leaves the store exactly as it is: no Client or Invoice is
    created, and no field of a row changes, [updated_at] included, whatever
    the time of the second application. *)
Theorem sync_to_database_idempotent (payments : list Payment.t)
    (sheet_id : option pystr) (w : World) :
  wf_db (db w) ->
  (forall p, In p payments -> valid_payment p) ->
  exists synced_payments w',
    sync_to_database payments sheet_id w = (Ok synced_payments, w')
    /\ wf_db (db w')
    /\ forall w2,
         db w2 = db w' ->
         sync_to_database payments sheet_id w2 = (Ok synced_payments, w2)
         /\ sync_to_database synced_payments sheet_id w2
            = (Ok synced_payments, w2).
Proof.
  intros Hwf Hvalid.
  destruct (sync_loop_total sheet_id (clock w) payments Hvalid (db w))
    as [[d' ps'] Hrun].
  destruct (sync_loop_result _ _ _ _ _ _ Hwf Hrun) as (Hwf' & Hall & _).
  exists ps', (set_db w d').
  unfold sync_to_database, with_db, bind, get_world, lift, modify, ret.
  rewrite Hrun. cbn [fst snd]. split; [reflexivity|].
  split; [exact Hwf'|].
  intros w2 Hw2. cbn [db set_db] in Hw2.
  destruct (sync_loop_synced sheet_id (clock w2) d' _ _ Hall) as [H1 H2].
  rewrite Hw2, H1, H2. cbn [fst snd].
  assert (Hset : set_db w2 d' = w2)
    by (destruct w2; cbn in *; subst; reflexivity).
  rewrite Hset. split; reflexivity.
Qed.

End SyncFacts.

(** The two payments of the scenario on an empty store: one client and two
    invoices are created, and a second pass a minute later changes
    nothing. *)
Lemma sync_to_database_idempotent_witness :
  exists synced_payments w',
    Orchestrator.sync_to_database (St:=Scenario.settings) Scenario.payments
      None Scenario.world0 = (Py.Ok synced_payments, w')
    /\ List.length (Db.clients (Effects.db w')) = 1
    /\ List.length (Db.invoices (Effects.db w')) = 2
    /\ Orchestrator.sync_to_database (St:=Scenario.settings) synced_payments
         None (Effects.advance w' 60)
       = (Py.Ok synced_payments, Effects.advance w' 60).
Proof.
  assert (Hwf : wf_db (Effects.db Scenario.world0))
    by (repeat split; constructor).
  assert (Hvalid : forall p, In p Scenario.payments -> valid_payment p).
  { intros p [<-|[<-|[]]]; discriminate. }
  destruct (sync_to_database_idempotent (St:=Scenario.settings)
              Scenario.payments None Scenario.world0 Hwf Hvalid)
    as (ps & w' & Hrun & _ & Hagain).
  exists ps, w'. split; [exact Hrun|].
  split; [vm_compute in Hrun; inversion Hrun; reflexivity|].
  split; [vm_compute in Hrun; inversion Hrun; reflexivity|].
  exact (proj2 (Hagain (Effects.advance w' 60) eq_refl)).
Defined.

Section DispatchFacts.
Import Py Db Effects Orchestrator.
Context {U : Unicode} {Sv : Services} {St : Settings} {Sq : Sqlite}.

(** What one call does to the world: it is requested, time passes, and the
    only table touched is the call log. *)
Lemma make_single_call_world (p : Payment.t) (w : World) :
  exists w',
    make_single_call p w = (Ok tt, w')
    /\ events w' = events w ++ [CallRequested p]
    /\ clock w' = (clock w + snd (make_outbound_call (events w) p))%Q
    /\ clients (db w') = clients (db w)
    /\ invoices (db w') = invoices (db w).
Proof.
  unfold make_single_call, try_except, bind, get_world, modify, ret.
  destruct (make_outbound_call (events w) p) as [[[|c s]|] dt];
    cbn [fst snd]; try (eexists; split; [reflexivity|]; repeat split).
  unfold with_db, bind, get_world, raise, lift, modify, ret.
  destruct (Payment.db_invoice_id p) as [inv|];
    [|eexists; split; [reflexivity|]; repeat split].
  unfold add_call_log. cbn [db advance emit clock events].
  destruct (existsb _ (call_logs (db w)));
    eexists; (split; [reflexivity|]); repeat split.
Qed.

Lemma asyncio_sleep_world (delay : float) (w : World) :
  exists w',
    asyncio_sleep delay w = (Ok tt, w')
    /\ events w' = events w ++ [Slept delay]
    /\ (clock w + Q_of_float delay <= clock w')%Q
    /\ db w' = db w.
Proof.
  unfold asyncio_sleep. eexists. split; [reflexivity|].
  cbn [events clock db advance emit]. split; [reflexivity|].
  split; [|reflexivity].
  destruct (Qle_bool (Q_of_float delay) 0) eqn:E.
  - apply Qle_bool_iff in E. apply Qplus_le_r. exact E.
  - apply Qle_refl.
Qed.

Lemma calls_loop_world (delay : float) (payments : list Payment.t) :
  calls_take_time ->
  forall w, exists w',
    calls_loop delay payments w = (Ok tt, w')
    /\ events w' = events w ++ schedule delay payments
    /\ (clock w + delays payments * Q_of_float delay <= clock w')%Q.
Proof.
  intros Htime.
  induction payments as [|p rest IH]; intros w.
  - exists w. split; [reflexivity|]. split; [now rewrite app_nil_r|].
    unfold delays; cbn. rewrite Qmult_0_l, Qplus_0_r. apply Qle_refl.
  - cbn [calls_loop schedule]. unfold bind.
    destruct (make_single_call_world p w) as (w1 & -> & He1 & Hc1 & _).
    assert (Hle1 : (clock w <= clock w1)%Q).
    { rewrite Hc1. rewrite <- (Qplus_0_r (clock w)) at 1.
      apply Qplus_le_r, Htime. }
    destruct rest as [|q rest].
    + cbn [calls_loop]. unfold ret. exists w1.
      split; [reflexivity|]. split; [exact He1|].
      unfold delays; cbn. rewrite Qmult_0_l, Qplus_0_r. exact Hle1.
    + destruct (asyncio_sleep_world delay w1) as (w2 & -> & He2 & Hc2 & _).
      destruct (IH w2) as (w' & -> & He' & Hc').
      exists w'. split; [reflexivity|]. split.
      * rewrite He', He2, He1. now rewrite <- !app_assoc.
      * unfold delays in *. cbn [List.length Nat.pred] in *.
        rewrite Nat2Z.inj_succ, <- Z.add_1_r, inject_Z_plus.
        eapply Qle_trans; [|exact Hc'].
        eapply Qle_trans;
          [|apply Qplus_le_l; eapply Qle_trans;
            [apply Qplus_le_l, Hle1|exact Hc2]].
        rewrite Qmult_plus_distr_l, Qmult_1_l.
        rewrite (Qplus_comm (inject_Z _ * _)), Qplus_assoc.
        apply Qle_refl.
Qed.

(** C6. For a non-empty list of N payments and a configured limit of R
    calls per minute, [make_calls_with_rate_limit] requests the calls one
    after the other, in the order of the list, and sleeps 60/R seconds (as
    Python computes the quotient) after every call but the last; so the
    batch ends at least (N-1) x (60/R) seconds after it starts. *)
Theorem rate_limited_batch (payments : list Payment.t) (w : World) :
  payments <> [] ->
  (0 < call_rate_limit_per_minute)%Z ->
  calls_take_time ->
  exists w',
    let delay := float_of_ratio 60 call_rate_limit_per_minute in
    make_calls_with_rate_limit payments w = (Ok tt, w')
    /\ events w' = events w ++ schedule delay payments
    /\ (clock w
        + inject_Z (Z.of_nat (List.length payments) - 1) * Q_of_float delay
        <= clock w')%Q.
Proof.
  intros Hne Hrate Htime.
  unfold make_calls_with_rate_limit, bind, lift, delay_between_calls.
  destruct call_rate_limit_per_minute as [|r|r] eqn:Er; try lia.
  destruct (calls_loop_world (float_of_ratio 60 (Z.pos r)) payments Htime w)
    as (w' & Hrun & Hev & Hclock).
  exists w'. cbv zeta. split; [exact Hrun|]. split; [exact Hev|].
  unfold delays in Hclock.
  destruct payments as [|p rest]; [contradiction|].
  cbn [List.length Nat.pred] in *.
  replace (Z.of_nat (S (List.length rest)) - 1)%Z
    with (Z.of_nat (List.length rest)) by lia.
  exact Hclock.
Qed.

End DispatchFacts.

(** The batch of the scenario: two calls at ten calls a minute, so one delay
    of six seconds between them. *)
Lemma rate_limited_batch_witness :
  exists w',
    Orchestrator.make_calls_with_rate_limit (Sv:=Scenario.quiet)
      (St:=Scenario.settings) Scenario.payments Scenario.world0
    = (Py.Ok tt, w')
    /\ Effects.events w'
       = [ Effects.CallRequested (Scenario.payment "INV-1" 1000);
           Effects.Slept (Py.float_of_Z 6);
           Effects.CallRequested (Scenario.payment "INV-4" 250) ]
    /\ (6 <= Effects.clock w')%Q.
Proof.
  assert (Htime : calls_take_time (Sv:=Scenario.quiet))
    by (intros h p; cbn; discriminate).
  destruct (rate_limited_batch (Sv:=Scenario.quiet) (St:=Scenario.settings)
              Scenario.payments Scenario.world0
              ltac:(discriminate) eq_refl Htime)
    as (w' & Hrun & Hev & Hclock).
  exists w'. split; [exact Hrun|]. split.
  - rewrite Hev. vm_compute. reflexivity.
  - eapply Qle_trans; [|exact Hclock]. vm_compute. discriminate.
Defined.

Section FrameFacts.
Import Py Db Effects Orchestrator.
Context {U : Unicode} {Sv : Services} {St : Settings} {Sq : Sqlite}.

(** Synchronisation adds pending invoices and rewrites none. *)
Lemma sync_loop_invoices (sheet_id : option pystr) (now : datetime)
    (payments : list Payment.t) :
  forall d d' payments',
    sync_loop sheet_id now d payments = Ok (d', payments') ->
    forall v, In v (invoices d') ->
              In v (invoices d) \/ Invoice.payment_status v = PENDING.
Proof.
  induction payments as [|p rest IH]; intros d d' payments'; simpl.
  - intros H; inversion H; subst; auto.
  - unfold rbind at 1.
    destruct (sync_payment sheet_id now d p) as [[d1 p1]|e] eqn:E1;
      [|discriminate].
    unfold rbind at 1.
    destruct (sync_loop sheet_id now d1 rest) as [[d2 rest']|e] eqn:E2;
      [|discriminate].
    intros H; inversion H; subst d' payments'; clear H.
    intros v Hv. destruct (IH _ _ _ E2 v Hv) as [Hin|Hp]; [|now right].
    clear E2 IH Hv. unfold sync_payment, rbind in E1.
    match type of E1 with
    | match ?X with Ok _ => _ | Raise _ => _ end = _ =>
        destruct X as [[d0 c]|e] eqn:E0; [|discriminate]
    end.
    assert (Hinv0 : invoices d0 = invoices d).
    { unfold add_client in E0.
      destruct (client_by_contact_number d _).
      - destruct (sheet_differs sheet_id t); inversion E0; reflexivity.
      - destruct (existsb _ _); inversion E0; reflexivity. }
    match type of E1 with
    | match ?X with Ok _ => _ | Raise _ => _ end = _ =>
        destruct X as [[d3 v3]|e] eqn:E3; [|discriminate]
    end.
    inversion E1; subst d1 p1; clear E1.
    destruct (invoice_by_invoice_id d0 _).
    + inversion E3; subst. left. now rewrite <- Hinv0.
    + unfold add_invoice in E3.
      destruct (Payment.due_date p); [|discriminate].
      destruct (existsb _ _); [discriminate|].
      inversion E3; subst d3 v3; clear E3. cbn [invoices] in Hin.
      apply in_app_or in Hin as [Hin|[<-|[]]].
      * left. now rewrite <- Hinv0.
      * right. reflexivity.
Qed.

(** A status update leaves the clients and the invoices alone. *)
Lemma status_update_keeps_invoices (message : json) (w : World) :
  exists w',
    _handle_status_update message w = (Ok tt, w')
    /\ invoices (db w') = invoices (db w)
    /\ clients (db w') = clients (db w).
Proof.
  unfold _handle_status_update, _handle_status_update_body, try_except, bind,
    lift, ret.
  destruct (json_get message k_call (JDict [])) as [call_data|e];
    [|eexists; split; [reflexivity|]; split; reflexivity].
  destruct (json_get call_data k_id JNull) as [call_id|e];
    [|eexists; split; [reflexivity|]; split; reflexivity].
  destruct (json_get message k_status JNull) as [status|e];
    [|eexists; split; [reflexivity|]; split; reflexivity].
  destruct (negb (json_truthy call_id));
    [eexists; split; [reflexivity|]; split; reflexivity|].
  unfold with_db, bind, get_world, lift, modify, ret, raise_if, typed_writes.
  destruct (bind_error call_id);
    [eexists; split; [reflexivity|]; split; reflexivity|].
  destruct (call_log_by_vapi_call_id (db w) call_id) as [l|];
    [|eexists; split; [reflexivity|]; split; reflexivity].
  destruct (mapped_status status);
    eexists; (split; [reflexivity|]); split; reflexivity.
Qed.

End FrameFacts.

(* ================================================================== *)
(** * The write path of the spreadsheet gateway *)
(* ================================================================== *)

Section CellAddressFacts.
Import Py Gateway.

Lemma column_number_snoc (l : pystr) (c : N) :
  column_number (l ++ [c]) = (26 * column_number l + (Z.of_N c - 64))%Z.
Proof.
  unfold column_number. rewrite fold_left_app. reflexivity.
Qed.

Lemma column_letters_spec (fuel : nat) :
  forall col acc,
    (Z.to_nat col <= fuel)%nat ->
    exists l,
      column_letters fuel col acc = l ++ acc
      /\ Forall capital_letter l
      /\ column_number l = Z.max 0 col
      /\ ((0 < col)%Z -> l <> []).
Proof.
  induction fuel as [|fuel IH]; intros col acc Hfuel.
  - exists []. cbn [column_letters].
    assert (col <= 0)%Z as Hc by lia.
    destruct (col >? 0)%Z eqn:E; [apply Z.gtb_lt in E; lia|].
    repeat split; [constructor | cbn; lia | lia].
  - cbn [column_letters].
    destruct (col >? 0)%Z eqn:E.
    + apply Z.gtb_lt in E.
      set (c := Z.to_N (65 + (col - 1) mod 26)).
      assert (0 <= (col - 1) mod 26 < 26)%Z as Hm
        by (apply Z.mod_pos_bound; lia).
      assert (0 <= (col - 1) / 26 < col)%Z as Hd.
      { split; [apply Z.div_pos; lia|].
        apply Z.div_lt_upper_bound; lia. }
      destruct (IH ((col - 1) / 26)%Z (c :: acc)) as (l & El & Hl & Hn & _);
        [lia|].
      exists (l ++ [c]). rewrite El, <- app_assoc. cbn [app].
      repeat split.
      * apply Forall_app. split; [exact Hl|].
        constructor; [|constructor]. unfold capital_letter, c. lia.
      * rewrite column_number_snoc, Hn. unfold c.
        rewrite Z2N.id by lia.
        pose proof (Z.div_mod (col - 1) 26). lia.
      * intros _ Hnil. destruct l; discriminate.
    + exists []. assert (col <= 0)%Z.
      { destruct (Z.gtb_spec col 0); [discriminate | lia]. }
      repeat split; [constructor | cbn; lia | lia].
Qed.

(** X1.  [_cell_address] writes a column number of 1 or more as capital
    letters that read back as that number (A is 1, Z is 26, AA is 27),
    followed by the row number in decimal. *)
Theorem cell_address_round_trip (row col : Z) :
  (1 <= col)%Z ->
  exists letters,
    _cell_address row col = letters ++ str_of_int row
    /\ letters <> []
    /\ Forall capital_letter letters
    /\ column_number letters = col.
Proof.
  intros Hcol. unfold _cell_address.
  destruct (column_letters_spec (Z.to_nat col) col []) as (l & El & Hl & Hn & Hne);
    [lia|].
  exists l. rewrite El, app_nil_r.
  repeat split; [apply Hne; lia | exact Hl | lia].
Qed.

End CellAddressFacts.

Lemma cell_address_round_trip_witness :
  exists letters,
    Gateway._cell_address 12 703 = letters ++ Gateway.str_of_int 12
    /\ letters <> []
    /\ Forall capital_letter letters
    /\ column_number letters = 703%Z.
Proof.
  apply (cell_address_round_trip 12 703). lia.
Defined.

Section GetSheetFacts.
Import Py Effects Gateway.
Context {St : Settings}.
Variable open_by_key : list pystr -> pystr -> result handle.

(** X2.  [get_sheet] caches what it opens: once a sheet has been returned, asking
    for it again gives the same handle without opening anything and
    without changing the cache; a sheet that fails to open is not cached. *)
Theorem get_sheet_cache (sheet_id : option pystr) (s s1 : SheetsState)
    (r : result handle) :
  get_sheet open_by_key sheet_id s = (r, s1) ->
  match r with
  | Ok sheet => get_sheet open_by_key sheet_id s1 = (Ok sheet, s1)
  | Raise _ => _sheet_cache s1 = _sheet_cache s
  end.
Proof.
  unfold get_sheet.
  set (sid := match sheet_id with Some (c :: r0) => c :: r0 | _ => google_sheet_id end).
  destruct (dict_lookup sid (_sheet_cache s)) as [sheet|] eqn:E.
  - intros H. inversion H; subst. rewrite E. reflexivity.
  - destruct (open_by_key (opened s) sid) as [sheet|e] eqn:Eo;
      intros H; inversion H; subst; cbn [_sheet_cache opened].
    + rewrite dict_lookup_set_same. reflexivity.
    + reflexivity.
Qed.

End GetSheetFacts.

Lemma get_sheet_cache_witness :
  let s1 := Gateway.mkSheets [(Py.u "default-sheet", Py.u "handle-1")]
              [Py.u "default-sheet"] in
  Gateway.get_sheet (St:=Scenario.settings)
    (fun _ _ => Py.Ok (Py.u "handle-1")) None s1
  = (Py.Ok (Py.u "handle-1"), s1).
Proof.
  exact (get_sheet_cache (St:=Scenario.settings)
           (fun _ _ => Py.Ok (Py.u "handle-1")) None
           (Gateway.mkSheets [] []) _ (Py.Ok (Py.u "handle-1")) eq_refl).
Defined.

Section UpdateFacts.
Import Py Db Effects Gateway.
Context {U : Unicode} {Sv : Services} {W : Worksheet}.

Lemma In_firstn {A : Type} (x : A) (n : nat) :
  forall l, In x (firstn n l) -> In x l.
Proof.
  induction n as [|n IH]; intros [|y l] H; cbn in H; try contradiction.
  destruct H as [H | H]; [left; exact H | right; apply IH; exact H].
Qed.

Lemma write_cells_prefix (cells : list cell_write) :
  forall written,
    exists n,
      snd (write_cells cells written) = written ++ firstn n cells.
Proof.
  induction cells as [|c rest IH]; intros written; cbn [write_cells].
  - exists 0%nat. cbn. now rewrite app_nil_r.
  - destruct (update_fails written c).
    + exists 0%nat. cbn. now rewrite app_nil_r.
    + destruct (IH (written ++ [c])) as (n & En).
      exists (S n). rewrite En, <- app_assoc. reflexivity.
Qed.

Lemma updates_cells (current_row : list pystr) (call_made_on : datetime)
    (response_summary : pystr) (next_follow_up_date payment_status : pyval)
    (payment_promise_date customer_sentiment recording_url : pyval)
    (kvs : list (string * pyval)) :
  updates current_row call_made_on response_summary next_follow_up_date
    payment_status payment_promise_date customer_sentiment recording_url
  = Ok kvs ->
  exists j k l m p q,
    kvs = [ ("J", j); ("K", VStr k); ("L", l); ("M", m);
            ("N", VStr (firstn 200 response_summary));
            ("O", J (JInt (existing_calls current_row + 1)));
            ("P", p); ("Q", q) ]%string
    /\ In k call_status_texts.
Proof.
  unfold updates.
  destruct (call_status_text payment_status) as [k|] eqn:Ek; [|discriminate].
  cbn [rbind].
  destruct (date_text payment_promise_date); [|discriminate]. cbn [rbind].
  destruct (date_text next_follow_up_date); [|discriminate]. cbn [rbind].
  destruct (sentiment_text customer_sentiment); [|discriminate]. cbn [rbind].
  intros H. inversion H; subst; clear H.
  do 6 eexists. split; [reflexivity|].
  unfold call_status_text in Ek.
  assert (forall s, In (dict_get s (u "Called") status_map) call_status_texts)
    as Hmap.
  { intros s. unfold dict_get, status_map. cbn [dict_lookup].
    repeat match goal with
           | |- context [if ?b then _ else _] => destruct b
           end; cbn; tauto. }
  destruct payment_status as [[| | | |s| |]|];
    inversion Ek; subst; try apply Hmap; cbn; tauto.
Qed.

Lemma update_payment_status_new_cells (row_number : Z) (call_made_on : datetime)
    (response_summary : pystr) (next_follow_up_date payment_status : pyval)
    (sheet_id : option pystr)
    (payment_promise_date customer_sentiment : pyval) (total_calls_made : Z)
    (recording_url : pyval) (written : list cell_write) :
  exists cells,
    snd (update_payment_status row_number call_made_on response_summary
           next_follow_up_date payment_status sheet_id payment_promise_date
           customer_sentiment total_calls_made recording_url written)
    = written ++ cells
    /\ (cells = []
        \/ exists current_row kvs n,
             row_values written row_number = Ok current_row
             /\ updates current_row call_made_on response_summary
                  next_follow_up_date payment_status payment_promise_date
                  customer_sentiment recording_url = Ok kvs
             /\ cells = firstn n (List.map (cell_of row_number) kvs)).
Proof.
  assert (snd (update_payment_status row_number call_made_on response_summary
                 next_follow_up_date payment_status sheet_id
                 payment_promise_date customer_sentiment total_calls_made
                 recording_url written)
          = snd (update_payment_status_body row_number call_made_on
                   response_summary next_follow_up_date payment_status
                   sheet_id payment_promise_date customer_sentiment
                   total_calls_made recording_url written)) as ->.
  { unfold update_payment_status.
    destruct (update_payment_status_body _ _ _ _ _ _ _ _ _ _ _) as [[?|?] ?];
      reflexivity. }
  unfold update_payment_status_body.
  destruct (open_worksheet sheet_id);
    [|exists []; cbn [snd]; rewrite app_nil_r; auto].
  destruct (row_values written row_number) as [current_row|] eqn:Er;
    [|exists []; cbn [snd]; rewrite app_nil_r; auto].
  destruct (updates _ _ _ _ _ _ _ _) as [kvs|] eqn:Eu;
    [|exists []; cbn [snd]; rewrite app_nil_r; auto].
  destruct (write_cells_prefix (List.map (cell_of row_number) kvs) written)
    as (n & En).
  exists (firstn n (List.map (cell_of row_number) kvs)).
  split; [exact En|]. right. exists current_row, kvs, n. auto.
Qed.

Lemma update_payment_status_raises (row_number : Z) (call_made_on : datetime)
    (response_summary : pystr) (next_follow_up_date payment_status : pyval)
    (sheet_id : option pystr)
    (payment_promise_date customer_sentiment : pyval) (total_calls_made : Z)
    (recording_url : pyval) (written : list cell_write) (e' : exn) :
  fst (update_payment_status row_number call_made_on response_summary
         next_follow_up_date payment_status sheet_id payment_promise_date
         customer_sentiment total_calls_made recording_url written)
  = Raise e' ->
  exists e,
    fst (update_payment_status_body row_number call_made_on response_summary
           next_follow_up_date payment_status sheet_id payment_promise_date
           customer_sentiment total_calls_made recording_url written)
    = Raise e
    /\ logger_error_exc_info (u "Error updating Google Sheet: " ++ exn_msg e)
       = Some e'.
Proof.
  unfold update_payment_status.
  destruct (update_payment_status_body _ _ _ _ _ _ _ _ _ _ _) as [[?|e] ?];
    cbn [fst]; [discriminate|].
  unfold log_sheet_error.
  destruct (logger_error_exc_info _) as [e''|] eqn:El; [|discriminate].
  intros H. inversion H; subst. exists e. auto.
Qed.

(** X3.  [update_payment_status] keeps what was written before and writes
    only to the columns J to Q of the row it is given, from J onwards, each
    cell at most once.  An error of its body is caught and logged; the one
    exception that can leave it is the one that log raises while it formats
    the message, and when the log raises nothing the function returns. *)
Theorem update_payment_status_tracking_columns (row_number : Z)
    (call_made_on : datetime) (response_summary : pystr)
    (next_follow_up_date payment_status : pyval) (sheet_id : option pystr)
    (payment_promise_date customer_sentiment : pyval) (total_calls_made : Z)
    (recording_url : pyval) (written : list cell_write) :
  let body :=
    update_payment_status_body row_number call_made_on response_summary
      next_follow_up_date payment_status sheet_id payment_promise_date
      customer_sentiment total_calls_made recording_url written in
  let call :=
    update_payment_status row_number call_made_on response_summary
      next_follow_up_date payment_status sheet_id payment_promise_date
      customer_sentiment total_calls_made recording_url written in
  (exists cells n,
     snd call = written ++ cells
     /\ List.map cw_range cells = firstn n (tracking_ranges row_number))
  /\ (fst body = Ok tt -> fst call = Ok tt)
  /\ (forall e,
        fst body = Raise e ->
        match logger_error_exc_info
                (u "Error updating Google Sheet: " ++ exn_msg e) with
        | Some e' => fst call = Raise e'
        | None => fst call = Ok tt
        end).
Proof.
  intros body call. split; [|split].
  - destruct (update_payment_status_new_cells row_number call_made_on
                response_summary next_follow_up_date payment_status sheet_id
                payment_promise_date customer_sentiment total_calls_made
                recording_url written)
      as (cells & E & [Hnil | (current_row & kvs & n & _ & Eu & Ec)]).
    + exists cells, 0%nat. split; [exact E|]. subst cells. reflexivity.
    + exists cells, n. split; [exact E|].
      destruct (updates_cells _ _ _ _ _ _ _ _ _ Eu)
        as (j & k & l & m & p & q & Ek & _).
      subst kvs cells. rewrite <- firstn_map. reflexivity.
  - subst call. unfold update_payment_status. fold body.
    destruct body as [[[]|e] written']; cbn [fst]; [reflexivity|discriminate].
  - intros e. subst call. unfold update_payment_status. fold body.
    destruct body as [[[]|e0] written']; cbn [fst]; [discriminate|].
    intros H. inversion H; subst e0. unfold log_sheet_error.
    destruct (logger_error_exc_info _); reflexivity.
Qed.

(** X4.  Whatever [update_payment_status] writes to column K is one of the
    six status texts, what it writes to column N is the first 200
    characters of the summary, and what it writes to column O is one more
    than the count read from the row, which is 0 when the row has fewer
    than 15 cells. *)
Theorem update_payment_status_values (row_number : Z)
    (call_made_on : datetime) (response_summary : pystr)
    (next_follow_up_date payment_status : pyval) (sheet_id : option pystr)
    (payment_promise_date customer_sentiment : pyval) (total_calls_made : Z)
    (recording_url : pyval) (written cells : list cell_write)
    (c : cell_write) :
  snd (update_payment_status row_number call_made_on response_summary
         next_follow_up_date payment_status sheet_id payment_promise_date
         customer_sentiment total_calls_made recording_url written)
  = written ++ cells ->
  In c cells ->
  (cw_range c = u "K" ++ str_of_int row_number ->
   exists k, cw_value c = VStr k /\ In k call_status_texts)
  /\ (cw_range c = u "N" ++ str_of_int row_number ->
      cw_value c = VStr (firstn 200 response_summary)
      /\ (List.length (firstn 200 response_summary) <= 200)%nat)
  /\ (cw_range c = u "O" ++ str_of_int row_number ->
      exists current_row,
        row_values written row_number = Ok current_row
        /\ cw_value c = J (JInt (existing_calls current_row + 1))
        /\ ((List.length current_row < 15)%nat ->
            cw_value c = J (JInt 1))).
Proof.
  intros E Hin.
  destruct (update_payment_status_new_cells row_number call_made_on
              response_summary next_follow_up_date payment_status sheet_id
              payment_promise_date customer_sentiment total_calls_made
              recording_url written)
    as (cells' & E' & Hc).
  rewrite E in E'. apply app_inv_head in E'. subst cells'.
  destruct Hc as [Hnil | (current_row & kvs & n & Er & Eu & Ec)];
    [subst cells; destruct Hin|].
  destruct (updates_cells _ _ _ _ _ _ _ _ _ Eu)
    as (j & k & l & m & p & q & Ek & Hk).
  subst kvs cells. apply In_firstn in Hin.
  assert (forall a b : N, forall s t : pystr,
             a <> b -> (a :: s) = (b :: t) -> False) as Hhead
    by (intros a b s t Hab Hst; inversion Hst; contradiction).
  cbn [List.map cell_of fst snd] in Hin.
  assert (existing_calls current_row + 1 = 1
          \/ (15 <= List.length current_row)%nat)%Z as Hcount.
  { unfold existing_calls.
    destruct (Nat.leb 15 (List.length current_row)) eqn:E15.
    - right. now apply Nat.leb_le.
    - left. reflexivity. }
  cbn [In] in Hin.
  decompose [or] Hin; try contradiction; subst c;
    cbn [cw_range cw_value];
    (split; [|split]); intros Hr;
    try (exfalso; cbn in Hr; eapply Hhead; [|exact Hr]; discriminate).
  - exists k. auto.
  - split; [reflexivity | apply firstn_le_length].
  - exists current_row. split; [exact Er|]. split; [reflexivity|].
    intros Hlen. destruct Hcount as [-> | ?]; [reflexivity | lia].
Qed.

End UpdateFacts.

Section FindColumnFacts.
Import Py Db Effects Gateway.
Context {U : Unicode} {Sv : Services} {W : Worksheet}.

Lemma find_header_some (column_name : pystr) (headers : list pystr) :
  forall start idx,
    find_header column_name (Sheets.enumerate start headers) = Some idx ->
    (start <= idx < start + List.length headers)%nat
    /\ (exists header,
          nth_error headers (idx - start) = Some header
          /\ contains (lower column_name) (lower header) = true)
    /\ (forall j earlier,
          (j < idx - start)%nat ->
          nth_error headers j = Some earlier ->
          contains (lower column_name) (lower earlier) = false).
Proof.
  induction headers as [|h rest IH]; intros start idx; cbn; [discriminate|].
  destruct (contains (lower column_name) (lower h)) eqn:E.
  - intros H. inversion H; subst. split; [lia|]. split.
    + exists h. rewrite Nat.sub_diag. auto.
    + intros j earlier Hj. lia.
  - intros H. destruct (IH _ _ H) as (Hb & (header & Hn & Hc) & Hfirst).
    split; [lia|]. split.
    + exists header. split; [|exact Hc].
      replace (idx - start)%nat with (S (idx - S start)) by lia. exact Hn.
    + intros [|j] earlier Hj Hnth; cbn in Hnth.
      * inversion Hnth; subst. exact E.
      * apply (Hfirst j earlier); [lia | exact Hnth].
Qed.

Lemma find_header_none (column_name : pystr) (headers : list pystr) :
  forall start,
    find_header column_name (Sheets.enumerate start headers) = None ->
    forall header, In header headers ->
                   contains (lower column_name) (lower header) = false.
Proof.
  induction headers as [|h rest IH]; intros start; cbn; [contradiction|].
  destruct (contains (lower column_name) (lower h)) eqn:E; [discriminate|].
  intros H header [<- | Hin]; [exact E | exact (IH _ H _ Hin)].
Qed.

(** X5.  When [_find_or_add_column] returns a column number, it is either
    the number (counted from 1) of the first header that contains the name
    whatever the case: that header contains the name and no header before
    it does, and then no update is made; or no header contains the name,
    the number is one past the last header, and one update has been made,
    with the address of that cell of the header row and the name. *)
Theorem find_or_add_column_result (headers : list pystr)
    (column_name : pystr) (header_row_idx : Z)
    (written written' : list cell_write) (n : Z) :
  _find_or_add_column headers column_name header_row_idx written
  = (Some n, written') ->
  (1 <= n <= Z.of_nat (List.length headers) + 1)%Z
  /\ ((written' = written
       /\ (exists header,
             nth_error headers (Z.to_nat (n - 1)) = Some header
             /\ contains (lower column_name) (lower header) = true)
       /\ (forall j earlier,
             (j < Z.to_nat (n - 1))%nat ->
             nth_error headers j = Some earlier ->
             contains (lower column_name) (lower earlier) = false))
      \/ (n = (Z.of_nat (List.length headers) + 1)%Z
          /\ (forall header, In header headers ->
                contains (lower column_name) (lower header) = false)
          /\ written'
             = written ++ [mkWrite (_cell_address (header_row_idx + 1) n)
                             (VStr column_name)])).
Proof.
  unfold _find_or_add_column.
  destruct (find_header column_name (Sheets.enumerate 0 headers))
    as [idx|] eqn:E.
  - intros H. inversion H; subst; clear H.
    destruct (find_header_some _ _ _ _ E)
      as (Hb & (header & Hn & Hc) & Hfirst).
    split; [lia|]. left. split; [reflexivity|].
    replace (Z.to_nat (Z.of_nat idx + 1 - 1)) with (idx - 0)%nat by lia.
    split; [exists header; auto | exact Hfirst].
  - destruct (update_fails written _) eqn:Ef; intros H; inversion H; subst.
    split; [lia|]. right. split; [reflexivity|]. split; [|reflexivity].
    exact (find_header_none _ _ _ E).
Qed.

End FindColumnFacts.

Section GatewayExamples.
Import Py Db Effects Gateway.

Lemma update_payment_status_tracking_columns_witness :
  let W := Samples.worksheet_unreachable in
  update_payment_status (U:=ascii_only) (Sv:=Samples.services_log_raising)
    (W:=W) 3 0%Q (u "Customer will make payment") VNone
    (VStr (u "will_pay")) None VNone VNone 1 VNone []
  = (Raise (mkExn KeyError (u "'code'")), [])
  /\ update_payment_status (U:=ascii_only) (Sv:=Scenario.quiet)
       (W:=W) 3 0%Q (u "Customer will make payment") VNone
       (VStr (u "will_pay")) None VNone VNone 1 VNone []
     = (Ok tt, []).
Proof.
  intros W. split.
  - destruct (update_payment_status_tracking_columns (U:=ascii_only)
                (Sv:=Samples.services_log_raising) (W:=W) 3 0%Q
                (u "Customer will make payment") VNone (VStr (u "will_pay"))
                None VNone VNone 1 VNone [])
      as ((cells & n & Hw & Hr) & _ & Hraise).
    specialize (Hraise _ eq_refl).
    change (logger_error_exc_info _)
      with (Some (mkExn KeyError (u "'code'"))) in Hraise.
    cbv beta iota in Hraise.
    apply injective_projections; [exact Hraise | reflexivity].
  - destruct (update_payment_status_tracking_columns (U:=ascii_only)
                (Sv:=Scenario.quiet) (W:=W) 3 0%Q
                (u "Customer will make payment") VNone (VStr (u "will_pay"))
                None VNone VNone 1 VNone [])
      as (_ & _ & Hraise).
    specialize (Hraise _ eq_refl). cbv beta iota in Hraise.
    apply injective_projections; [exact Hraise | reflexivity].
Defined.

Lemma update_payment_status_values_witness :
  let W := Samples.worksheet Samples.tracking_sheet in
  let c := mkWrite (u "O3") (J (JInt 3)) in
  (cw_range c = u "K" ++ str_of_int 3 ->
   exists k, cw_value c = VStr k /\ In k call_status_texts)
  /\ (cw_range c = u "N" ++ str_of_int 3 ->
      cw_value c = VStr (firstn 200 (u "Customer will make payment"))
      /\ (List.length (firstn 200 (u "Customer will make payment")) <= 200)%nat)
  /\ (cw_range c = u "O" ++ str_of_int 3 ->
      exists current_row,
        row_values [] 3 = Ok current_row
        /\ cw_value c = J (JInt (existing_calls current_row + 1))
        /\ ((List.length current_row < 15)%nat -> cw_value c = J (JInt 1))).
Proof.
  intros W c.
  eapply (update_payment_status_values (U:=ascii_only) (Sv:=Scenario.quiet)
            (W:=W) 3 0%Q (u "Customer will make payment") VNone
            (VStr (u "will_pay")) None VNone VNone 1 VNone []).
  - cbn [app]. reflexivity.
  - vm_compute. tauto.
Defined.

Lemma find_or_add_column_result_witness :
  let W := Samples.worksheet Samples.tracking_sheet in
  let headers := [u "Sr"; u "Invoice No."; u "Amount"] in
  _find_or_add_column (U:=ascii_only) headers (u "amount") 1 [] = (Some 3%Z, [])
  /\ _find_or_add_column (U:=ascii_only) headers (u "Call Status") 1 []
     = (Some 4%Z, [mkWrite (u "D2") (VStr (u "Call Status"))])
  /\ (1 <= 4 <= Z.of_nat (List.length headers) + 1)%Z.
Proof.
  intros W headers.
  split; [vm_compute; reflexivity|]. split; [vm_compute; reflexivity|].
  exact (proj1 (find_or_add_column_result (U:=ascii_only) (W:=W) headers (u "Call Status") 1 []
                  [mkWrite (u "D2") (VStr (u "Call Status"))] 4 eq_refl)).
Defined.

End GatewayExamples.

(* ================================================================== *)
(** * The spreadsheet update after a call *)
(* ================================================================== *)

Section SheetSyncFacts.
Import Py Db Effects Gateway SheetSync.
Context {U : Unicode} {Sv : Services} {W : Worksheet}.

Lemma search_rows_enumerate (col : nat) (invoice_id : pystr)
    (l : list (list pystr)) :
  forall k i,
    search_rows col invoice_id (Sheets.enumerate k l) = Some i ->
    (k <= i)%nat
    /\ exists row cell,
         nth_error l (i - k) = Some row
         /\ nth_error row col = Some cell
         /\ strip cell = invoice_id
         /\ (forall j r, (j <= i - k)%nat -> nth_error l j = Some r ->
                         Sheets.any_keyword stop_keywords (lower (str_of_row r)) = false)
         /\ (forall j r c, (j < i - k)%nat -> nth_error l j = Some r ->
                           nth_error r col = Some c ->
                           strip c <> invoice_id).
Proof.
  induction l as [|row rest IH]; intros k i; cbn [Sheets.enumerate search_rows];
    [discriminate|].
  destruct (Sheets.any_keyword stop_keywords (lower (str_of_row row))) eqn:Es;
    [discriminate|].
  assert (forall i,
            search_rows col invoice_id (Sheets.enumerate (S k) rest) = Some i ->
            (forall c, nth_error row col = Some c -> strip c <> invoice_id) ->
            (k <= i)%nat
            /\ exists row0 cell,
                 nth_error (row :: rest) (i - k) = Some row0
                 /\ nth_error row0 col = Some cell
                 /\ strip cell = invoice_id
                 /\ (forall j r, (j <= i - k)%nat ->
                       nth_error (row :: rest) j = Some r ->
                       Sheets.any_keyword stop_keywords (lower (str_of_row r)) = false)
                 /\ (forall j r c, (j < i - k)%nat ->
                       nth_error (row :: rest) j = Some r ->
                       nth_error r col = Some c -> strip c <> invoice_id))
    as Hrest.
  { intros i0 H Hrow.
    destruct (IH _ _ H) as (Hk & row0 & cell & Hn & Hc & Hs & Hstop & Hfirst).
    split; [lia|]. exists row0, cell.
    replace (i0 - k)%nat with (S (i0 - S k)) by lia.
    repeat split; auto.
    - intros [|j] r Hj Hr; cbn in Hr.
      + inversion Hr; subst. exact Es.
      + apply (Hstop j); [lia | exact Hr].
    - intros [|j] r c Hj Hr Hcell; cbn in Hr.
      + inversion Hr; subst. apply Hrow. exact Hcell.
      + apply (Hfirst j r c); [lia | exact Hr | exact Hcell]. }
  destruct (nth_error row col) as [cell|] eqn:Ec.
  - destruct (str_eqb (strip cell) invoice_id) eqn:Eq.
    + intros H. inversion H; subst. split; [lia|].
      exists row, cell. rewrite Nat.sub_diag.
      repeat split; auto.
      * now apply str_eqb_eq.
      * intros j r Hj Hr. assert (j = 0)%nat by lia. subst j.
        cbn in Hr. inversion Hr; subst. exact Es.
      * intros j r c Hj. lia.
    + intros H. apply (Hrest _ H). intros c Hc. inversion Hc; subst.
      intros Heq. apply str_eqb_eq in Heq. congruence.
  - intros H. apply (Hrest _ H). intros c Hc. discriminate.
Qed.

(** X6.  The row [_update_google_sheet_from_call] picks for an invoice lies
    below the header row, holds the invoice number (white space around it
    aside) in the invoice column, and is the first such row; the search
    gives up at the first summary row, so neither the row picked nor any
    row between it and the header is one. *)
Theorem locate_invoice_row_found (all_data : list (list pystr))
    (invoice_id : pystr) (row_idx : nat) :
  locate_invoice_row all_data invoice_id = Some row_idx ->
  exists header_row_idx invoice_col_idx row cell,
    find_header_row all_data = Some (header_row_idx, Some invoice_col_idx)
    /\ (header_row_idx < row_idx)%nat
    /\ nth_error all_data row_idx = Some row
    /\ nth_error row invoice_col_idx = Some cell
    /\ strip cell = invoice_id
    /\ (forall j r, (header_row_idx < j <= row_idx)%nat ->
                    nth_error all_data j = Some r ->
                    Sheets.any_keyword stop_keywords (lower (str_of_row r))
                    = false)
    /\ (forall j r c, (header_row_idx < j < row_idx)%nat ->
                      nth_error all_data j = Some r ->
                      nth_error r invoice_col_idx = Some c ->
                      strip c <> invoice_id).
Proof.
  unfold locate_invoice_row.
  destruct (find_header_row all_data) as [[h [col|]]|] eqn:Eh;
    try discriminate.
  intros H.
  destruct (search_rows_enumerate _ _ _ _ _ H)
    as (Hk & row & cell & Hn & Hc & Hs & Hstop & Hfirst).
  rewrite nth_error_skipn in Hn.
  exists h, col, row, cell.
  split; [reflexivity|]. split; [lia|].
  split; [replace row_idx with (S h + (row_idx - S h))%nat by lia; exact Hn|].
  split; [exact Hc|]. split; [exact Hs|]. split.
  - intros j r Hj Hr. apply (Hstop (j - S h)%nat r); [lia|].
    rewrite nth_error_skipn.
    replace (S h + (j - S h))%nat with j by lia. exact Hr.
  - intros j r c Hj Hr Hcell. apply (Hfirst (j - S h)%nat r c); [lia| |exact Hcell].
    rewrite nth_error_skipn.
    replace (S h + (j - S h))%nat with j by lia. exact Hr.
Qed.

(** X7.  [_update_google_sheet_from_call] keeps what was written before;
    it writes nothing unless the sheet could be read and the invoice
    located in it, and then only to the columns J to Q of the row located
    (rows are numbered from 1).  Every error inside it is caught and
    logged: an exception leaves it only when that log raises one while it
    formats the message of the error caught. *)
Theorem sheet_update_touches_one_row (x : sheet_update)
    (written : list cell_write) :
  let call := _update_google_sheet_from_call x written in
  (exists cells,
     snd call = written ++ cells
     /\ (cells = []
         \/ exists all_data row_idx n,
              all_values written = Ok all_data
              /\ locate_invoice_row all_data (su_invoice_id x) = Some row_idx
              /\ List.map cw_range cells
                 = firstn n (tracking_ranges (Z.of_nat row_idx + 1))))
  /\ (forall e',
        fst call = Raise e' ->
        exists e,
          logger_error_exc_info
            (u "Error updating Google Sheet: " ++ exn_msg e) = Some e')
  /\ ((forall msg, logger_error_exc_info msg = None) -> fst call = Ok tt).
Proof.
  assert (forall e e', log_sheet_error e = Raise e' ->
                       logger_error_exc_info
                         (u "Error updating Google Sheet: " ++ exn_msg e)
                       = Some e') as Hlog.
  { intros e e'. unfold log_sheet_error.
    destruct (logger_error_exc_info _); [|discriminate].
    intros H. inversion H. reflexivity. }
  assert ((forall msg, logger_error_exc_info msg = None) ->
          forall e, log_sheet_error e = Ok tt) as Hquiet.
  { intros Hq e. unfold log_sheet_error. now rewrite Hq. }
  intros call. subst call. unfold _update_google_sheet_from_call.
  destruct (open_worksheet (su_client_sheet_id x)) as [?|e0];
    [|cbn [fst snd]; split; [exists []; rewrite app_nil_r; auto|];
      split; [intros e' H; exists e0; auto | intros Hq; auto]].
  destruct (all_values written) as [all_data|e0] eqn:Ea;
    [|cbn [fst snd]; split; [exists []; rewrite app_nil_r; auto|];
      split; [intros e' H; exists e0; auto | intros Hq; auto]].
  destruct (locate_invoice_row all_data (su_invoice_id x)) as [row_idx|] eqn:El;
    [|cbn [fst snd]; split; [exists []; rewrite app_nil_r; auto|];
      split; [discriminate | reflexivity]].
  match goal with
  | |- context [update_payment_status ?r ?c ?s ?f ?p ?i ?d ?m ?t ?q written] =>
      destruct (update_payment_status_new_cells r c s f p i d m t q written)
        as (cells & E & Hcells);
      destruct (update_payment_status r c s f p i d m t q written)
        as [[?|e0] written'] eqn:Eupdate
  end; cbn [fst snd] in *.
  all: split;
    [ exists cells; split; [exact E|];
      destruct Hcells as [Hnil | (current_row & kvs & n & _ & Eu & Ec)];
      [ left; exact Hnil
      | right; exists all_data, row_idx, n;
        split; [reflexivity|]; split; [exact El|];
        destruct (updates_cells _ _ _ _ _ _ _ _ _ Eu)
          as (j & k & l & m & p & q & Ek & _);
        subst kvs cells; rewrite <- firstn_map; reflexivity ]
    | ].
  - split; [discriminate | reflexivity].
  - split; [intros e' H; exists e0; auto | intros Hq; auto].
Qed.

End SheetSyncFacts.

Section SheetSyncExamples.
Import Py Db Effects Gateway SheetSync.

Lemma sheet_update_touches_one_row_witness :
  let W := Samples.worksheet_unreachable in
  _update_google_sheet_from_call (U:=ascii_only)
    (Sv:=Samples.services_log_raising) (W:=W)
    (Samples.sheet_update_for "INV-4") []
  = (Raise (mkExn KeyError (u "'code'")), [])
  /\ _update_google_sheet_from_call (U:=ascii_only) (Sv:=Scenario.quiet)
       (W:=W) (Samples.sheet_update_for "INV-4") []
     = (Ok tt, []).
Proof.
  intros W. split.
  - reflexivity.
  - destruct (sheet_update_touches_one_row (U:=ascii_only)
                (Sv:=Scenario.quiet) (W:=W)
                (Samples.sheet_update_for "INV-4") [])
      as (_ & _ & Hquiet).
    apply injective_projections;
      [exact (Hquiet (fun _ => eq_refl)) | reflexivity].
Defined.

Lemma locate_invoice_row_found_witness :
  let W := Samples.worksheet Samples.tracking_sheet in
  locate_invoice_row (U:=ascii_only) Samples.tracking_sheet (u "INV-4") = Some 3%nat
  /\ locate_invoice_row (U:=ascii_only) Samples.tracking_sheet (u "INV-9") = None
  /\ exists header_row_idx invoice_col_idx row cell,
       find_header_row (U:=ascii_only) Samples.tracking_sheet
       = Some (header_row_idx, Some invoice_col_idx)
       /\ (header_row_idx < 3)%nat
       /\ nth_error Samples.tracking_sheet 3 = Some row
       /\ nth_error row invoice_col_idx = Some cell
       /\ strip cell = u "INV-4".
Proof.
  intros W.
  split; [vm_compute; reflexivity|]. split; [vm_compute; reflexivity|].
  destruct (locate_invoice_row_found (U:=ascii_only) (W:=W) Samples.tracking_sheet (u "INV-4") 3 eq_refl)
    as (h & col & row & cell & H1 & H2 & H3 & H4 & H5 & _).
  exists h, col, row, cell. auto.
Defined.

End SheetSyncExamples.

(* ================================================================== *)
(** * The classifier: the text it reads, the records it gives *)
(* ================================================================== *)

Section CleanJsonFacts.
Import Py Classifier.

Lemma lazy_to_brace_some (rest_ok : pystr -> bool) (s : pystr) :
  forall g,
    lazy_to_brace rest_ok s = Some g ->
    exists inner after, g = inner ++ [close_brace] /\ s = g ++ after.
Proof.
  induction s as [|c s IH]; intros g; cbn [lazy_to_brace]; [discriminate|].
  destruct (N.eqb c close_brace && rest_ok s) eqn:E.
  - intros H. inversion H; subst.
    apply andb_prop in E. destruct E as [E _]. apply N.eqb_eq in E. subst c.
    exists [], s. auto.
  - destruct (lazy_to_brace rest_ok s) as [g'|]; [|discriminate].
    intros H. inversion H; subst.
    destruct (IH g' eq_refl) as (inner & after & -> & ->).
    exists (c :: inner), after. auto.
Qed.

Lemma lazy_to_brace_finds (inner after : pystr) :
  lazy_to_brace (fun _ => true) (inner ++ close_brace :: after) <> None.
Proof.
  induction inner as [|c inner IH]; cbn [app lazy_to_brace].
  - rewrite N.eqb_refl. discriminate.
  - destruct (N.eqb c close_brace && true); [discriminate|].
    destruct (lazy_to_brace _ _); [discriminate | contradiction].
Qed.

Lemma lstrip_suffix (s : pystr) : exists ws, s = ws ++ lstrip s.
Proof.
  induction s as [|c s (ws & IH)]; [exists []; reflexivity|].
  cbn [lstrip]. destruct (isspace c).
  - exists (c :: ws). cbn. congruence.
  - exists []. reflexivity.
Qed.

Lemma bare_at_some (s g : pystr) :
  bare_at s = Some g -> braced g /\ exists after, s = g ++ after.
Proof.
  unfold bare_at. destruct s as [|c r]; [discriminate|].
  destruct (N.eqb c open_brace) eqn:E; [|discriminate].
  apply N.eqb_eq in E. subst c.
  destruct (lazy_to_brace _ r) as [g'|] eqn:El; [|discriminate].
  intros H. inversion H; subst.
  destruct (lazy_to_brace_some _ _ _ El) as (inner & after & -> & ->).
  split; [exists inner; reflexivity | exists after; reflexivity].
Qed.

Lemma fenced_at_some (s g : pystr) :
  fenced_at s = Some g -> braced g /\ substring g s.
Proof.
  unfold fenced_at. destruct (startswith fence_json s); [|discriminate].
  destruct (lstrip_suffix (skipn (List.length fence_json) s)) as (ws & Ews).
  destruct (lstrip (skipn (List.length fence_json) s)) as [|c r]; [discriminate|].
  destruct (N.eqb c open_brace) eqn:E; [|discriminate].
  apply N.eqb_eq in E. subst c.
  destruct (lazy_to_brace _ r) as [g'|] eqn:El; [|discriminate].
  intros H. inversion H; subst.
  destruct (lazy_to_brace_some _ _ _ El) as (inner & after & -> & ->).
  split; [exists inner; reflexivity|].
  exists (firstn (List.length fence_json) s ++ ws), after.
  rewrite <- (firstn_skipn (List.length fence_json) s) at 1.
  rewrite Ews. cbn [app]. rewrite <- !app_assoc. cbn [app]. reflexivity.
Qed.

Lemma search_some (at_head : pystr -> option pystr) (s : pystr) :
  forall g,
    search at_head s = Some g ->
    exists before t, s = before ++ t /\ at_head t = Some g.
Proof.
  induction s as [|c s IH]; intros g; cbn [search].
  - destruct (at_head []) eqn:E; [|discriminate].
    intros H. inversion H; subst. exists [], []. auto.
  - destruct (at_head (c :: s)) eqn:E.
    + intros H. inversion H; subst. exists [], (c :: s). auto.
    + intros H. destruct (IH _ H) as (before & t & -> & Ht).
      exists (c :: before), t. auto.
Qed.

Lemma search_finds (at_head : pystr -> option pystr) (before t : pystr) :
  at_head t <> None -> search at_head (before ++ t) <> None.
Proof.
  intros Ht. induction before as [|c before IH]; cbn [app].
  - destruct t; cbn [search]; destruct (at_head _); try discriminate;
      contradiction.
  - cbn [search]. destruct (at_head (c :: before ++ t)); [discriminate|].
    exact IH.
Qed.

(** X8.  [_clean_json_response] always returns a text that opens with a
    brace and closes with one: a piece of the reply, or "{}" when the
    reply has no opening brace with a closing brace after it. *)
Theorem clean_json_response_braced (text : pystr) :
  braced (_clean_json_response text)
  /\ (substring (_clean_json_response text) text
      \/ (_clean_json_response text = u "{}"
          /\ forall before inner after,
               text <> before ++ open_brace :: inner ++ close_brace :: after)).
Proof.
  unfold _clean_json_response.
  destruct (search fenced_at text) as [g|] eqn:Ef.
  - destruct (search_some _ _ _ Ef) as (before & t & -> & Ht).
    destruct (fenced_at_some _ _ Ht) as (Hb & b2 & after & ->).
    split; [exact Hb|]. left. exists (before ++ b2), after.
    rewrite <- !app_assoc. reflexivity.
  - destruct (search bare_at text) as [g|] eqn:Eb.
    + destruct (search_some _ _ _ Eb) as (before & t & -> & Ht).
      destruct (bare_at_some _ _ Ht) as (Hb & after & ->).
      split; [exact Hb|]. left. exists before, after. reflexivity.
    + split; [exists []; reflexivity|]. right. split; [reflexivity|].
      intros before inner after ->.
      apply (search_finds bare_at before
               (open_brace :: inner ++ close_brace :: after)); [|exact Eb].
      cbn [bare_at]. rewrite N.eqb_refl.
      destruct (lazy_to_brace _ _) eqn:El; [discriminate|].
      exfalso. exact (lazy_to_brace_finds _ _ El).
Qed.

End CleanJsonFacts.

Section SummaryFacts.
Import Py Db Effects Classifier.
Context {U : Unicode} {Sv : Services}.

Lemma join_parts_ok (parts : list pyval) :
  (exists l, join_parts parts = Ok l) <-> Forall is_str parts.
Proof.
  induction parts as [|v parts IH].
  - split; [constructor | exists []; reflexivity].
  - split.
    + intros (l & H). cbn [join_parts] in H.
      destruct v as [[| | | |s| |]|]; try discriminate.
      destruct (join_parts parts) as [l'|] eqn:E; [|discriminate].
      constructor; [exists s; reflexivity|]. apply IH. exists l'. reflexivity.
    + intros H. inversion H as [|? ? (s & ->) Hrest]; subst.
      apply IH in Hrest. destruct Hrest as (l' & E).
      exists (s :: l'). cbn [join_parts VStr]. rewrite E. reflexivity.
Qed.

Lemma title_of_ok (v : pyval) :
  (exists s, title_of v = Ok s) <-> is_str v.
Proof.
  split.
  - intros (s & H). destruct v as [[| | | |t| |]|]; try discriminate.
    exists t. reflexivity.
  - intros (t & ->). exists (title t). reflexivity.
Qed.

(** X9.  [generate_summary] returns a text exactly when the promised date,
    if one is to be shown, is a date, the language and the sentiment
    (with their defaults) are strings, and the notes, if any, are a string;
    in every other case it raises. *)
Theorem generate_summary_succeeds_iff (r : outcome) :
  (exists text, generate_summary r = Ok text)
  <-> ((truthy (dict_get k_payment_promised VNone r) = true ->
        truthy (dict_get k_payment_promise_date VNone r) = true ->
        is_date (dict_get k_payment_promise_date VNone r))
       /\ is_str (dict_get k_language_detected (VStr (u "unknown")) r)
       /\ is_str (dict_get k_customer_sentiment (VStr (u "neutral")) r)
       /\ (truthy (dict_get k_notes VNone r) = true ->
           is_str (dict_get k_notes VNone r))).
Proof.
  unfold generate_summary.
  set (parts1 := if eq_str _ (u "paid") then _ else _).
  assert (Forall is_str parts1) as H1.
  { unfold parts1.
    repeat match goal with
           | |- context [if ?b then _ else _] => destruct b
           end; repeat econstructor. }
  set (parts3 := if truthy (dict_get k_needs_invoice_resend VNone r)
                 then _ else _).
  assert (Forall is_str parts3) as H3.
  { unfold parts3.
    destruct (truthy (dict_get k_needs_invoice_resend VNone r));
      repeat econstructor. }
  set (parts4 := if truthy (dict_get k_customer_disputed VNone r)
                 then _ else _).
  assert (Forall is_str parts4) as H4.
  { unfold parts4.
    destruct (truthy (dict_get k_customer_disputed VNone r));
      repeat econstructor. }
  clearbody parts1 parts3 parts4.
  set (promised := truthy (dict_get k_payment_promised VNone r)).
  set (pdate := dict_get k_payment_promise_date VNone r).
  set (lang := dict_get k_language_detected (VStr (u "unknown")) r).
  set (sentiment := dict_get k_customer_sentiment (VStr (u "neutral")) r).
  set (notes := dict_get k_notes VNone r).
  set (parts2 := if promised then _ else _).
  assert ((exists p2, parts2 = Ok p2 /\ Forall is_str p2)
          <-> (promised = true -> truthy pdate = true -> is_date pdate))
    as H2.
  { unfold parts2. destruct promised.
    - destruct (truthy pdate) eqn:Et.
      + destruct pdate as [j|d].
        * split; [intros (p2 & H & _); discriminate|].
          intros H. destruct (H eq_refl eq_refl) as (d & Hd). discriminate.
        * split; [intros _ _ _; exists d; reflexivity|].
          intros _. eexists. split; [reflexivity|].
          repeat econstructor.
      + split; [intros _ _ H; discriminate|].
        intros _. exists []. split; [reflexivity | constructor].
    - split; [intros _ H; discriminate|].
      intros _. exists []. split; [reflexivity | constructor]. }
  assert (forall p2, parts2 = Ok p2 -> Forall is_str p2) as H2'.
  { unfold parts2. intros p2.
    destruct promised; [|intros H; inversion H; constructor].
    destruct (truthy pdate); [|intros H; inversion H; constructor].
    destruct pdate; [discriminate|].
    intros H; inversion H. repeat econstructor. }
  clearbody parts2.
  split.
  - intros (text & H).
    destruct parts2 as [p2|]; [|discriminate]. cbn [rbind] in H.
    destruct (title_of lang) as [l|] eqn:El; [|discriminate].
    cbn [rbind] in H.
    destruct (title_of sentiment) as [s|] eqn:Es; [|discriminate].
    cbn [rbind] in H.
    destruct (join_parts _) as [parts|] eqn:Ej; [|discriminate].
    split; [apply H2; exists p2; split; [reflexivity | apply H2'; reflexivity]|].
    split; [apply title_of_ok; exists l; exact El|].
    split; [apply title_of_ok; exists s; exact Es|].
    intros Hn.
    assert (Forall is_str
              (parts1 ++ p2 ++ parts3 ++ parts4
               ++ [VStr (u "Language: " ++ l)]
               ++ [VStr (u "Sentiment: " ++ s)]
               ++ (if truthy notes then [notes] else []))) as Hall
      by (apply join_parts_ok; exists parts; exact Ej).
    rewrite Hn in Hall.
    repeat (apply Forall_app in Hall; destruct Hall as [_ Hall]).
    inversion Hall; assumption.
  - intros (Hp & Hl & Hs & Hn).
    apply H2 in Hp. destruct Hp as (p2 & -> & Hp2). cbn [rbind].
    apply title_of_ok in Hl. destruct Hl as (l & ->). cbn [rbind].
    apply title_of_ok in Hs. destruct Hs as (s & ->). cbn [rbind].
    assert (Forall is_str
              (parts1 ++ p2 ++ parts3 ++ parts4
               ++ [VStr (u "Language: " ++ l)]
               ++ [VStr (u "Sentiment: " ++ s)]
               ++ (if truthy notes then [notes] else []))) as Hall.
    { repeat (apply Forall_app; split); auto.
      - repeat econstructor.
      - repeat econstructor.
      - destruct (truthy notes); [|constructor].
        repeat constructor. apply Hn. reflexivity. }
    apply join_parts_ok in Hall. destruct Hall as (parts & ->).
    cbn [rbind]. eexists. reflexivity.
Qed.

End SummaryFacts.

Section NextActionFacts.
Import Py Db Effects Classifier NextAction.
Context {U : Unicode} {Sv : Services}.

Lemma convert_date_same (k : pystr) (r : outcome) :
  is_date (dict_get k VNone (convert_date k r))
  \/ truthy (dict_get k VNone (convert_date k r)) = false.
Proof.
  unfold convert_date.
  destruct (truthy (dict_get k VNone r)) eqn:Et; [|right; exact Et].
  unfold dict_get at 1 3. rewrite dict_lookup_set_same.
  unfold date_or_none.
  destruct (dict_get k VNone r) as [[| | | |s| |]|d]; try (right; reflexivity).
  destruct (strptime s (u "%Y-%m-%d")) as [d|];
    [left; exists d; reflexivity | right; reflexivity].
Qed.

Lemma parse_call_outcome_cases (transcript summary : json) (w w' : World)
    (r : outcome) :
  parse_call_outcome transcript summary w = (Ok r, w') ->
  (exists e, r = fallback e)
  \/ exists d,
       r = convert_date k_next_follow_up_date
             (convert_date k_payment_promise_date
                (List.map (fun kv => (fst kv, J (snd kv))) d)).
Proof.
  unfold parse_call_outcome, parse_call_outcome_body, try_except, bind, lift,
    get_world, modify, ret, raise.
  destruct (generate_content _ _ _) as [text|e];
    [|intros H; inversion H; left; exists e; reflexivity].
  destruct (json_loads _) as [j|e];
    [|intros H; inversion H; left; exists e; reflexivity].
  destruct j; intros H; inversion H;
    try (left; eexists; reflexivity).
  right. eexists. reflexivity.
Qed.

Lemma classified_date_field (transcript summary : json) (w w' : World)
    (r : outcome) (k : pystr) :
  parse_call_outcome transcript summary w = (Ok r, w') ->
  date_field k ->
  is_date (dict_get k VNone r) \/ truthy (dict_get k VNone r) = false.
Proof.
  intros H Hk.
  destruct (parse_call_outcome_cases _ _ _ _ _ H) as [(e & ->) | (d & ->)].
  - destruct Hk as [-> | ->]; right; reflexivity.
  - destruct Hk as [-> | ->].
    + unfold dict_get at 1 2.
      rewrite (convert_date_other (u "payment_promise_date")
                 k_next_follow_up_date) by reflexivity.
      apply (convert_date_same k_payment_promise_date).
    + apply (convert_date_same k_next_follow_up_date).
Qed.

Lemma dict_item_cases (k : pystr) (r : outcome) :
  (exists v, dict_item k r = Ok v /\ dict_lookup k r = Some v)
  \/ (dict_item k r = Raise (mkExn KeyError k) /\ dict_lookup k r = None).
Proof.
  unfold dict_item. destruct (dict_lookup k r) as [v|]; [left | right]; eauto.
Qed.

(** X10.  In a record that [parse_call_outcome] returns, each of the two
    date fields is a date or counts as absent, never a text; so
    [determine_next_action] can fail on such a record only with a
    [KeyError], for a key the record does not have. *)
Theorem classified_dates_are_dates (transcript summary : json) (w w' : World)
    (r : outcome) :
  parse_call_outcome transcript summary w = (Ok r, w') ->
  (forall k, date_field k ->
     is_date (dict_get k VNone r) \/ truthy (dict_get k VNone r) = false)
  /\ (forall e, determine_next_action r = Raise e ->
        exn_kind_of e = KeyError /\ dict_lookup (exn_msg e) r = None).
Proof.
  intros H. split; [intros k Hk; exact (classified_date_field _ _ _ _ _ _ H Hk)|].
  pose proof (classified_date_field _ _ _ _ _ k_payment_promise_date H
                (or_introl eq_refl)) as Hd.
  intros e. unfold determine_next_action.
  destruct (dict_item_cases k_payment_status r) as [(v & -> & _) | (-> & Hn)];
    cbn [rbind]; [|intros E; inversion E; auto].
  destruct (eq_str v (u "paid")); [discriminate|].
  destruct (dict_item_cases k_payment_promised r) as [(v1 & -> & _) | (-> & Hn)];
    cbn [rbind]; [|intros E; inversion E; auto].
  destruct (truthy v1).
  { destruct (truthy (dict_get k_payment_promise_date VNone r)) eqn:Et;
      [|discriminate].
    destruct Hd as [(d & ->) | Hf]; [discriminate | congruence]. }
  destruct (dict_item_cases k_needs_invoice_resend r)
    as [(v2 & -> & _) | (-> & Hn)];
    cbn [rbind]; [|intros E; inversion E; auto].
  destruct (truthy v2); [discriminate|].
  destruct (dict_item_cases k_customer_disputed r)
    as [(v3 & -> & _) | (-> & Hn)];
    cbn [rbind]; [|intros E; inversion E; auto].
  destruct (truthy v3); [discriminate|].
  destruct (dict_item_cases k_call_outcome r) as [(v4 & -> & _) | (-> & Hn)];
    cbn [rbind]; [|intros E; inversion E; auto].
  destruct (eq_str v4 (u "needs_escalation")); discriminate.
Qed.

(** X11.  [determine_next_action] asks for the payment status first: a
    record whose status is "paid" gets "Mark as paid and close" even if it
    has no other key.  Whenever it answers, the answer is one of six fixed
    actions or "Follow up on " and the promised date of the record. *)
Theorem determine_next_action_choices (r : outcome) :
  (dict_lookup k_payment_status r = Some (VStr (u "paid")) ->
   determine_next_action r = Ok (u "Mark as paid and close"))
  /\ (dict_lookup k_payment_status r = None ->
      determine_next_action r = Raise (mkExn KeyError k_payment_status))
  /\ (forall a, determine_next_action r = Ok a ->
        In a fixed_actions
        \/ exists d,
             dict_lookup k_payment_promise_date r = Some (VDate d)
             /\ a = u "Follow up on " ++ strftime d (u "%Y-%m-%d")).
Proof.
  unfold determine_next_action, dict_item.
  split; [intros ->; reflexivity|]. split; [intros ->; reflexivity|].
  intros a.
  destruct (dict_lookup k_payment_status r) as [v|]; [|discriminate].
  cbn [rbind].
  destruct (eq_str v (u "paid")); [fixed_action|].
  destruct (dict_lookup k_payment_promised r) as [v1|]; [|discriminate].
  cbn [rbind].
  destruct (truthy v1).
  { unfold dict_get.
    destruct (dict_lookup k_payment_promise_date r) as [[j|d]|] eqn:Ed.
    - destruct (truthy (J j)); [discriminate | fixed_action].
    - cbn [truthy]. intros E; inversion E. right. exists d. auto.
    - cbn [truthy VNone json_truthy]. fixed_action. }
  destruct (dict_lookup k_needs_invoice_resend r) as [v2|]; [|discriminate].
  cbn [rbind].
  destruct (truthy v2); [fixed_action|].
  destruct (dict_lookup k_customer_disputed r) as [v3|]; [|discriminate].
  cbn [rbind].
  destruct (truthy v3); [fixed_action|].
  destruct (dict_lookup k_call_outcome r) as [v4|]; [|discriminate].
  cbn [rbind].
  destruct (eq_str v4 (u "needs_escalation")); fixed_action.
Qed.

End NextActionFacts.

Lemma classified_dates_are_dates_witness :
  exists r w',
    Classifier.parse_call_outcome (Sv:=Scenario.quiet)
      (Py.JStr (Py.u "hello")) Py.JNull Scenario.world0 = (Py.Ok r, w')
    /\ (forall k, date_field k ->
          is_date (Py.dict_get k Py.VNone r)
          \/ Py.truthy (Py.dict_get k Py.VNone r) = false)
    /\ NextAction.determine_next_action (Sv:=Scenario.quiet) r
       = Py.Ok (Py.u "Mark as paid and close").
Proof.
  eexists. eexists. split; [vm_compute; reflexivity|].
  split; [|vm_compute; reflexivity].
  exact (proj1 (classified_dates_are_dates (Sv:=Scenario.quiet)
                  (Py.JStr (Py.u "hello")) Py.JNull Scenario.world0 _ _
                  eq_refl)).
Defined.

(* ================================================================== *)
(** * The sheet reader: names, numbers and the rows it hands on *)
(* ================================================================== *)

Section MobileFacts.
Import Py Sheets.
Context {U : Unicode}.

Lemma replace_absent (c : N) (old new s : pystr) :
  ~ In c s -> replace (c :: old) new s = s.
Proof.
  unfold replace. induction s as [|x s IH]; intros Hin; [reflexivity|].
  cbn [replace_from startswith].
  destruct (N.eqb c x) eqn:E.
  - apply N.eqb_eq in E. subst x. exfalso. apply Hin. left. reflexivity.
  - cbn [andb]. rewrite IH; [reflexivity|].
    intros H. apply Hin. right. exact H.
Qed.

Lemma digit_not_ascii_sign (c : N) :
  isdigit c = true -> c <> 32%N /\ c <> 45%N /\ c <> 43%N.
Proof.
  unfold isdigit, is_ascii, ascii_isdigit.
  destruct (c <? 128)%N eqn:E.
  - intros H. apply andb_prop in H. destruct H as [H _].
    apply N.leb_le in H. lia.
  - apply N.ltb_ge in E. intros _. lia.
Qed.

Lemma digits_without (c : N) (d : pystr) :
  (c = 32 \/ c = 45 \/ c = 43)%N -> forallb isdigit d = true -> ~ In c d.
Proof.
  intros Hc Hd Hin. rewrite forallb_forall in Hd.
  destruct (digit_not_ascii_sign c (Hd c Hin)) as (H1 & H2 & H3).
  destruct Hc as [Hc | [Hc | Hc]]; contradiction.
Qed.

Lemma mobile_digits_formatted (d : pystr) :
  forallb isdigit d = true -> mobile_digits (u "+91" ++ d) = d.
Proof.
  intros Hd. unfold mobile_digits.
  change (u "+91" ++ d) with (43 :: 57 :: 49 :: d)%N.
  change (u " ") with [32%N]. change (u "-") with [45%N].
  rewrite (replace_absent 32 [] []).
  2:{ intros [H | [H | [H | H]]]; try discriminate.
      exact (digits_without 32 d (or_introl eq_refl) Hd H). }
  rewrite (replace_absent 45 [] []).
  2:{ intros [H | [H | [H | H]]]; try discriminate.
      exact (digits_without 45 d (or_intror (or_introl eq_refl)) Hd H). }
  change (u "+91") with [43; 57; 49]%N.
  unfold replace. cbn [replace_from startswith N.eqb Pos.eqb andb app
                         List.length Nat.pred].
  apply (replace_absent 43 [57; 49]%N []).
  exact (digits_without 43 d (or_intror (or_intror eq_refl)) Hd).
Qed.

Lemma valid_mobile_digits (number : pystr) :
  _is_valid_mobile number = true ->
  forallb isdigit (mobile_digits number) = true
  /\ List.length (mobile_digits number) = 10%nat.
Proof.
  unfold _is_valid_mobile, str_isdigit. intros H.
  apply andb_prop in H. destruct H as [H Hlen].
  apply andb_prop in H. destruct H as [_ Hd].
  apply Nat.eqb_eq in Hlen. auto.
Qed.

(** X12.  A number [_is_valid_mobile] accepts is formatted by
    [_format_mobile] as +91 and ten digits; the formatted number is again
    valid, and formatting it again changes nothing. *)
Theorem format_mobile_stable (number : pystr) :
  _is_valid_mobile number = true ->
  indian_mobile (_format_mobile number)
  /\ _is_valid_mobile (_format_mobile number) = true
  /\ _format_mobile (_format_mobile number) = _format_mobile number.
Proof.
  intros H. destruct (valid_mobile_digits number H) as (Hd & Hlen).
  split; [exists (mobile_digits number); auto|].
  unfold _is_valid_mobile, _format_mobile.
  rewrite (mobile_digits_formatted _ Hd).
  split; [exact H | reflexivity].
Qed.

Lemma valid_mobile_in_some (cell : option pystr) (n : pystr) :
  valid_mobile_in cell = Some n -> indian_mobile n.
Proof.
  unfold valid_mobile_in. destruct cell as [c|]; [|discriminate].
  destruct (_is_valid_mobile (strip c)) eqn:E; [|discriminate].
  intros H. inversion H; subst.
  destruct (valid_mobile_digits _ E) as (Hd & Hlen).
  exists (mobile_digits (strip c)). auto.
Qed.

Lemma first_some_prop {A B : Type} (P : B -> Prop) (f : A -> option B)
    (l : list A) (b : B) :
  (forall a b, f a = Some b -> P b) -> first_some f l = Some b -> P b.
Proof.
  intros Hf. induction l as [|a l IH]; cbn [first_some]; [discriminate|].
  destruct (f a) as [b'|] eqn:E; [|exact IH].
  intros H. inversion H; subst. exact (Hf _ _ E).
Qed.

Lemma extract_contact_number_form (all_data : list (list pystr)) :
  _extract_contact_number all_data = []
  \/ indian_mobile (_extract_contact_number all_data).
Proof.
  unfold _extract_contact_number.
  destruct (first_some _ (enumerate 0 all_data)) as [n|] eqn:E1.
  - right. revert E1. apply first_some_prop. intros [idx row] b.
    apply first_some_prop. intros [col_idx cell] b'.
    destruct (contains (u "mobile") (lower cell)
              && contains (u "no") (lower cell)); [|discriminate].
    destruct (valid_mobile_in (nth_error row (col_idx + 1))) as [m|] eqn:Em.
    + intros H. inversion H; subst. exact (valid_mobile_in_some _ _ Em).
    + destruct (nth_error all_data (idx + 1)); [|discriminate].
      apply valid_mobile_in_some.
  - destruct (first_some _ all_data) as [n|] eqn:E2; [|left; reflexivity].
    right. revert E2. apply first_some_prop. intros row b.
    apply first_some_prop. intros cell b'. apply valid_mobile_in_some.
Qed.

Lemma extract_client_name_bounds (all_data : list (list pystr)) :
  _extract_client_name all_data <> []
  /\ (List.length (_extract_client_name all_data) < 100)%nat.
Proof.
  unfold _extract_client_name.
  destruct (first_some _ (firstn 15 all_data)) as [name|] eqn:E.
  - revert E.
    apply (first_some_prop
             (fun name => name <> [] /\ (List.length name < 100)%nat)).
    intros row b.
    destruct (_ || _); [discriminate|].
    destruct (_ && _ && _); [|discriminate].
    destruct (negb _); [|discriminate].
    destruct (nonempty (strip _)) eqn:En; cbn [andb]; [|discriminate].
    destruct (Nat.ltb _ 100) eqn:El; [|discriminate].
    intros H. inversion H; subst.
    split; [apply nonempty_true; exact En | apply Nat.ltb_lt; exact El].
  - split; [discriminate | cbn; lia].
Qed.

End MobileFacts.

Section ReaderFacts.
Import Py Db Effects Sheets.
Context {U : Unicode} {Sv : Services}.

Lemma pending_row_fields (cn co ct : pystr) (idx : nat) (row : list pystr)
    (p : Payment.t) :
  pending_row cn co ct idx row = Some p ->
  Payment.client_name p = cn
  /\ Payment.company_name p = co
  /\ Payment.contact_number p = ct
  /\ Payment.payment_status p = u "pending"
  /\ Payment.db_invoice_id p = None
  /\ Payment.db_client_id p = None
  /\ Payment.invoice_id p = strip (cell_or [] row invoice_col).
Proof.
  unfold pending_row.
  destruct (negb (existsb nonempty row)); [discriminate|].
  destruct (negb (nonempty (cell_or [] row invoice_col))); [discriminate|].
  destruct (any_keyword summary_keywords _); [discriminate|].
  destruct (fleb _ fzero); [discriminate|].
  destruct (_ && _); [|discriminate].
  intros H. inversion H; subst. cbn. repeat split.
Qed.

Lemma get_pending_payments_cases (sheet_id : option pystr) (w w' : World)
    (rows : list Payment.t) :
  get_pending_payments sheet_id w = (Ok rows, w') ->
  w' = emit w (SheetFetched sheet_id)
  /\ (((exists e, get_all_values (events w) sheet_id = Raise e) /\ rows = [])
      \/ exists all_data,
           get_all_values (events w) sheet_id = Ok all_data
           /\ rows = pending_payments_of all_data).
Proof.
  unfold get_pending_payments, try_except, bind, get_world, modify, lift, ret.
  destruct (get_all_values (events w) sheet_id) as [all_data|e] eqn:E;
    intros H; inversion H; subst; (split; [reflexivity|]).
  - right. exists all_data. auto.
  - left. split; [exists e|]; reflexivity.
Qed.

Lemma pending_payments_of_fields (all_data : list (list pystr))
    (p : Payment.t) :
  In p (pending_payments_of all_data) ->
  Payment.client_name p = _extract_client_name all_data
  /\ Payment.company_name p = _extract_client_name all_data
  /\ Payment.contact_number p = _extract_contact_number all_data
  /\ Payment.payment_status p = u "pending"
  /\ Payment.db_invoice_id p = None
  /\ Payment.db_client_id p = None.
Proof.
  unfold pending_payments_of.
  destruct (Nat.leb (List.length all_data) header_row_idx); [contradiction|].
  intros H. apply pending_rows_in in H as (idx & row & _ & Hrow).
  destruct (pending_row_fields _ _ _ _ _ _ Hrow)
    as (H1 & H2 & H3 & H4 & H5 & H6 & _).
  unfold _extract_company_name in H2. repeat split; assumption.
Qed.

(** X13.  Every payment [get_pending_payments] returns carries a contact
    number of the form +91 and ten digits. *)
Theorem pending_payments_contact_number (sheet_id : option pystr)
    (w w' : World) (rows : list Payment.t) (p : Payment.t) :
  get_pending_payments sheet_id w = (Ok rows, w') ->
  In p rows ->
  indian_mobile (Payment.contact_number p).
Proof.
  intros H Hin.
  destruct (get_pending_payments_cases _ _ _ _ H)
    as (_ & [(_ & ->) | (all_data & Ea & ->)]); [contradiction|].
  destruct (pending_payments_of_fields _ _ Hin) as (_ & _ & Hc & _).
  destruct (pending_payments_of_rows _ _ Hin)
    as (idx & row & _ & _ & (_ & _ & Hne) & _).
  rewrite Hc in *.
  destruct (extract_contact_number_form all_data) as [He | Hm];
    [contradiction | exact Hm].
Qed.

(** X14.  All the payments of one [get_pending_payments] belong to one
    client: they share the client name, which is also their company name,
    is not empty and has fewer than 100 characters; they share the contact
    number; each is pending and has no database key yet. *)
Theorem pending_payments_one_client (sheet_id : option pystr)
    (w w' : World) (rows : list Payment.t) :
  get_pending_payments sheet_id w = (Ok rows, w') ->
  exists name number,
    name <> [] /\ (List.length name < 100)%nat
    /\ forall p, In p rows ->
         Payment.client_name p = name
         /\ Payment.company_name p = name
         /\ Payment.contact_number p = number
         /\ Payment.payment_status p = u "pending"
         /\ Payment.db_invoice_id p = None
         /\ Payment.db_client_id p = None.
Proof.
  intros H.
  destruct (get_pending_payments_cases _ _ _ _ H)
    as (_ & [(_ & ->) | (all_data & Ea & ->)]).
  - exists (u "Client"), []. split; [discriminate|]. split; [cbn; lia|].
    intros p [].
  - exists (_extract_client_name all_data), (_extract_contact_number all_data).
    destruct (extract_client_name_bounds all_data) as (Hne & Hlen).
    split; [exact Hne|]. split; [exact Hlen|].
    intros p Hin. exact (pending_payments_of_fields _ _ Hin).
Qed.

(** X15.  When the sheet cannot be read, or has no row below the header
    row (the eleventh), [get_pending_payments] returns the empty list; all
    it does is ask for the sheet. *)
Theorem get_pending_payments_nothing_to_read (sheet_id : option pystr)
    (w : World) :
  (exists e, get_all_values (events w) sheet_id = Raise e)
  \/ (exists all_data,
        get_all_values (events w) sheet_id = Ok all_data
        /\ (List.length all_data <= 11)%nat) ->
  get_pending_payments sheet_id w = (Ok [], emit w (SheetFetched sheet_id)).
Proof.
  unfold get_pending_payments, try_except, bind, get_world, modify, lift, ret.
  intros [(e & ->) | (all_data & -> & Hlen)]; [reflexivity|].
  unfold pending_payments_of.
  destruct (Nat.leb (List.length all_data) header_row_idx) eqn:E;
    [reflexivity|].
  rewrite skipn_all2 by (unfold header_row_idx; lia). reflexivity.
Qed.

End ReaderFacts.

Section ReaderExamples.
Import Py Db Effects Sheets.

Lemma format_mobile_stable_witness :
  indian_mobile (U:=ascii_only) (_format_mobile (u "98765 43210"))
  /\ _format_mobile (u "98765 43210") = u "+919876543210"
  /\ _is_valid_mobile (U:=ascii_only) (u "+919876543210") = true.
Proof.
  destruct (format_mobile_stable (U:=ascii_only) (u "98765 43210") eq_refl)
    as (H1 & H2 & _).
  split; [exact H1|]. split; [reflexivity | exact H2].
Defined.

Lemma pending_payments_contact_number_witness :
  exists rows w',
    get_pending_payments (U:=ascii_only) (Sv:=Samples.services_with_sheet)
      None Scenario.world0 = (Ok rows, w')
    /\ List.map Payment.contact_number rows
       = [u "+919876543210"; u "+919876543210"]
    /\ forall p, In p rows -> indian_mobile (U:=ascii_only)
                                (Payment.contact_number p).
Proof.
  eexists. eexists. split; [vm_compute; reflexivity|].
  split; [reflexivity|].
  intros p Hin.
  exact (pending_payments_contact_number (U:=ascii_only)
           (Sv:=Samples.services_with_sheet) None Scenario.world0 _ _ p
           eq_refl Hin).
Defined.

Lemma pending_payments_one_client_witness :
  exists rows w' name number,
    get_pending_payments (U:=ascii_only) (Sv:=Samples.services_with_sheet)
      None Scenario.world0 = (Ok rows, w')
    /\ List.length rows = 2%nat
    /\ name <> [] /\ (List.length name < 100)%nat
    /\ forall p, In p rows ->
          Payment.client_name p = name
          /\ Payment.company_name p = name
          /\ Payment.contact_number p = number
          /\ Payment.payment_status p = u "pending"
          /\ Payment.db_invoice_id p = None
          /\ Payment.db_client_id p = None.
Proof.
  eexists. eexists.
  destruct (pending_payments_one_client (U:=ascii_only)
              (Sv:=Samples.services_with_sheet) None Scenario.world0
              _ _ eq_refl)
    as (name & number & H1 & H2 & H3).
  exists name, number.
  split; [vm_compute; reflexivity|]. split; [reflexivity|].
  split; [exact H1|]. split; [exact H2 | exact H3].
Defined.

End ReaderExamples.

Lemma get_pending_payments_nothing_to_read_witness :
  let Sv := Scenario.services (Py.Ok []) (Py.Ok Py.JNull)
              (Py.Raise (Py.mkExn Py.ServiceError (Py.u "quota exceeded"))) in
  Sheets.get_pending_payments (U:=Py.ascii_only) (Sv:=Sv) None Scenario.world0
  = (Py.Ok [], Effects.emit Scenario.world0 (Effects.SheetFetched None)).
Proof.
  intros Sv.
  apply (get_pending_payments_nothing_to_read (U:=Py.ascii_only) (Sv:=Sv)).
  left. eexists. reflexivity.
Defined.

(* ================================================================== *)
(** * What a processed report leaves behind *)
(* ================================================================== *)

Section ReportFacts.
Import Py Db Effects Orchestrator.
Context {U : Unicode} {Sv : Services} {Sq : Sqlite}.

Lemma invoice_after_mark_paid (d : DB) (l : CallLog.t) (inv : Invoice.t)
    (now : datetime) :
  invoice_of d l = Some inv ->
  invoice_of (mark_paid d inv now) l
  = Some (if Invoice.is_paid inv then inv
          else Invoice.set_payment_status inv PAID now).
Proof.
  intros Hf. unfold mark_paid.
  destruct (Invoice.is_paid inv); [exact Hf|].
  unfold invoice_of, update_invoice in *. cbn [invoices].
  apply (find_map_update _ Invoice.id _ inv _ Hf); [reflexivity|].
  apply find_some in Hf as [_ Hp]. exact Hp.
Qed.

Lemma client_after_mark_paid (d : DB) (inv : Invoice.t) (now : datetime) :
  client_of (mark_paid d inv now)
    (if Invoice.is_paid inv then inv
     else Invoice.set_payment_status inv PAID now)
  = client_of d inv.
Proof.
  unfold mark_paid. destruct (Invoice.is_paid inv); reflexivity.
Qed.

(** What a report does for a stored call whose invoice and client are in
    the store, once the duration could be computed and the summary written:
    the question to the model and the request of a sheet update are made;
    the rows are stored when the update lets nothing out and the commit
    flushes the call log, and the session is rolled back otherwise. *)
Lemma end_of_call_processed (m c : list (pystr * json)) (cid : json)
    (l : CallLog.t) (inv : Invoice.t) (cl : Client.t) (dur : json)
    (r : Classifier.outcome) (rs : pystr) (w w1 : World) :
  dict_get k_call (JDict []) m = JDict c ->
  dict_get k_id JNull c = cid ->
  json_truthy cid = true ->
  call_log_by_vapi_call_id (db w) cid = Some l ->
  invoice_of (db w) l = Some inv ->
  client_of (db w) inv = Some cl ->
  call_duration_of (started_at_of c) (ended_at_of c) = Ok dur ->
  Classifier.parse_call_outcome (transcript_of m)
    (dict_get k_summary (JStr []) m) w = (Ok r, w1) ->
  Classifier.generate_summary r = Ok rs ->
  let l' := completed_call_log l dur (transcript_of m) rs
              (dict_get k_recordingUrl JNull c)
              (dict_get k_cost (JInt 0) c) r in
  let d1 := update_call_log (db w) l' in
  let x := mkSheetUpdate (Invoice.invoice_id inv) (CallLog.call_made_on l) rs
             (dict_get Classifier.k_next_follow_up_date VNone r)
             (dict_get Classifier.k_payment_status VNone r)
             (Client.google_sheet_id cl) r
             (J (dict_get k_recordingUrl JNull c)) in
  let asked :=
    events w
    ++ [ModelAsked (transcript_of m)
          (Classifier.summary_or_default (dict_get k_summary (JStr []) m))] in
  let stored :=
    if classified_paid r then mark_paid d1 inv (clock w) else d1 in
  _handle_end_of_call_body (JDict m) w
  = match sheet_update_raises asked x, flush_call_log l l' with
    | None, None =>
        (Ok tt,
         mkWorld stored (clock w) (asked ++ [SheetUpdateRequested x]))
    | Some e, _ | None, Some e =>
        (Raise e,
         mkWorld (db w) (clock w) (asked ++ [SheetUpdateRequested x]))
    end.
Proof.
  intros Hc Hid Htruthy Hl Hinv Hcl Hdur Hparse Hsum l' d1 x asked stored.
  unfold _handle_end_of_call_body, bind, lift, ret, json_get.
  rewrite Hc, Hid, Htruthy. cbn [negb].
  unfold started_at_of, ended_at_of in Hdur. rewrite Hdur. cbv beta iota.
  fold (transcript_of m).
  destruct (parse_call_outcome_world (transcript_of m)
              (dict_get k_summary (JStr []) m) w) as [r0 Hr].
  rewrite Hr in Hparse. inversion Hparse; subst r0 w1. clear Hparse.
  rewrite Hr, Hsum. cbv beta iota.
  unfold _update_google_sheet_from_call.
  unfold with_db, bind, get_world, modify, raise, raise_if, ret, set_db, emit.
  cbn [db clock events].
  rewrite (found_is_bound _ _ _ Hl). cbv beta iota. cbn [db clock events].
  rewrite Hl. cbv beta iota. cbn [db clock events].
  fold l'. fold d1. fold (classified_paid r).
  assert (invoice_of d1 l' = Some inv) as Hinv1 by exact Hinv.
  assert (client_of d1 inv = Some cl) as Hcl1 by exact Hcl.
  subst stored.
  destruct (classified_paid r) eqn:Epaid; cbn [db clock events].
  - rewrite Hinv1. cbn [db clock events].
    rewrite (invoice_after_mark_paid d1 l' inv (clock w) Hinv1).
    rewrite client_after_mark_paid, Hcl1.
    cbn [db clock events].
    assert (Invoice.invoice_id
              (if Invoice.is_paid inv then inv
               else Invoice.set_payment_status inv PAID (clock w))
            = Invoice.invoice_id inv) as ->
      by (destruct (Invoice.is_paid inv); reflexivity).
    change (sheet_update_raises _ _) with (sheet_update_raises asked x).
    destruct (sheet_update_raises asked x); cbn [db clock events];
      [reflexivity|].
    cbn [flush_assigned].
    destruct (flush_call_log l l'); reflexivity.
  - rewrite Hinv1, Hcl1. cbn [db clock events].
    change (sheet_update_raises _ _) with (sheet_update_raises asked x).
    destruct (sheet_update_raises asked x); cbn [db clock events];
      [reflexivity|].
    cbn [flush_assigned].
    destruct (flush_call_log l l'); reflexivity.
Qed.

End ReportFacts.

Section ReportTheorems.
Import Py Db Effects Orchestrator.
Context {U : Unicode} {Sv : Services} {Sq : Sqlite}.

(** X16.  A report for a stored call, with its invoice and client in the
    store, that could be summarised asks for exactly one spreadsheet
    update, after the question to the model: for the number of that
    invoice, in the sheet of that client, with the summary written and the
    status the classifier gave.  Clients are left as they are. *)
Theorem processed_report_requests_sheet_update (payload : json)
    (m c : list (pystr * json)) (cid : json) (l : CallLog.t)
    (inv : Invoice.t) (cl : Client.t) (dur : json)
    (r : Classifier.outcome) (rs : pystr) (w w1 : World) :
  payload_of_type "end-of-call-report" payload m ->
  dict_get k_call (JDict []) m = JDict c ->
  dict_get k_id JNull c = cid ->
  json_truthy cid = true ->
  call_log_by_vapi_call_id (db w) cid = Some l ->
  invoice_of (db w) l = Some inv ->
  client_of (db w) inv = Some cl ->
  call_duration_of (started_at_of c) (ended_at_of c) = Ok dur ->
  Classifier.parse_call_outcome (transcript_of m)
    (dict_get k_summary (JStr []) m) w = (Ok r, w1) ->
  Classifier.generate_summary r = Ok rs ->
  exists w' x,
    process_call_webhook payload w = (Ok tt, w')
    /\ events w'
       = events w
         ++ [ ModelAsked (transcript_of m)
                (Classifier.summary_or_default
                   (dict_get k_summary (JStr []) m));
              SheetUpdateRequested x ]
    /\ su_invoice_id x = Invoice.invoice_id inv
    /\ su_client_sheet_id x = Client.google_sheet_id cl
    /\ su_response_summary x = rs
    /\ su_payment_status x = dict_get Classifier.k_payment_status VNone r
    /\ su_call_made_on x = CallLog.call_made_on l
    /\ su_parsed_outcome x = r
    /\ clients (db w') = clients (db w)
    /\ clock w' = clock w.
Proof.
  intros Hp Hc Hid Htruthy Hl Hinv Hcl Hdur Hparse Hsum.
  rewrite (process_call_webhook_end_of_call _ _ _ Hp).
  rewrite end_of_call_handled.
  rewrite (end_of_call_processed m c cid l inv cl dur r rs w w1
             Hc Hid Htruthy Hl Hinv Hcl Hdur Hparse Hsum).
  destruct (sheet_update_raises _ _) as [e1|];
    [|destruct (flush_call_log _ _) as [e2|]]; cbn [snd];
    (eexists; eexists; split; [reflexivity|]);
    cbn [events db clock su_invoice_id su_client_sheet_id su_response_summary
           su_payment_status su_call_made_on su_parsed_outcome];
    rewrite <- app_assoc; cbn [app]; repeat split.
  destruct (classified_paid r); [|reflexivity].
  unfold mark_paid. destruct (Invoice.is_paid inv); reflexivity.
Qed.

Lemma parse_call_outcome_model_down (transcript summary : json) (w : World)
    (e : exn) :
  generate_content (events w) transcript
    (Classifier.summary_or_default summary) = Raise e ->
  Classifier.parse_call_outcome transcript summary w
  = (Ok (Classifier.fallback e),
     emit w (ModelAsked transcript (Classifier.summary_or_default summary))).
Proof.
  intros H.
  unfold Classifier.parse_call_outcome, Classifier.parse_call_outcome_body,
    try_except, bind, get_world, modify, lift, ret, raise.
  rewrite H. reflexivity.
Qed.

Lemma generate_summary_fallback (e : exn) :
  Classifier.generate_summary (Classifier.fallback e)
  = Ok (u "Language: Unknown | Sentiment: Neutral | Error parsing: "
        ++ exn_msg e).
Proof. reflexivity. Qed.

(** X17.  When the model cannot be reached while a report for a stored
    call is processed, the summary written reads "Language: Unknown |
    Sentiment: Neutral | Error parsing: " and the error, and the outcome is
    "unsuccessful".  When the spreadsheet update lets no exception out and
    the commit flushes the row, the call log is stored completed with that
    summary and no invoice changes; when either fails, the session is
    rolled back and the store is as it was, the call log included. *)
Theorem report_with_model_down (payload : json)
    (m c : list (pystr * json)) (cid : json) (l : CallLog.t)
    (inv : Invoice.t) (cl : Client.t) (dur : json) (e : exn) (w : World) :
  payload_of_type "end-of-call-report" payload m ->
  dict_get k_call (JDict []) m = JDict c ->
  dict_get k_id JNull c = cid ->
  json_truthy cid = true ->
  call_log_by_vapi_call_id (db w) cid = Some l ->
  invoice_of (db w) l = Some inv ->
  client_of (db w) inv = Some cl ->
  call_duration_of (started_at_of c) (ended_at_of c) = Ok dur ->
  generate_content (events w) (transcript_of m)
    (Classifier.summary_or_default (dict_get k_summary (JStr []) m))
  = Raise e ->
  let rs := u "Language: Unknown | Sentiment: Neutral | Error parsing: "
            ++ exn_msg e in
  let l' := completed_call_log l dur (transcript_of m) rs
              (dict_get k_recordingUrl JNull c)
              (dict_get k_cost (JInt 0) c) (Classifier.fallback e) in
  let x := mkSheetUpdate (Invoice.invoice_id inv) (CallLog.call_made_on l) rs
             (dict_get Classifier.k_next_follow_up_date VNone
                (Classifier.fallback e))
             (dict_get Classifier.k_payment_status VNone
                (Classifier.fallback e))
             (Client.google_sheet_id cl) (Classifier.fallback e)
             (J (dict_get k_recordingUrl JNull c)) in
  let asked :=
    events w
    ++ [ModelAsked (transcript_of m)
          (Classifier.summary_or_default (dict_get k_summary (JStr []) m))] in
  exists w',
    process_call_webhook payload w = (Ok tt, w')
    /\ CallLog.call_status l' = COMPLETED
    /\ CallLog.summary l' = VStr rs
    /\ CallLog.call_outcome l' = VStr (u "unsuccessful")
    /\ (sheet_update_raises asked x = None ->
        flush_call_log l l' = None ->
        call_log_by_vapi_call_id (db w') cid = Some l'
        /\ invoices (db w') = invoices (db w))
    /\ (sheet_update_raises asked x <> None \/ flush_call_log l l' <> None ->
        db w' = db w
        /\ call_log_by_vapi_call_id (db w') cid = Some l).
Proof.
  intros Hp Hc Hid Htruthy Hl Hinv Hcl Hdur Hdown rs l' x asked.
  rewrite (process_call_webhook_end_of_call _ _ _ Hp).
  rewrite end_of_call_handled.
  rewrite (end_of_call_processed m c cid l inv cl dur _ _ w _
             Hc Hid Htruthy Hl Hinv Hcl Hdur
             (parse_call_outcome_model_down _ _ _ _ Hdown)
             (generate_summary_fallback e)).
  change (classified_paid (Classifier.fallback e)) with false.
  cbv beta iota. fold rs. fold l'. fold x. fold asked.
  eexists. split; [reflexivity|].
  split; [reflexivity|]. split; [reflexivity|]. split; [reflexivity|].
  destruct (sheet_update_raises asked x) as [e1|];
    [|destruct (flush_call_log l l') as [e2|]]; cbn [snd db]; split.
  - discriminate.
  - intros _. split; [reflexivity | exact Hl].
  - discriminate.
  - intros _. split; [reflexivity | exact Hl].
  - intros _ _. split; [|reflexivity].
    apply call_log_lookup_update with (l := l); [exact Hl | reflexivity..].
  - intros [H | H]; contradiction.
Qed.

End ReportTheorems.

Section ReportExamples.
Import Py Db Effects Orchestrator.

Lemma processed_report_requests_sheet_update_witness :
  exists w' x,
    process_call_webhook (U:=ascii_only) (Sv:=Scenario.quiet)
      (Scenario.end_of_call_report "call-INV-1" 100 160) Scenario.world1
    = (Ok tt, w')
    /\ List.length (events w') = 2%nat
    /\ In (SheetUpdateRequested x) (events w')
    /\ su_invoice_id x = u "INV-1"
    /\ su_client_sheet_id x = Some (u "default-sheet")
    /\ su_payment_status x = VStr (u "paid").
Proof.
  destruct (processed_report_requests_sheet_update (U:=ascii_only)
              (Sv:=Scenario.quiet)
              (Scenario.end_of_call_report "call-INV-1" 100 160)
              (Scenario.end_of_call_message "call-INV-1" 100 160)
              _ _ Scenario.call_log1 Scenario.invoice1 Scenario.client1
              (JInt 60) _ _ Scenario.world1 _
              (ex_intro _ _ (conj eq_refl (conj eq_refl eq_refl)))
              eq_refl eq_refl eq_refl eq_refl eq_refl eq_refl eq_refl
              eq_refl eq_refl)
    as (w' & x & H1 & H2 & H3 & H4 & _ & H6 & _).
  exists w', x. split; [exact H1|].
  split; [rewrite H2; reflexivity|].
  split; [rewrite H2; cbn; tauto|].
  split; [exact H3|]. split; [exact H4 | exact H6].
Defined.

Lemma report_with_model_down_witness :
  let down := Scenario.services
                (Raise (mkExn ServiceError (u "timeout")))
                (Raise (mkExn ServiceError [])) (Ok []) in
  (exists w' l',
     process_call_webhook (U:=ascii_only) (Sv:=down)
       (Scenario.end_of_call_report "call-INV-1" 100 160) Scenario.world1
     = (Ok tt, w')
     /\ call_log_by_vapi_call_id (db w') (JStr (u "call-INV-1")) = Some l'
     /\ CallLog.call_status l' = COMPLETED
     /\ CallLog.summary l'
        = VStr (u "Language: Unknown | Sentiment: Neutral | Error parsing: timeout")
     /\ invoices (db w') = [Scenario.invoice1])
  /\ (exists w',
        process_call_webhook (U:=ascii_only) (Sv:=Samples.services_rejecting)
          (Scenario.end_of_call_report "call-INV-1" 100 160) Scenario.world1
        = (Ok tt, w')
        /\ db w' = db Scenario.world1
        /\ call_log_by_vapi_call_id (db w') (JStr (u "call-INV-1"))
           = Some Scenario.call_log1).
Proof.
  intros down. split.
  - destruct (report_with_model_down (U:=ascii_only) (Sv:=down)
                (Scenario.end_of_call_report "call-INV-1" 100 160)
                (Scenario.end_of_call_message "call-INV-1" 100 160)
                _ _ Scenario.call_log1 Scenario.invoice1 Scenario.client1
                (JInt 60) (mkExn ServiceError (u "timeout")) Scenario.world1
                (ex_intro _ _ (conj eq_refl (conj eq_refl eq_refl)))
                eq_refl eq_refl eq_refl eq_refl eq_refl eq_refl eq_refl
                eq_refl)
      as (w' & H1 & H2 & H3 & _ & H5 & _).
    destruct (H5 eq_refl eq_refl) as (H6 & H7).
    exists w'. eexists. split; [exact H1|]. split; [exact H6|].
    split; [exact H2|]. split; [exact H3 | exact H7].
  - destruct (report_with_model_down (U:=ascii_only)
                (Sv:=Samples.services_rejecting)
                (Scenario.end_of_call_report "call-INV-1" 100 160)
                (Scenario.end_of_call_message "call-INV-1" 100 160)
                _ _ Scenario.call_log1 Scenario.invoice1 Scenario.client1
                (JInt 60) (mkExn ServiceError (u "timeout")) Scenario.world1
                (ex_intro _ _ (conj eq_refl (conj eq_refl eq_refl)))
                eq_refl eq_refl eq_refl eq_refl eq_refl eq_refl eq_refl
                eq_refl)
      as (w' & H1 & _ & _ & _ & _ & H6).
    exists w'. split; [exact H1|]. apply H6. right. discriminate.
Defined.

End ReportExamples.

(* ================================================================== *)
(** * Dispatching calls: what is stored, and when nothing is done *)
(* ================================================================== *)

Section CallLogFacts.
Import Py Db Effects Orchestrator.
Context {U : Unicode} {Sv : Services} {St : Settings} {Sq : Sqlite}.

Lemma existsb_false_find {A : Type} (p : A -> bool) (l : list A) :
  existsb p l = false -> find p l = None.
Proof.
  induction l as [|x l IH]; cbn; [reflexivity|].
  destruct (p x); [discriminate | exact IH].
Qed.

Lemma calls_requested_emit (w : World) (e : event) :
  calls_requested (emit w e)
  = calls_requested w
    ++ match e with CallRequested p => [p] | _ => [] end.
Proof.
  unfold calls_requested, emit. cbn [events].
  rewrite flat_map_app. cbn [flat_map]. rewrite app_nil_r. reflexivity.
Qed.

(** X18.  [make_single_call] asks the provider for exactly one call and
    never raises.  When the provider gives a call id that no call log has
    yet and the payment has its invoice key, one call log is added, in
    progress, for that invoice, and it can be found again by the call id.
    In every other case the store is left as it was. *)
Theorem make_single_call_log (p : Payment.t) (w : World) :
  exists w',
    make_single_call p w = (Ok tt, w')
    /\ calls_requested w' = calls_requested w ++ [p]
    /\ (forall call_id inv,
          fst (make_outbound_call (events w) p) = Some call_id ->
          call_id <> [] ->
          Payment.db_invoice_id p = Some inv ->
          call_log_by_vapi_call_id (db w) (JStr call_id) = None ->
          exists l,
            db w' = mkDB (clients (db w)) (invoices (db w))
                      (call_logs (db w) ++ [l])
            /\ CallLog.invoice_id l = inv
            /\ CallLog.vapi_call_id l = Some call_id
            /\ CallLog.call_status l = IN_PROGRESS
            /\ call_log_by_vapi_call_id (db w') (JStr call_id) = Some l)
    /\ (fst (make_outbound_call (events w) p) = None
        \/ fst (make_outbound_call (events w) p) = Some []
        \/ Payment.db_invoice_id p = None
        \/ (exists call_id,
              fst (make_outbound_call (events w) p) = Some call_id
              /\ call_log_by_vapi_call_id (db w) (JStr call_id) <> None) ->
        db w' = db w).
Proof.
  unfold make_single_call, try_except, bind, get_world, modify, with_db, lift,
    raise, ret.
  destruct (make_outbound_call (events w) p) as [[[|c s]|] dt];
    cbn [fst snd].
  1,3: eexists; split; [reflexivity|];
       unfold advance; cbn [db events];
       split; [apply (calls_requested_emit w (CallRequested p))|];
       split; [intros call_id inv H Hne; inversion H; subst; congruence
              | intros _; reflexivity].
  destruct (Payment.db_invoice_id p) as [inv|] eqn:Einv.
  2:{ eexists; split; [reflexivity|].
      unfold advance, set_db; cbn [db events clock].
      split; [apply (calls_requested_emit w (CallRequested p))|].
      split; [intros call_id inv _ _ H; discriminate | intros _; reflexivity]. }
  unfold add_call_log. unfold advance, set_db, emit. cbn [db events clock].
  destruct (existsb _ (call_logs (db w))) eqn:Eex.
  - eexists; split; [reflexivity|]. cbn [db events clock].
    split; [apply (calls_requested_emit w (CallRequested p))|].
    split; [|intros _; reflexivity].
    intros call_id inv0 H _ _ Hn. inversion H; subst call_id.
    unfold call_log_by_vapi_call_id in Hn.
    apply find_none_existsb in Hn. congruence.
  - eexists; split; [reflexivity|]. cbn [db events clock].
    split; [apply (calls_requested_emit w (CallRequested p))|].
    assert (call_log_by_vapi_call_id (db w) (JStr (c :: s)) = None) as Hn
      by (apply existsb_false_find; exact Eex).
    split.
    + intros call_id inv0 H _ Hi _. inversion H; subst call_id.
      inversion Hi; subst inv0. eexists.
      split; [reflexivity|].
      split; [reflexivity|]. split; [reflexivity|]. split; [reflexivity|].
      unfold call_log_by_vapi_call_id in *. cbn [bound_text call_logs] in *.
      rewrite find_app_none by exact Hn.
      cbn [find CallLog.vapi_call_id]. rewrite str_eqb_refl. reflexivity.
    + intros [H | [H | [H | (call_id & H & Hfound)]]]; try discriminate.
      inversion H; subst call_id. contradiction.
Qed.

End CallLogFacts.

Section BatchFacts.
Import Py Db Effects Orchestrator.
Context {U : Unicode} {Sv : Services} {St : Settings} {Sq : Sqlite}.

Lemma get_pending_payments_total (sheet_id : option pystr) (w : World) :
  exists rows,
    Sheets.get_pending_payments sheet_id w
    = (Ok rows, emit w (SheetFetched sheet_id)).
Proof.
  unfold Sheets.get_pending_payments, try_except, bind, get_world, modify,
    lift, ret.
  destruct (get_all_values (events w) sheet_id); eexists; reflexivity.
Qed.

Lemma sync_loop_raises (sheet_id : option pystr) (now : datetime)
    (payments : list Payment.t) :
  forall d e,
    sync_loop sheet_id now d payments = Raise e ->
    exn_kind_of e = IntegrityError.
Proof.
  induction payments as [|p rest IH]; intros d e; cbn [sync_loop];
    [discriminate|].
  destruct (sync_payment sheet_id now d p) as [[d' p']|e'] eqn:Ep;
    cbn [rbind].
  - destruct (sync_loop sheet_id now d' rest) as [[d'' rest']|e''] eqn:El;
      cbn [rbind]; [discriminate|].
    intros H. inversion H; subst. exact (IH _ _ El).
  - intros H. inversion H; subst. clear H. revert Ep.
    unfold sync_payment.
    destruct (client_by_contact_number d (Payment.contact_number p))
      as [cl|].
    + destruct (sheet_differs sheet_id cl); cbn [rbind];
        (destruct (invoice_by_invoice_id _ (Payment.invoice_id p));
         [discriminate|]);
        unfold add_invoice;
        (destruct (Payment.due_date p);
         [destruct (existsb _ _); [|discriminate] |]);
        cbn [rbind]; intros H; inversion H; reflexivity.
    + unfold add_client. destruct (existsb _ (clients d));
        cbn [rbind]; [intros H; inversion H; reflexivity|].
      destruct (invoice_by_invoice_id _ (Payment.invoice_id p));
        [discriminate|].
      unfold add_invoice.
      destruct (Payment.due_date p);
        [destruct (existsb _ _); [|discriminate] |];
        cbn [rbind]; intros H; inversion H; reflexivity.
Qed.

Lemma sync_to_database_cases (payments : list Payment.t)
    (sheet_id : option pystr) (w : World) :
  (exists synced d,
     sync_loop sheet_id (clock w) (db w) payments = Ok (d, synced)
     /\ sync_to_database payments sheet_id w = (Ok synced, set_db w d))
  \/ (exists e,
        sync_loop sheet_id (clock w) (db w) payments = Raise e
        /\ sync_to_database payments sheet_id w = (Raise e, w)).
Proof.
  unfold sync_to_database, with_db, bind, get_world, lift, modify, ret.
  destruct (sync_loop sheet_id (clock w) (db w) payments) as [[d synced]|e].
  - left. exists synced, d. split; reflexivity.
  - right. exists e. split; [reflexivity|]. destruct w; reflexivity.
Qed.

(** X19.  [sync_to_database] stores all the rows or none: it can fail only
    with an integrity error of the store (a new invoice without a date, a
    duplicate key), and then the world is exactly as before, whatever the
    rows before the failing one would have added. *)
Theorem sync_to_database_all_or_nothing (payments : list Payment.t)
    (sheet_id : option pystr) (w w' : World) (e : exn) :
  sync_to_database payments sheet_id w = (Raise e, w') ->
  w' = w /\ exn_kind_of e = IntegrityError.
Proof.
  destruct (sync_to_database_cases payments sheet_id w)
    as [(synced & d & _ & ->) | (e' & El & ->)]; [discriminate|].
  intros H. inversion H; subst. split; [reflexivity|].
  exact (sync_loop_raises _ _ _ _ _ El).
Qed.

(** X20.  Outside business hours [process_pending_payments] does nothing at
    all: the sheet is not read, nothing is stored, nobody is called; and
    so for every sheet of [process_multiple_sheets]. *)
Theorem outside_business_hours_nothing_happens (sheet_id : option pystr)
    (sheet_ids : list pystr) (w : World) :
  open_for_business w = false ->
  process_pending_payments sheet_id w = (Ok tt, w)
  /\ process_multiple_sheets sheet_ids w = (Ok tt, w).
Proof.
  intros Hclosed.
  assert (forall sid, process_pending_payments sid w = (Ok tt, w)) as Hone.
  { intros sid.
    unfold process_pending_payments, is_business_hours, bind, get_world, ret.
    unfold open_for_business in Hclosed. rewrite Hclosed. reflexivity. }
  split; [apply Hone|].
  induction sheet_ids as [|sid rest IH]; [reflexivity|].
  cbn [process_multiple_sheets]. unfold bind, try_except.
  rewrite Hone. exact IH.
Qed.

(** X21.  When the rows read from the sheet cannot be stored,
    [process_pending_payments] gives the batch up without raising: the
    store is as before and no call is requested. *)
Theorem failed_sync_abandons_batch (sheet_id : option pystr)
    (rows : list Payment.t) (w w1 w2 : World) (e : exn) :
  open_for_business w = true ->
  Sheets.get_pending_payments sheet_id w = (Ok rows, w1) ->
  sync_to_database rows sheet_id w1 = (Raise e, w2) ->
  exists w',
    process_pending_payments sheet_id w = (Ok tt, w')
    /\ db w' = db w
    /\ calls_requested w' = calls_requested w.
Proof.
  intros Hopen Hrows Hsync.
  destruct (get_pending_payments_total sheet_id w) as (rows' & Hr).
  rewrite Hr in Hrows. inversion Hrows; subst rows' w1. clear Hrows.
  destruct (sync_to_database_cases rows sheet_id
              (emit w (SheetFetched sheet_id)))
    as [(synced & d & _ & E) | (e' & _ & E)];
    rewrite E in Hsync; [discriminate|].
  exists (emit w (SheetFetched sheet_id)).
  unfold process_pending_payments, is_business_hours, bind, get_world, ret,
    try_except.
  unfold open_for_business in Hopen. rewrite Hopen. cbn [negb].
  rewrite Hr.
  split.
  - destruct rows as [|p rest]; [reflexivity|]. rewrite E. reflexivity.
  - split; [reflexivity|].
    rewrite calls_requested_emit. apply app_nil_r.
Qed.

(** X22.  With a rate limit of 0 calls a minute [process_pending_payments]
    never requests a call: the delay cannot be computed, and the error is
    swallowed.  By then the rows have been stored: within business hours,
    when the rows read from the sheet could be stored, the store left is
    the one [sync_to_database] committed, in which every row of the sheet
    has its client and its invoice. *)
Theorem rate_limit_zero_places_no_call (sheet_id : option pystr) (w : World) :
  call_rate_limit_per_minute = 0%Z ->
  (forall payments w0, exists e,
      make_calls_with_rate_limit payments w0 = (Raise e, w0)
      /\ exn_kind_of e = ZeroDivisionError)
  /\ exists w',
       process_pending_payments sheet_id w = (Ok tt, w')
       /\ calls_requested w' = calls_requested w
       /\ (forall rows synced_rows w1 w2,
             open_for_business w = true ->
             wf_db (db w) ->
             Sheets.get_pending_payments sheet_id w = (Ok rows, w1) ->
             sync_to_database rows sheet_id w1 = (Ok synced_rows, w2) ->
             db w' = db w2
             /\ Forall2 (fun p p' =>
                           exists inv cl,
                             p' = Payment.set_db_ids p inv cl
                             /\ synced sheet_id (db w') p inv cl)
                        rows synced_rows).
Proof.
  intros Hrate.
  assert (forall payments w0, exists e,
            make_calls_with_rate_limit payments w0 = (Raise e, w0)
            /\ exn_kind_of e = ZeroDivisionError) as Hcalls.
  { intros payments w0. unfold make_calls_with_rate_limit, bind, lift.
    rewrite Hrate. cbn [delay_between_calls]. eexists. split; reflexivity. }
  split; [exact Hcalls|].
  assert (calls_requested (emit w (SheetFetched sheet_id)) = calls_requested w)
    as Hfetch by (rewrite calls_requested_emit; apply app_nil_r).
  destruct (get_pending_payments_total sheet_id w) as (rows & Hr).
  assert (forall synced_rows w2,
            wf_db (db w) ->
            sync_to_database rows sheet_id (emit w (SheetFetched sheet_id))
            = (Ok synced_rows, w2) ->
            Forall2 (fun p p' =>
                       exists inv cl,
                         p' = Payment.set_db_ids p inv cl
                         /\ synced sheet_id (db w2) p inv cl)
                    rows synced_rows) as Hstored.
  { intros synced_rows w2 Hwf Hsync.
    destruct (sync_to_database_cases rows sheet_id
                (emit w (SheetFetched sheet_id)))
      as [(synced' & d & Hloop & E) | (e' & _ & E)];
      rewrite E in Hsync; [|discriminate].
    inversion Hsync; subst synced' w2. clear Hsync.
    cbn [emit db clock] in Hloop.
    destruct (sync_loop_result _ _ _ _ _ _ Hwf Hloop) as (_ & Hall & _).
    exact Hall. }
  unfold process_pending_payments, is_business_hours, bind, get_world, ret,
    try_except.
  unfold open_for_business.
  destruct (_ && _); cbn [negb];
    [|exists w; split; [reflexivity|]; split; [reflexivity|];
      intros ? ? ? ? Hopen; discriminate].
  rewrite Hr.
  destruct rows as [|p rest].
  - eexists. split; [reflexivity|]. split; [exact Hfetch|].
    intros rows synced_rows w1 w2 _ Hwf Hrows Hsync.
    inversion Hrows; subst rows w1. clear Hrows.
    pose proof (Hstored _ _ Hwf Hsync) as Hall.
    match goal with
    | |- ?a = _ /\ _ => assert (a = db w2) as Hdb
    end.
    { destruct (sync_to_database_cases [] sheet_id
                  (emit w (SheetFetched sheet_id)))
        as [(synced' & d & Hloop & E) | (e' & _ & E)];
        rewrite E in Hsync; [|discriminate].
      inversion Hsync; subst. cbn [sync_loop] in Hloop.
      inversion Hloop; subst. reflexivity. }
    split; [exact Hdb | rewrite Hdb; exact Hall].
  - destruct (sync_to_database_cases (p :: rest) sheet_id
                (emit w (SheetFetched sheet_id)))
      as [(synced & d & Hloop & E) | (e' & _ & E)]; rewrite E.
    + destruct (Hcalls synced (set_db (emit w (SheetFetched sheet_id)) d))
        as (e & -> & _).
      eexists. split; [reflexivity|]. split; [exact Hfetch|].
      intros rows synced_rows w1 w2 _ Hwf Hrows Hsync.
      inversion Hrows; subst rows w1. clear Hrows.
      pose proof (Hstored _ _ Hwf Hsync) as Hall.
      match goal with
      | |- ?a = _ /\ _ => assert (a = db w2) as Hdb
      end.
      { rewrite E in Hsync. inversion Hsync; subst. reflexivity. }
      split; [exact Hdb | rewrite Hdb; exact Hall].
    + eexists. split; [reflexivity|]. split; [exact Hfetch|].
      intros rows synced_rows w1 w2 _ Hwf Hrows Hsync.
      inversion Hrows; subst rows w1. clear Hrows.
      rewrite E in Hsync. discriminate.
Qed.

End BatchFacts.

Section BatchExamples.
Import Py Db Effects Orchestrator.

Lemma sync_to_database_all_or_nothing_witness :
  exists e,
    sync_to_database (St:=Scenario.settings)
      [Scenario.payment "INV-1" 1000; Samples.payment_without_date] None
      Scenario.world0
    = (Raise e, Scenario.world0)
    /\ exn_kind_of e = IntegrityError.
Proof.
  eexists. split; [vm_compute; reflexivity|].
  exact (proj2 (sync_to_database_all_or_nothing (St:=Scenario.settings)
                  [Scenario.payment "INV-1" 1000; Samples.payment_without_date]
                  None Scenario.world0 _ _ eq_refl)).
Defined.

Lemma outside_business_hours_nothing_happens_witness :
  process_pending_payments (U:=ascii_only) (Sv:=Samples.services_with_sheet)
    (St:=Scenario.settings) None Samples.world_closed
  = (Ok tt, Samples.world_closed)
  /\ process_multiple_sheets (U:=ascii_only) (Sv:=Samples.services_with_sheet)
       (St:=Scenario.settings) [u "sheet-a"; u "sheet-b"] Samples.world_closed
     = (Ok tt, Samples.world_closed).
Proof.
  apply (outside_business_hours_nothing_happens (U:=ascii_only)
           (Sv:=Samples.services_with_sheet) (St:=Scenario.settings)).
  reflexivity.
Defined.

Lemma failed_sync_abandons_batch_witness :
  let Sv := Scenario.services (Ok []) (Ok JNull) (Ok Scenario.sheet) in
  exists w',
    process_pending_payments (U:=ascii_only) (Sv:=Sv) (St:=Scenario.settings)
      None Samples.world_open = (Ok tt, w')
    /\ db w' = db Samples.world_open
    /\ calls_requested w' = calls_requested Samples.world_open.
Proof.
  intros Sv.
  eapply (failed_sync_abandons_batch (U:=ascii_only) (Sv:=Sv)
            (St:=Scenario.settings) None).
  - reflexivity.
  - vm_compute. reflexivity.
  - vm_compute. reflexivity.
Defined.

Lemma rate_limit_zero_places_no_call_witness :
  exists w',
    process_pending_payments (U:=ascii_only) (Sv:=Samples.services_with_sheet)
      (St:=Samples.settings_rate_zero) None Samples.world_open = (Ok tt, w')
    /\ calls_requested w' = []
    /\ List.map Invoice.invoice_id (invoices (db w'))
       = [u "INV-1"; u "INV-4"].
Proof.
  assert (exists rows w1 synced_rows w2,
            Sheets.get_pending_payments (U:=ascii_only)
              (Sv:=Samples.services_with_sheet) None Samples.world_open
            = (Ok rows, w1)
            /\ sync_to_database (St:=Samples.settings_rate_zero) rows None w1
               = (Ok synced_rows, w2)
            /\ List.map Invoice.invoice_id (invoices (db w2))
               = [u "INV-1"; u "INV-4"])
    as (rows & w1 & synced_rows & w2 & Hrows & Hsync & Hids).
  { eexists. eexists. eexists. eexists.
    split; [vm_compute; reflexivity|].
    split; vm_compute; reflexivity. }
  destruct (proj2 (rate_limit_zero_places_no_call (U:=ascii_only)
                     (Sv:=Samples.services_with_sheet)
                     (St:=Samples.settings_rate_zero) None Samples.world_open
                     eq_refl))
    as (w' & H1 & H2 & H3).
  exists w'. split; [exact H1|]. split; [exact H2|].
  destruct (H3 rows synced_rows w1 w2) as (Hdb & _); try assumption.
  - reflexivity.
  - repeat split; constructor.
  - rewrite Hdb. exact Hids.
Defined.

End BatchExamples.

(* ================================================================== *)
(** * Messages that change nothing, and the manual triggers *)
(* ================================================================== *)

Section QuietMessages.
Import Py Db Effects Orchestrator.
Context {U : Unicode} {Sv : Services} {St : Settings} {Sq : Sqlite}.

Lemma json_eq_str_true (j : json) (s : pystr) :
  json_eq_str j s = true -> j = JStr s.
Proof.
  destruct j; cbn; try discriminate.
  intros H. apply str_eqb_eq in H. congruence.
Qed.

Lemma dict_get_json_str (k : pystr) (d : list (pystr * json)) (s : pystr) :
  dict_get k JNull d = JStr s -> dict_lookup k d = Some (JStr s).
Proof.
  unfold dict_get. destruct (dict_lookup k d); [congruence | discriminate].
Qed.

(** X23.  A webhook payload that is neither a status update nor an
    end-of-call report (a transcript, any other type, no type at all, a
    payload that is not even an object) leaves the world exactly as it is,
    and [process_call_webhook] returns normally. *)
Theorem other_messages_change_nothing (payload : json) (w : World) :
  (forall m, ~ payload_of_type "status-update" payload m) ->
  (forall m, ~ payload_of_type "end-of-call-report" payload m) ->
  process_call_webhook payload w = (Ok tt, w).
Proof.
  intros Hs He.
  unfold process_call_webhook, process_call_webhook_body, try_except, bind,
    lift, ret, json_get.
  destruct payload as [| | | | | |wd]; try reflexivity.
  unfold dict_get at 1.
  destruct (dict_lookup k_message wd) as [[| | | | | |m]|] eqn:Em;
    try reflexivity.
  destruct (json_eq_str (dict_get k_type JNull m) (u "status-update")) eqn:E1.
  { exfalso. apply (Hs m). exists wd. split; [reflexivity|].
    split; [exact Em|].
    apply dict_get_json_str. apply json_eq_str_true. exact E1. }
  destruct (json_eq_str (dict_get k_type JNull m) (u "end-of-call-report"))
    eqn:E2.
  { exfalso. apply (He m). exists wd. split; [reflexivity|].
    split; [exact Em|].
    apply dict_get_json_str. apply json_eq_str_true. exact E2. }
  destruct (json_eq_str _ (u "transcript")); reflexivity.
Qed.

(** X24.  A status update for a call id that no call log has leaves the
    world exactly as it is: no row is created for it. *)
Theorem status_update_unknown_id (payload : json) (m : list (pystr * json))
    (w : World) :
  payload_of_type "status-update" payload m ->
  (forall cid, reported_call_id m = Some cid ->
               call_log_by_vapi_call_id (db w) cid = None) ->
  process_call_webhook payload w = (Ok tt, w).
Proof.
  intros Hp Hnone.
  rewrite (process_call_webhook_status_update _ _ _ Hp).
  unfold _handle_status_update, _handle_status_update_body, try_except, bind,
    lift, ret, json_get, with_db, get_world, raise_if, typed_writes.
  unfold reported_call_id in Hnone.
  destruct (dict_get k_call (JDict []) m) as [| | | | | |c]; try reflexivity.
  destruct (negb (json_truthy (dict_get k_id JNull c))); [reflexivity|].
  destruct (bind_error (dict_get k_id JNull c));
    [destruct w; reflexivity|].
  rewrite (Hnone _ eq_refl). reflexivity.
Qed.

End QuietMessages.

Section RouteFacts.
Import Py Db Effects Orchestrator CallsRoute.
Context {U : Unicode} {Sv : Services} {St : Settings} {Sq : Sqlite}.


(** X25.  The manual trigger answers 404 and does nothing when no invoice
    has the number given.  When the invoice and its client are in the
    store, it requests exactly one call, for a payment made of their
    columns, and answers success, whatever the provider replied; invoices
    and clients are not touched. *)
Theorem trigger_manual_call_answers (invoice_id : pystr) (w : World) :
  (invoice_by_invoice_id (db w) invoice_id = None ->
   trigger_manual_call invoice_id w
   = (Ok (HTTPException 404 (u "Invoice not found")), w))
  /\ (forall v c,
        invoice_by_invoice_id (db w) invoice_id = Some v ->
        client_of (db w) v = Some c ->
        exists w',
          trigger_manual_call invoice_id w
          = (Ok (Success (u "Call initiated for invoice " ++ invoice_id)), w')
          /\ calls_requested w' = calls_requested w ++ [payment_data c v]
          /\ Payment.invoice_id (payment_data c v) = invoice_id
          /\ Payment.db_invoice_id (payment_data c v) = Some (Invoice.id v)
          /\ invoices (db w') = invoices (db w)
          /\ clients (db w') = clients (db w)).
Proof.
  unfold trigger_manual_call, try_except, bind, get_world, ret, raise.
  split.
  - intros ->. reflexivity.
  - intros v c Hv Hc. rewrite Hv, Hc.
    destruct (make_single_call_world (payment_data c v) w)
      as (w' & -> & Hev & _ & Hcl & Hinv).
    exists w'. split; [reflexivity|].
    split.
    { unfold calls_requested. rewrite Hev, flat_map_app. cbn [flat_map].
      rewrite app_nil_r. reflexivity. }
    split.
    { cbn [payment_data Payment.invoice_id].
      unfold invoice_by_invoice_id in Hv. apply find_some in Hv.
      apply str_eqb_eq. exact (proj2 Hv). }
    repeat split; assumption.
Qed.


End RouteFacts.

Section RouteExamples.
Import Py Db Effects Orchestrator.

Lemma other_messages_change_nothing_witness :
  process_call_webhook (U:=ascii_only) (Sv:=Scenario.quiet)
    (JDict [ (u "message", JDict [ (u "type", JStr (u "transcript")) ]) ])
    Scenario.world1
  = (Ok tt, Scenario.world1)
  /\ process_call_webhook (U:=ascii_only) (Sv:=Scenario.quiet)
       (JList []) Scenario.world1
     = (Ok tt, Scenario.world1).
Proof.
  split.
  - apply (other_messages_change_nothing (U:=ascii_only) (Sv:=Scenario.quiet));
      intros m (wd & E & Hm & Ht); inversion E; subst wd;
      cbn in Hm; inversion Hm; subst m; cbn in Ht; discriminate.
  - apply (other_messages_change_nothing (U:=ascii_only) (Sv:=Scenario.quiet));
      intros m (wd & E & _); discriminate.
Defined.

Lemma status_update_unknown_id_witness :
  process_call_webhook (U:=ascii_only) (Sv:=Scenario.quiet)
    (Scenario.status_update "ended") Scenario.world0
  = (Ok tt, Scenario.world0).
Proof.
  apply (status_update_unknown_id (U:=ascii_only) (Sv:=Scenario.quiet)
           (Scenario.status_update "ended")
           [ (u "type", JStr (u "status-update"));
             (u "status", JStr (u "ended"));
             (u "call", JDict [ (u "id", JStr (u "call-INV-1")) ]) ]).
  - eexists. split; [reflexivity|]. split; reflexivity.
  - intros cid H. compute in H. injection H as <-. reflexivity.
Defined.

Lemma trigger_manual_call_answers_witness :
  CallsRoute.trigger_manual_call (Sv:=Samples.services_declining) (u "INV-404") Scenario.world1
  = (Ok (CallsRoute.HTTPException 404 (u "Invoice not found")), Scenario.world1)
  /\ exists w',
       CallsRoute.trigger_manual_call (Sv:=Samples.services_declining) (u "INV-1") Scenario.world1
       = (Ok (CallsRoute.Success (u "Call initiated for invoice INV-1")), w')
       /\ List.length (calls_requested w') = 1%nat
       /\ db w' = db Scenario.world1.
Proof.
  destruct (trigger_manual_call_answers (Sv:=Samples.services_declining) (u "INV-404") Scenario.world1)
    as (H404 & _).
  split; [exact (H404 eq_refl)|].
  destruct (trigger_manual_call_answers (Sv:=Samples.services_declining) (u "INV-1") Scenario.world1)
    as (_ & Hok).
  destruct (Hok Scenario.invoice1 Scenario.client1 eq_refl eq_refl)
    as (w' & H1 & H2 & _).
  exists w'. split; [exact H1|]. split; [rewrite H2; reflexivity|].
  assert (snd (CallsRoute.trigger_manual_call (Sv:=Samples.services_declining) (u "INV-1") Scenario.world1)
          = Effects.advance
              (Effects.emit Scenario.world1
                 (CallRequested
                    (CallsRoute.payment_data Scenario.client1
                       Scenario.invoice1))) 2%Q) as Hw
    by (vm_compute; reflexivity).
  rewrite H1 in Hw. cbn [snd] in Hw. rewrite Hw. reflexivity.
Defined.

End RouteExamples.

(* ================================================================== *)
(** * The transcriber keywords *)
(* ================================================================== *)

Section KeywordFacts.
Import Py Vapi.
Context {L : Letters}.

Lemma filter_all {A : Type} (p : A -> bool) (l : list A) :
  forallb p l = true -> filter p l = l.
Proof.
  induction l as [|x l IH]; cbn; [reflexivity|].
  destruct (p x); cbn; [|discriminate]. intros H. rewrite IH; auto.
Qed.

Lemma forallb_filter {A : Type} (p : A -> bool) (l : list A) :
  forallb p (filter p l) = true.
Proof.
  induction l as [|x l IH]; cbn; [reflexivity|].
  destruct (p x) eqn:E; cbn; [rewrite E|]; exact IH.
Qed.

Lemma keep_words_letters (words : list pystr) :
  Forall (fun w => (3 <= List.length w)%nat /\ forallb isalpha w = true)
    (keep_words words).
Proof.
  induction words as [|w rest IH]; cbn [keep_words]; [constructor|].
  unfold letters_of.
  destruct (Nat.leb 3 (List.length (filter isalpha w))) eqn:E; [|exact IH].
  constructor; [|exact IH].
  split; [apply Nat.leb_le; exact E | apply forallb_filter].
Qed.

Lemma keep_words_kept (words : list pystr) :
  Forall (fun w => (3 <= List.length w)%nat /\ forallb isalpha w = true)
    words ->
  keep_words words = words.
Proof.
  induction 1 as [|w rest [Hlen Hal] _ IH]; cbn [keep_words]; [reflexivity|].
  unfold letters_of. rewrite (filter_all _ _ Hal).
  apply Nat.leb_le in Hlen. rewrite Hlen, IH. reflexivity.
Qed.

(** X27.  The keywords handed to the transcriber are the four words
    "Contigo", "Solutions", "invoice" and "payment" followed by words
    taken from the client and company names, each followed by ":2"; every
    word among them is made of letters only and has three letters or
    more. *)
Theorem keywords_are_boosted_words (client_name company_name : pystr) :
  exists words,
    keywords client_name company_name
    = List.map (fun kw => kw ++ u ":2")
        (List.map u ["Contigo"; "Solutions"; "invoice"; "payment"]%string
         ++ words)
    /\ words = keep_words (split client_name)
               ++ keep_words (split company_name)
    /\ Forall (fun w => (3 <= List.length w)%nat
                        /\ forallb isalpha w = true) words.
Proof.
  exists (keep_words (split client_name) ++ keep_words (split company_name)).
  assert (Forall (fun w => (3 <= List.length w)%nat
                           /\ forallb isalpha w = true)
            (keep_words (split client_name)
             ++ keep_words (split company_name))) as Hw
    by (apply Forall_app; split; apply keep_words_letters).
  split; [|split; [reflexivity | exact Hw]].
  unfold keywords, base_keywords.
  rewrite keep_words_kept; [reflexivity|].
  apply Forall_app. split; [|exact Hw].
  repeat constructor.
Qed.

End KeywordFacts.

(* ================================================================== *)
(** * The batch from sheet to calls *)
(* ================================================================== *)

Section WorkflowFacts.
Import Py Db Effects Orchestrator.
Context {U : Unicode} {Sv : Services} {St : Settings} {Sq : Sqlite}.

Lemma calls_requested_events (w w' : World) (l : list event) :
  events w' = events w ++ l ->
  calls_requested w'
  = calls_requested w
    ++ flat_map (fun e => match e with CallRequested p => [p] | _ => [] end) l.
Proof.
  intros H. unfold calls_requested. rewrite H. apply flat_map_app.
Qed.

Lemma calls_loop_requests (delay : float) (payments : list Payment.t) :
  forall w, exists w',
    calls_loop delay payments w = (Ok tt, w')
    /\ calls_requested w' = calls_requested w ++ payments
    /\ clients (db w') = clients (db w)
    /\ invoices (db w') = invoices (db w).
Proof.
  induction payments as [|p rest IH]; intros w; cbn [calls_loop].
  - exists w. unfold ret. rewrite app_nil_r. auto.
  - unfold bind.
    destruct (make_single_call_world p w) as (w1 & -> & Hev1 & _ & Hc1 & Hi1).
    apply calls_requested_events in Hev1. cbn [flat_map app] in Hev1.
    assert (exists w2,
              (match rest with
               | [] => ret tt
               | _ :: _ => asyncio_sleep delay
               end) w1 = (Ok tt, w2)
              /\ calls_requested w2 = calls_requested w1
              /\ db w2 = db w1) as (w2 & -> & Hev2 & Hdb2).
    { destruct rest as [|q rest'].
      - exists w1. unfold ret. auto.
      - destruct (asyncio_sleep_world delay w1) as (w2 & E & Hev & _ & Hdb).
        exists w2. split; [exact E|]. split; [|exact Hdb].
        apply calls_requested_events in Hev. cbn [flat_map app] in Hev.
        rewrite Hev. apply app_nil_r. }
    destruct (IH w2) as (w' & -> & Hev3 & Hc3 & Hi3).
    exists w'. split; [reflexivity|].
    rewrite Hev3, Hev2, Hev1, <- app_assoc, Hc3, Hi3, Hdb2.
    auto.
Qed.

(** X28.  With any rate limit other than 0, [make_calls_with_rate_limit]
    requests one call for every payment of the batch, in the order of the
    batch, whatever the provider answers to each: a call that fails does
    not stop the ones after it.  Clients and invoices are not touched. *)
Theorem every_payment_is_dialled_once (payments : list Payment.t) (w : World) :
  call_rate_limit_per_minute <> 0%Z ->
  exists w',
    make_calls_with_rate_limit payments w = (Ok tt, w')
    /\ calls_requested w' = calls_requested w ++ payments
    /\ clients (db w') = clients (db w)
    /\ invoices (db w') = invoices (db w).
Proof.
  intros Hrate. unfold make_calls_with_rate_limit, bind, lift.
  destruct call_rate_limit_per_minute eqn:E; [contradiction| |];
    cbn [delay_between_calls]; apply calls_loop_requests.
Qed.

(** X29.  Within business hours, with a rate limit other than 0, when the
    rows read from the sheet could be stored, [process_pending_payments]
    requests exactly one call for each row, in the order of the sheet; each
    payment dialled is the row with the keys of its invoice and client in
    the store. *)
Theorem pending_rows_are_dialled (sheet_id : option pystr)
    (rows synced_rows : list Payment.t) (w w1 w2 : World) :
  open_for_business w = true ->
  call_rate_limit_per_minute <> 0%Z ->
  wf_db (db w) ->
  Sheets.get_pending_payments sheet_id w = (Ok rows, w1) ->
  sync_to_database rows sheet_id w1 = (Ok synced_rows, w2) ->
  exists w',
    process_pending_payments sheet_id w = (Ok tt, w')
    /\ calls_requested w' = calls_requested w ++ synced_rows
    /\ clients (db w') = clients (db w2)
    /\ invoices (db w') = invoices (db w2)
    /\ Forall2 (fun p p' =>
                  exists inv cl,
                    p' = Payment.set_db_ids p inv cl
                    /\ synced sheet_id (db w2) p inv cl)
               rows synced_rows.
Proof.
  intros Hopen Hrate Hwf Hrows Hsync.
  destruct (get_pending_payments_total sheet_id w) as (rows' & Hr).
  rewrite Hr in Hrows. inversion Hrows; subst rows' w1. clear Hrows.
  assert (calls_requested (emit w (SheetFetched sheet_id)) = calls_requested w)
    as Hfetch by (rewrite calls_requested_emit; apply app_nil_r).
  destruct (sync_to_database_cases rows sheet_id
              (emit w (SheetFetched sheet_id)))
    as [(synced' & d & Hloop & E) | (e' & _ & E)];
    rewrite E in Hsync; [|discriminate].
  inversion Hsync; subst synced' w2. clear Hsync.
  cbn [emit db clock] in Hloop.
  destruct (sync_loop_result sheet_id (clock w) rows (db w) d synced_rows
              Hwf Hloop) as (_ & Hall & _).
  unfold process_pending_payments, is_business_hours, bind, get_world, ret,
    try_except.
  unfold open_for_business in Hopen. rewrite Hopen. cbn [negb].
  rewrite Hr.
  destruct rows as [|p rest].
  - inversion Hall; subst.
    exists (emit w (SheetFetched sheet_id)). split; [reflexivity|].
    rewrite Hfetch, app_nil_r.
    cbn [sync_loop] in Hloop. inversion Hloop; subst d.
    repeat split; auto.
  - rewrite E.
    assert (exists w',
              make_calls_with_rate_limit synced_rows
                (set_db (emit w (SheetFetched sheet_id)) d) = (Ok tt, w')
              /\ calls_requested w'
                 = calls_requested (set_db (emit w (SheetFetched sheet_id)) d)
                   ++ synced_rows
              /\ clients (db w')
                 = clients (db (set_db (emit w (SheetFetched sheet_id)) d))
              /\ invoices (db w')
                 = invoices (db (set_db (emit w (SheetFetched sheet_id)) d)))
      as (w' & -> & Hev & Hc & Hi).
    { unfold make_calls_with_rate_limit, bind, lift.
      destruct call_rate_limit_per_minute; [contradiction| |];
        cbn [delay_between_calls]; apply calls_loop_requests. }
    exists w'. split; [reflexivity|].
    split; [rewrite Hev; unfold calls_requested, set_db; cbn [events];
            fold (calls_requested (emit w (SheetFetched sheet_id)));
            rewrite Hfetch; reflexivity|].
    split; [exact Hc|]. split; [exact Hi | exact Hall].
Qed.

End WorkflowFacts.

Section WorkflowExamples.
Import Py Db Effects Orchestrator.

Lemma every_payment_is_dialled_once_witness :
  exists w',
    make_calls_with_rate_limit (Sv:=Samples.services_declining)
      (St:=Scenario.settings) Scenario.payments Scenario.world0 = (Ok tt, w')
    /\ calls_requested w' = Scenario.payments
    /\ db w' = db Scenario.world0.
Proof.
  destruct (every_payment_is_dialled_once (Sv:=Samples.services_declining)
              (St:=Scenario.settings) Scenario.payments Scenario.world0)
    as (w' & H1 & H2 & _); [discriminate|].
  exists w'. split; [exact H1|]. split; [exact H2|].
  assert (db (snd (make_calls_with_rate_limit (Sv:=Samples.services_declining)
                     (St:=Scenario.settings) Scenario.payments
                     Scenario.world0)) = db Scenario.world0) as Hdb
    by (vm_compute; reflexivity).
  rewrite H1 in Hdb. exact Hdb.
Defined.

Lemma pending_rows_are_dialled_witness :
  exists w',
    process_pending_payments (U:=ascii_only) (Sv:=Samples.services_with_sheet)
      (St:=Scenario.settings) None Samples.world_open = (Ok tt, w')
    /\ List.map Payment.invoice_id (calls_requested w')
       = [u "INV-1"; u "INV-4"]
    /\ List.map Payment.db_invoice_id (calls_requested w')
       = [Some 1%Z; Some 2%Z].
Proof.
  assert (exists rows w1 synced_rows w2,
            Sheets.get_pending_payments (U:=ascii_only)
              (Sv:=Samples.services_with_sheet) None Samples.world_open
            = (Ok rows, w1)
            /\ sync_to_database (St:=Scenario.settings) rows None w1
               = (Ok synced_rows, w2)
            /\ List.map Payment.invoice_id synced_rows
               = [u "INV-1"; u "INV-4"]
            /\ List.map Payment.db_invoice_id synced_rows
               = [Some 1%Z; Some 2%Z])
    as (rows & w1 & synced_rows & w2 & Hrows & Hsync & Hids & Hkeys).
  { eexists. eexists. eexists. eexists.
    split; [vm_compute; reflexivity|].
    split; [vm_compute; reflexivity|].
    split; vm_compute; reflexivity. }
  destruct (pending_rows_are_dialled (U:=ascii_only)
              (Sv:=Samples.services_with_sheet) (St:=Scenario.settings)
              None rows synced_rows Samples.world_open w1 w2)
    as (w' & H1 & H2 & _); try assumption.
  - reflexivity.
  - discriminate.
  - repeat split; constructor.
  - exists w'. split; [exact H1|]. rewrite H2. split; assumption.
Defined.

End WorkflowExamples.
